(** * PetPal booking front end: calendar grid, record normalisation,
      booking life cycle against the Strapi store.

    The development embeds three source files, the client module and
    the pages (AccountSettings and MyBookings come in one file):
    - [services/strapi.js]   (fetchBookingsForUser, checkBookingExists,
                              cancelBooking, createBooking, updateBooking,
                              getImageUrl),
    - the Schedule page      (generateCalendar, isDateDisabled, the cell
                              click handler, onBook; getDateKey, the cells
                              drawn, the month navigation, the service
                              handed over by the router),
    - the MyBookings page    (the upcoming / past tab filters; the image
                              helper, fetchUserBookings, the dialog,
                              handleCancelBooking, handleBookAgain,
                              handleRescheduleBooking),
    - the AccountSettings page (the name fields, handleSaveInfo,
                              handleCancelEdit, handleUpdatePassword).

    Numbers are integers ([Z]); a [string] holds the UTF-8 bytes of a
    text, and its length and white space are those of the text; a
    JavaScript [Date] is a valid date, kept by its local time value in
    milliseconds, with the time zone of the host a parameter.  What the
    code takes from its host (the network and the store behind [fetch],
    [JSON.parse], the messages of the errors the engine raises, [dayjs])
    is a parameter of the development as well. *)

From Stdlib Require Import ZArith List String Ascii Bool Lia Arith Sorted.
From Stdlib Require Import DecimalString.
From Stdlib Require DecimalZ DecimalPos.
Import ListNotations.

Local Open Scope Z_scope.

(* ================================================================== *)
(** * Part I.  The program *)
(* ================================================================== *)

(** ** The host's [Date] object *)

(** The day arithmetic of ECMAScript (sec. "Time Values and Time Range",
    "Day Number", "Year Number", "Month Number", "Date Number", "Week
    Day", "MakeDay", "MakeFullYear", "LocalTime", "UTC", "TimeClip").  A
    [Date] of the model is a valid date, kept by its local time value in
    milliseconds: every getter the pages use reads local time.  The time
    zone enters where a date is built from local fields
    ([new Date(y, m, d)]) and where an instant is printed in UTC
    ([toISOString]). *)
Module JSDate.

Definition Date := Z.

Definition msPerDay : Z := 86400000.

Definition Day (t : Date) : Z := t / msPerDay.

Definition DayFromYear (y : Z) : Z :=
  365 * (y - 1970) + (y - 1969) / 4 - (y - 1901) / 100 + (y - 1601) / 400.

Definition leap (y : Z) : bool :=
  (y mod 4 =? 0) && (negb (y mod 100 =? 0) || (y mod 400 =? 0)).

Definition DaysInYear (y : Z) : Z := if leap y then 366 else 365.

(** The year of a day number: the largest [y] with [DayFromYear y <= d].
    Computed by splitting the days since 1 January 1601 into 400-year,
    100-year, 4-year and 1-year blocks. *)
Definition YearFromDay (d : Z) : Z :=
  let n  := d + 134774 in
  let a  := n / 146097 in
  let r  := n mod 146097 in
  let c  := Z.min (r / 36524) 3 in
  let r2 := r - c * 36524 in
  let q  := r2 / 1461 in
  let r3 := r2 mod 1461 in
  let e  := Z.min (r3 / 365) 3 in
  1601 + 400 * a + 100 * c + 4 * q + e.

Definition DayWithinYear (d : Z) : Z := d - DayFromYear (YearFromDay d).

(** Day within the year on which month [m] (0..11) starts; any other
    [m] gives the length of the year. *)
Definition monthStart (lp : bool) (m : Z) : Z :=
  match m with
  | 0 => 0
  | 1 => 31
  | 2 => if lp then 60 else 59
  | 3 => if lp then 91 else 90
  | 4 => if lp then 121 else 120
  | 5 => if lp then 152 else 151
  | 6 => if lp then 182 else 181
  | 7 => if lp then 213 else 212
  | 8 => if lp then 244 else 243
  | 9 => if lp then 274 else 273
  | 10 => if lp then 305 else 304
  | 11 => if lp then 335 else 334
  | _ => if lp then 366 else 365
  end.

(** Number of days of month [m] (0..11). *)
Definition daysInMonth (lp : bool) (m : Z) : Z :=
  match m with
  | 1 => if lp then 29 else 28
  | 3 | 5 | 8 | 10 => 30
  | _ => 31
  end.

(** The month of a day within the year. *)
Definition monthOfYearDay (lp : bool) (w : Z) : Z :=
  if w <? monthStart lp 1 then 0
  else if w <? monthStart lp 2 then 1
  else if w <? monthStart lp 3 then 2
  else if w <? monthStart lp 4 then 3
  else if w <? monthStart lp 5 then 4
  else if w <? monthStart lp 6 then 5
  else if w <? monthStart lp 7 then 6
  else if w <? monthStart lp 8 then 7
  else if w <? monthStart lp 9 then 8
  else if w <? monthStart lp 10 then 9
  else if w <? monthStart lp 11 then 10
  else 11.

Definition MonthFromDay (d : Z) : Z :=
  monthOfYearDay (leap (YearFromDay d)) (DayWithinYear d).

Definition DateFromDay (d : Z) : Z :=
  DayWithinYear d - monthStart (leap (YearFromDay d)) (MonthFromDay d) + 1.

Definition WeekDay (d : Z) : Z := (d + 4) mod 7.

(** [MakeDay(year, month, date)]: months outside 0..11 carry into the
    year, dates outside the month carry into the neighbouring months. *)
Definition MakeDay (year month date : Z) : Z :=
  let ym := year + month / 12 in
  let mn := month mod 12 in
  DayFromYear ym + monthStart (leap ym) mn + date - 1.

(** [MakeFullYear]: the [Date] constructor reads a year from 0 to 99 as
    1900 + year. *)
Definition MakeFullYear (y : Z) : Z :=
  if (0 <=? y) && (y <=? 99) then 1900 + y else y.

(** The time zone of the host, by the two conversions of ECMAScript:
    [LocalTime t] is the local time of the time value [t], and [UTC t]
    the time value that the local time [t] is read as.  Where the zone
    skips a local time (clocks put forward, or a day left out at the
    date line) a date built for it lies later, by what was skipped; no
    zone of the tz database skips as much as two days.  The local time of
    a date so built is read as the instant of that date again. *)
Class Zone : Type := {
  UTC : Z -> Z;
  LocalTime : Z -> Z;
  lands : forall t, t <= LocalTime (UTC t) < t + 2 * msPerDay;
  readsBack : forall t, UTC (LocalTime (UTC t)) = UTC t
}.

(** Time values range over 8.64e15 milliseconds either side of 1970
    ([TimeClip]); a [Date] built outside that range is an Invalid Date,
    which is not a [Date] of this model.  [inRange t] says that the local
    time [t] is inside. *)
Definition timeLimit : Z := 8640000000000000.

Definition inRange {zone : Zone} (t : Z) : Prop := Z.abs (UTC t) <= timeLimit.

(** The [Date] built for the local time [t], for [t] in range. *)
Definition atLocal {zone : Zone} (t : Z) : Date := LocalTime (UTC t).

(** [new Date(year, month, date)]: the date built for local midnight of
    that day. *)
Definition newDate {zone : Zone} (year month date : Z) : Date :=
  atLocal (MakeDay (MakeFullYear year) month date * msPerDay).

(** A zone at a fixed [offset] from UTC, in milliseconds. *)
Lemma fixedOffset_lands (offset t : Z) :
  t <= t - offset + offset < t + 2 * msPerDay.
Proof. unfold msPerDay. lia. Qed.

Lemma fixedOffset_readsBack (offset t : Z) :
  t - offset + offset - offset = t - offset.
Proof. lia. Qed.

Definition fixedOffset (offset : Z) : Zone :=
  {| UTC := fun t => t - offset;
     LocalTime := fun t => t + offset;
     lands := fixedOffset_lands offset;
     readsBack := fixedOffset_readsBack offset |}.

Definition getFullYear (t : Date) : Z := YearFromDay (Day t).
Definition getMonth (t : Date) : Z := MonthFromDay (Day t).
Definition getDate (t : Date) : Z := DateFromDay (Day t).
Definition getDay (t : Date) : Z := WeekDay (Day t).

(** [d.setHours(0, 0, 0, 0)]: the time of day is dropped. *)
Definition setHours0 (t : Date) : Date := Day t * msPerDay.

End JSDate.

(** ** JavaScript values and strings *)

Module JS.

Local Open Scope string_scope.

(** A [string] holds the UTF-8 bytes of a text.  Comparison, [++],
    [startsWith] and [includes] work on the bytes as they work on the
    text; [length] counts UTF-16 code units, as [s.length] does: one for
    a character of one, two or three bytes, two for a character of four
    bytes (a surrogate pair). *)
Definition units (c : ascii) : nat :=
  let n := nat_of_ascii c in
  if ((128 <=? n) && (n <? 192))%nat then 0%nat
  else if (240 <=? n)%nat then 2%nat else 1%nat.

Fixpoint length (s : string) : nat :=
  match s with
  | EmptyString => 0%nat
  | String c s' => (units c + length s')%nat
  end.

(** The first character of a text, with all of its bytes. *)
Definition firstChar (s : string) : string :=
  match s with
  | EmptyString => ""
  | String c s' =>
      let n := nat_of_ascii c in
      String c (substring 0 (if (n <? 192)%nat then 0
                             else if (n <? 224)%nat then 1
                             else if (n <? 240)%nat then 2 else 3) s')
  end.

(** The values that travel through the client: what [JSON.parse] yields,
    with [undefined] for an absent property.  Numbers are integers. *)
#[local] Unset Elimination Schemes.
Inductive value : Type :=
| undefined
| null
| JBool (b : bool)
| JNumber (n : Z)
| JString (s : string)
| JArray (xs : list value)
| JObject (fields : list (string * value)).
#[local] Set Elimination Schemes.

(** ToBoolean. *)
Definition truthy (v : value) : bool :=
  match v with
  | undefined | null => false
  | JBool b => b
  | JNumber n => negb (n =? 0)%Z
  | JString s => negb (s =? "")
  | JArray _ | JObject _ => true
  end.

(** [a || b] and [a && b]. *)
Definition or (a b : value) : value := if truthy a then a else b.
Definition and (a b : value) : value := if truthy a then b else a.

Definition nullish (v : value) : bool :=
  match v with undefined | null => true | _ => false end.

Fixpoint assoc (k : string) (fields : list (string * value)) : value :=
  match fields with
  | [] => undefined
  | (k', v) :: rest => if k =? k' then v else assoc k rest
  end.

(** [v.k] for a value [v] that is neither [null] nor [undefined] (reading
    a property of those throws; see [Strapi.read]).  Arrays and strings
    carry [length]. *)
Definition get (v : value) (k : string) : value :=
  match v with
  | JObject fields => assoc k fields
  | JArray xs => if k =? "length" then JNumber (Z.of_nat (List.length xs)) else undefined
  | JString s => if k =? "length" then JNumber (Z.of_nat (length s)) else undefined
  | _ => undefined
  end.

(** [v[0]]; of a text, its first character. *)
Definition first (v : value) : value :=
  match v with
  | JArray (x :: _) => x
  | JString (String c s) => JString (firstChar (String c s))
  | JObject fields => assoc "0" fields
  | _ => undefined
  end.

Definition typeof_string (v : value) : bool :=
  match v with JString _ => true | _ => false end.

(** [v === 'text']. *)
Definition strictEq (v : value) (text : string) : bool :=
  match v with
  | JString s => s =? text
  | _ => false
  end.

(** [s.startsWith(p)] and [s.includes(sub)]. *)
Definition startsWith (s p : string) : bool := String.prefix p s.

Fixpoint includes (s sub : string) : bool :=
  if String.prefix sub s then true
  else match s with
       | EmptyString => false
       | String _ s' => includes s' sub
       end.

(** White space of [String.prototype.trim]: the characters WhiteSpace
    and LineTerminator of ECMAScript, each by its UTF-8 bytes.
    - one byte: U+0009 to U+000D and U+0020;
    - two bytes: U+00A0 (C2 A0);
    - three bytes: U+1680 (E1 9A 80), U+2000 to U+200A (E2 80 80 to
      E2 80 8A), U+2028, U+2029 and U+202F (E2 80 A8, A9, AF), U+205F
      (E2 81 9F), U+3000 (E3 80 80) and U+FEFF (EF BB BF). *)
Definition isSpace (c : ascii) : bool :=
  let n := nat_of_ascii c in
  ((9 <=? n) && (n <=? 13))%nat || (n =? 32)%nat.

Definition isSpace2 (c1 c2 : ascii) : bool :=
  ((nat_of_ascii c1 =? 194) && (nat_of_ascii c2 =? 160))%nat.

Definition isSpace3 (c1 c2 c3 : ascii) : bool :=
  let x := nat_of_ascii c1 in
  let y := nat_of_ascii c2 in
  let z := nat_of_ascii c3 in
  ((x =? 225) && (y =? 154) && (z =? 128)
   || (x =? 226) && (y =? 128)
      && ((128 <=? z) && (z <=? 138) || (z =? 168) || (z =? 169) || (z =? 175))
   || (x =? 226) && (y =? 129) && (z =? 159)
   || (x =? 227) && (y =? 128) && (z =? 128)
   || (x =? 239) && (y =? 187) && (z =? 191))%nat.

(** White space is stripped from the front of a text; with [backwards]
    the text is read from its end, each character's bytes last to
    first. *)
Fixpoint strip (backwards : bool) (s : string) : string :=
  match s with
  | String c1 s1 =>
      if isSpace c1 then strip backwards s1
      else
        match s1 with
        | String c2 s2 =>
            if (if backwards then isSpace2 c2 c1 else isSpace2 c1 c2)
            then strip backwards s2
            else
              match s2 with
              | String c3 s3 =>
                  if (if backwards then isSpace3 c3 c2 c1 else isSpace3 c1 c2 c3)
                  then strip backwards s3
                  else s
              | EmptyString => s
              end
        | EmptyString => s
        end
  | EmptyString => EmptyString
  end.

Fixpoint reverse (s : string) : string :=
  match s with
  | EmptyString => EmptyString
  | String c s' => reverse s' ++ String c EmptyString
  end.

Definition trimStart (s : string) : string := strip false s.

Definition trimEnd (s : string) : string := reverse (strip true (reverse s)).

Definition trim (s : string) : string := trimEnd (trimStart s).

Definition doubleQuote : string := String (ascii_of_nat 34) "".

(** Decimal text of a number, as a template literal prints it; the
    digits are those of an integer below 10^21 in absolute value, from
    where on the engine prints an exponent. *)
Definition numberToString (n : Z) : string :=
  NilZero.string_of_int (Z.to_int n).

Fixpoint join (sep : string) (parts : list string) : string :=
  match parts with
  | [] => ""
  | [p] => p
  | p :: rest => p ++ sep ++ join sep rest
  end.

(** ToString, as a template literal applies it. *)
Fixpoint toString (v : value) : string :=
  match v with
  | undefined => "undefined"
  | null => "null"
  | JBool true => "true"
  | JBool false => "false"
  | JNumber n => numberToString n
  | JString s => s
  | JArray xs =>
      join "," (map (fun x => if nullish x then "" else toString x) xs)
  | JObject _ => "[object Object]"
  end.

(** [occurs c s]: the character [c] occurs in [s]. *)
Fixpoint occurs (c : ascii) (s : string) : bool :=
  match s with
  | EmptyString => false
  | String a s' => Ascii.eqb c a || occurs c s'
  end.

End JS.

(** ** The Schedule page: calendar grid and date selection *)

Module Schedule.
Import JSDate.

(** [lo; lo + 1; ...] of length [n]: the values a counting loop runs
    through. *)
Definition range (lo : Z) (n : nat) : list Z :=
  map (fun k => lo + Z.of_nat k) (seq 0 n).

(** [for (let i = lo; i < hi; i++) days.push(f(i))]; the loop body does
    not run when [hi <= lo]. *)
Definition pushFor {A} (days : list A) (lo hi : Z) (f : Z -> A) : list A :=
  days ++ map f (range lo (Z.to_nat (hi - lo))).

Definition sameMonth (d1 d2 : Date) : bool :=
  (getMonth d1 =? getMonth d2) && (getFullYear d1 =? getFullYear d2).

Definition generateCalendar {zone : Zone} (baseDate : Date) : list Date :=
  let start := newDate (getFullYear baseDate) (getMonth baseDate) 1 in
  let end_ := newDate (getFullYear baseDate) (getMonth baseDate + 1) 0 in
  let days := [] in
  let startDay := getDay start in
  let days := pushFor days 0 startDay (fun i =>
                newDate (getFullYear start) (getMonth start) (i - startDay + 1)) in
  let days := pushFor days 1 (getDate end_ + 1) (fun d =>
                newDate (getFullYear baseDate) (getMonth baseDate) d) in
  let remaining := 42 - Z.of_nat (List.length days) in
  let days := pushFor days 1 (remaining + 1) (fun i =>
                newDate (getFullYear baseDate) (getMonth baseDate + 1) i) in
  days.

(** [isDateDisabled]: [today] is the current instant with the time of
    day set to midnight. *)
Definition isDateDisabled (now date : Date) : bool :=
  let today := setHours0 now in
  date <? today.

(** The flags the calendar body computes for a cell [d]. *)
Definition isCurrent (viewMonth d : Date) : bool := sameMonth d viewMonth.

Definition isDisabled (now viewMonth d : Date) : bool :=
  negb (isCurrent viewMonth d) || isDateDisabled now d.

(** [onClick={() => !isDisabled && setSelectedDate(d)}]: the selected
    date after a click on cell [d]. *)
Definition onClick (now viewMonth d : Date) (selectedDate : option Date)
  : option Date :=
  if negb (isDisabled now viewMonth d) then Some d else selectedDate.

End Schedule.

(** ** services/strapi.js *)

Module Strapi.
Import JS.

Local Open Scope string_scope.

(** ** The host: network, store and built-ins *)

Record request : Type := {
  method : string;
  url : string;
  headers : list (string * string);
  body : option string
}.

(** A response as the client reads it: [response.status],
    [response.statusText], [response.headers.get('content-type')] and the
    body text, taken as received in full ([response.text()] does not
    fail). *)
Record response : Type := {
  status : Z;
  statusText : string;
  contentType : option string;
  text : string
}.

Definition ok (r : response) : bool :=
  ((200 <=? status r) && (status r <=? 299))%Z.

(** [fetch] resolves with a response or rejects with an error (the
    network-level failure); only the error's message is ever read. *)
Inductive fetched : Type :=
| Resolved (r : response)
| Rejected (message : string).

(** What the code takes from its environment.  [serve] is the network
    together with the remote store, whose state a request may change;
    [JSON_parse] yields the value or the message of the SyntaxError;
    [TypeError_message v k] is the message of the TypeError raised by
    reading property [k] of [v]; [ToNumber] converts strings, arrays and
    objects for a comparison ([None] is NaN); [VITE_STRAPI_URL] is the
    configured base URL. *)
Class Host : Type := {
  world : Type;
  serve : request -> world -> fetched * world;
  JSON_parse : string -> value + string;
  JSON_stringify : value -> string;
  TypeError_message : value -> string -> string;
  ToNumber : value -> option Z;
  VITE_STRAPI_URL : option string
}.

(** ** Asynchronous code with exceptions *)

(** How a call ends: with a value or with a thrown error, kept as its
    message. *)
Inductive completion (A : Type) : Type :=
| Return (a : A)
| Throw (message : string).
Arguments Return {A} a.
Arguments Throw {A} message.

Section Client.
Context {host : Host}.

(** The state a call runs in: the world behind [fetch] and the requests
    sent so far with what came back. *)
Record session : Type := {
  store : world;
  sent : list (request * fetched)
}.

Definition Async (A : Type) : Type := session -> completion A * session.

Definition ret {A} (a : A) : Async A := fun s => (Return a, s).

Definition throw {A} (message : string) : Async A := fun s => (Throw message, s).

Definition bind {A B} (m : Async A) (k : A -> Async B) : Async B :=
  fun s => match m s with
           | (Return a, s') => k a s'
           | (Throw e, s') => (Throw e, s')
           end.

(** [try { m } catch (error) { handler }]. *)
Definition tryCatch {A} (m : Async A) (handler : string -> Async A) : Async A :=
  fun s => match m s with
           | (Return a, s') => (Return a, s')
           | (Throw e, s') => handler e s'
           end.

Definition lift {A} (c : completion A) : Async A := fun s => (c, s).

(** [await fetch(...)]. *)
Definition fetch (req : request) : Async response :=
  fun s =>
    let (f, w) := serve req (store s) in
    let s' := {| store := w; sent := (sent s ++ [(req, f)])%list |} in
    match f with
    | Resolved r => (Return r, s')
    | Rejected e => (Throw e, s')
    end.

End Client.

Declare Scope async_scope.
Delimit Scope async_scope with async.
Notation "x <- m ;; k" := (bind m (fun x => k))
  (at level 61, m at next level, right associativity) : async_scope.
Notation "' pat <- m ;; k" := (bind m (fun x => match x with pat => k end))
  (at level 61, pat pattern, m at next level, right associativity) : async_scope.

Section Service.
Context {host : Host}.

Local Open Scope async_scope.

(** [import.meta.env.VITE_STRAPI_URL || 'http://localhost:1337']. *)
Definition STRAPI_URL : string :=
  match VITE_STRAPI_URL with
  | Some u => if u =? "" then "http://localhost:1337" else u
  | None => "http://localhost:1337"
  end.

(** [await response.json()]. *)
Definition json (r : response) : Async value :=
  match JSON_parse (text r) with
  | inl v => ret v
  | inr e => throw e
  end.

(** [v.k], which throws a TypeError when [v] is [null] or [undefined]. *)
Definition readProperty (v : value) (k : string) : completion value :=
  if nullish v then Throw (TypeError_message v k) else Return (get v k).

Definition read (v : value) (k : string) : Async value := lift (readProperty v k).

(** [v > 0]. *)
Definition gt0 (v : value) : bool :=
  match v with
  | JNumber n => (0 <? n)%Z
  | JBool b => b
  | undefined | null => false
  | _ => match ToNumber v with Some n => (0 <? n)%Z | None => false end
  end.

Definition GET (u : string) : request :=
  {| method := "GET"; url := u; headers := []; body := None |}.

Definition jsonHeaders : list (string * string) :=
  [("Content-Type", "application/json")].

(** *** fetchBookingsForUser *)

(** The normalised booking the pages work with; its [status] member is
    [status_] here, beside [status] of a response. *)
Record Booking : Type := {
  id : value;
  documentId : value;
  strapiId : value;
  userEmail : value;
  userName : value;
  scheduleTime : value;
  date : value;
  bookingStatus : value;
  status_ : value;
  service : value
}.

(** The callback of [(result.data || []).map(booking => ...)]. *)
Definition normalizeBooking (booking : value) : completion Booking :=
  if nullish booking then Throw (TypeError_message booking "documentId")
  else Return {|
    id := or (get booking "documentId") (get booking "id");
    documentId := get booking "documentId";
    strapiId := get booking "id";
    userEmail := get booking "userEmail";
    userName := or (get booking "userName") (get booking "user_name");
    scheduleTime := get booking "scheduleTime";
    date := get booking "scheduleTime";
    bookingStatus := get booking "bookingStatus";
    status_ := get booking "bookingStatus";
    service := get booking "service"
  |}.

(** [xs.map(f)] for a callback that may throw. *)
Fixpoint mapM {A B} (f : A -> completion B) (xs : list A) : completion (list B) :=
  match xs with
  | [] => Return []
  | x :: rest =>
      match f x with
      | Throw e => Throw e
      | Return y =>
          match mapM f rest with
          | Throw e => Throw e
          | Return ys => Return (y :: ys)
          end
      end
  end.

(** [(result.data || []).map(...)]: only arrays have [map]. *)
Definition normalizeAll (data : value) : completion (list Booking) :=
  match or data (JArray []) with
  | JArray bookings => mapM normalizeBooking bookings
  | other => Throw (TypeError_message other "map")
  end.

Definition fetchBookingsForUser (userEmail : value) : Async (list Booking) :=
  tryCatch
    (response <- fetch (GET (STRAPI_URL ++ "/api/bookings?filters[userEmail][$eq]="
                              ++ toString userEmail
                              ++ "&populate=service.image&sort=scheduleTime:desc")) ;;
     if negb (ok response)
     then throw ("HTTP error! status: " ++ numberToString (status response))
     else
       result <- json response ;;
       data <- read result "data" ;;
       lift (normalizeAll data))
    (fun error => throw error).

(** *** checkBookingExists *)

Record existence : Type := {
  exists_ : bool;
  booking : value
}.

Definition directQuery (bookingIdentifier : value) : request :=
  GET (STRAPI_URL ++ "/api/bookings/" ++ toString bookingIdentifier ++ "?populate=*").

Definition filterQuery (bookingIdentifier : value) : request :=
  GET (STRAPI_URL ++ "/api/bookings?filters[documentId][$eq]="
        ++ toString bookingIdentifier ++ "&populate=*").

(** Each inner [try] either returns from the function ([Some]) or falls
    through to the next statement ([None]); its [catch] only logs. *)
Definition checkBookingExists (bookingIdentifier : value) : Async existence :=
  tryCatch
    ((* Method 1: direct query with the provided id *)
     returned <-
       tryCatch
         (response1 <- fetch (directQuery bookingIdentifier) ;;
          if ok response1 then
            result <- json response1 ;;
            data <- read result "data" ;;
            if truthy data
            then ret (Some {| exists_ := true; booking := data |})
            else ret None
          else ret None)
         (fun error => ret None) ;;
     match returned with
     | Some r => ret r
     | None =>
         (* Method 2: filter query by documentId *)
         returned <-
           tryCatch
             (response2 <- fetch (filterQuery bookingIdentifier) ;;
              if ok response2 then
                result <- json response2 ;;
                data <- read result "data" ;;
                if truthy data && gt0 (get data "length")
                then ret (Some {| exists_ := true; booking := first data |})
                else ret None
              else ret None)
             (fun error => ret None) ;;
         match returned with
         | Some r => ret r
         | None => ret {| exists_ := false; booking := null |}
         end
     end)
    (fun error =>
       (* In case of network errors, assume booking might exist to be safe *)
       ret {| exists_ := true; booking := null |}).

(** *** cancelBooking *)

(** First part: find the actual booking and the id to use.  The result is
    the pair of the local variables [actualBooking] and [actualId]. *)
Definition locateDirect (bookingIdentifier : value) : Async (value * value) :=
  tryCatch
    (response <- fetch (directQuery bookingIdentifier) ;;
     if ok response then
       result <- json response ;;
       data <- read result "data" ;;
       if truthy data then ret (data, bookingIdentifier) else ret (null, null)
     else if (status response =? 404)%Z then throw "Booking not found on server"
     else ret (null, null))
    (fun error =>
       if includes error "not found" then throw error else ret (null, null)).

(** Strategy 2 assigns [actualBooking] before it computes [actualId]; an
    error thrown by the second assignment leaves the first in place, so
    the [try] block is run in two steps under the same [catch]. *)
Definition locateFilter (bookingIdentifier : value) : Async (value * value) :=
  let handler {A} (fallthrough : A) (error : string) : Async A :=
    if includes error "not found" then throw error else ret fallthrough in
  assigned <-
    tryCatch
      (searchResponse <- fetch (filterQuery bookingIdentifier) ;;
       if ok searchResponse then
         searchResult <- json searchResponse ;;
         data <- read searchResult "data" ;;
         if truthy data && gt0 (get data "length")
         then ret (Some (first data))
         else throw "Booking not found on server"
       else ret None)
      (handler None) ;;
  match assigned with
  | None => ret (null, null)
  | Some actualBooking =>
      actualId <-
        tryCatch
          (documentId <- read actualBooking "documentId" ;;
           ret (or documentId (get actualBooking "id")))
          (handler null) ;;
      ret (actualBooking, actualId)
  end.

Definition locate (bookingIdentifier : value) : Async (value * value) :=
  '(actualBooking, actualId) <- locateDirect bookingIdentifier ;;
  '(actualBooking, actualId) <-
     (if negb (truthy actualBooking)
      then locateFilter bookingIdentifier
      else ret (actualBooking, actualId)) ;;
  if negb (truthy actualBooking) || negb (truthy actualId)
  then throw "Booking not found on server"
  else ret (actualBooking, actualId).

Definition deleted : value :=
  JObject [("success", JBool true); ("message", JString "Booking deleted successfully")].

Definition cancelled : value :=
  JObject [("success", JBool true); ("message", JString "Booking cancelled successfully")].

Definition deleteRequest (actualId : value) : request :=
  {| method := "DELETE";
     url := STRAPI_URL ++ "/api/bookings/" ++ toString actualId;
     headers := jsonHeaders;
     body := None |}.

Definition putRequest (actualId : value) : request :=
  {| method := "PUT";
     url := STRAPI_URL ++ "/api/bookings/" ++ toString actualId;
     headers := jsonHeaders;
     body := Some (JSON_stringify
                     (JObject [("data", JObject [("bookingStatus", JString "cancelled")])])) |}.

(** What method 1 makes of the response to the DELETE request. *)
Definition deleteResult (response : response) : completion value :=
  if negb (ok response) then
    if (status response =? 404)%Z
    then Throw "Booking not found on server"
    else Throw ("DELETE failed: " ++ numberToString (status response))
  else
    match contentType response with
    | Some contentType =>
        if negb (contentType =? "") && includes contentType "application/json" then
          if negb (trim (text response) =? "") then
            match JSON_parse (text response) with
            | inl result => Return result
            | inr parseError => Return deleted
            end
          else Return deleted
        else Return deleted
    | None => Return deleted
    end.

(** What method 2 makes of the response to the PUT request. *)
Definition putResult (response : response) : completion value :=
  if negb (ok response) then
    if (status response =? 404)%Z
    then Throw "Booking already deleted"
    else Throw ("PUT failed: " ++ numberToString (status response))
  else
    match JSON_parse (text response) with
    | inl result => Return result
    | inr e => Throw e
    end.

Definition cancelMethods (actualId : value) : list (Async value) :=
  [ (* Method 1: Delete *)
    (response <- fetch (deleteRequest actualId) ;; lift (deleteResult response));
    (* Method 2: Update status (only if DELETE failed) *)
    (response <- fetch (putRequest actualId) ;; lift (putResult response)) ].

(** [for (let i = 0; i < cancelMethods.length; i++) { try ... catch ... }]
    followed by [throw lastError || new Error(...)], from index [i] on. *)
Fixpoint tryMethods (i : nat) (methods : list (Async value))
    (lastError : option string) : Async value :=
  match methods with
  | [] =>
      match lastError with
      | Some error => throw error
      | None => throw "All cancellation methods failed"
      end
  | method :: rest =>
      tryCatch method
        (fun error =>
           if includes error "already deleted" then ret cancelled
           else if (i =? 1)%nat && includes error "not found" then ret cancelled
           else if includes error "not found" then throw error
           else tryMethods (S i) rest (Some error))
  end.

Definition cancelBooking (bookingIdentifier : value) : Async value :=
  tryCatch
    ('(actualBooking, actualId) <- locate bookingIdentifier ;;
     tryMethods 0 (cancelMethods actualId) None)
    (fun error => throw error).

(** *** createBooking, updateBooking *)

Definition createRequest (bookingData : value) : request :=
  {| method := "POST";
     url := STRAPI_URL ++ "/api/bookings";
     headers := jsonHeaders;
     body := Some (JSON_stringify (JObject [("data", bookingData)])) |}.

Definition createBooking (bookingData : value) : Async value :=
  tryCatch
    (response <- fetch (createRequest bookingData) ;;
     if negb (ok response)
     then throw ("Failed to create booking: " ++ numberToString (status response)
                   ++ " " ++ statusText response)
     else json response)
    (fun error => throw error).

Definition updateBooking (bookingId updateData : value) : Async value :=
  tryCatch
    (response <- fetch {| method := "PUT";
                          url := STRAPI_URL ++ "/api/bookings/" ++ toString bookingId;
                          headers := jsonHeaders;
                          body := Some (JSON_stringify (JObject [("data", updateData)])) |} ;;
     if negb (ok response)
     then throw ("Failed to update booking: " ++ numberToString (status response)
                   ++ " " ++ statusText response)
     else json response)
    (fun error => throw error).

(** *** getImageUrl *)

Definition placeholder : string :=
  "https://via.placeholder.com/300x200?text=No+Image".

(** [getImageUrl(imageData, fallback = placeholder)].  The default value
    stands in for a [fallback] that is [undefined], passed or left out.
    [imageUrl.startsWith] exists on strings only; on another truthy value
    the call throws a TypeError. *)
Definition getImageUrl (imageData fallback : value) : completion value :=
  let fallback :=
    match fallback with
    | undefined => JString placeholder
    | _ => fallback
    end in
  if negb (truthy imageData) then Return fallback
  else
    let imageUrl :=
      if typeof_string imageData then imageData
      else if truthy (get imageData "url") then get imageData "url"
      else if truthy (and (and (get imageData "data")
                              (get (get imageData "data") "attributes"))
                         (get (get (get imageData "data") "attributes") "url"))
      then get (get (get imageData "data") "attributes") "url"
      else if truthy (and (get imageData "attributes")
                         (get (get imageData "attributes") "url"))
      then get (get imageData "attributes") "url"
      else null in
    if negb (truthy imageUrl) then Return fallback
    else
      match imageUrl with
      | JString u =>
          if negb (startsWith u "http")
          then Return (JString (STRAPI_URL ++ u))
          else Return (JString u)
      | other => Throw (TypeError_message other "startsWith")
      end.

(** The call with one argument, [getImageUrl(imageData)]. *)
Definition getImageUrl_default (imageData : value) : completion value :=
  getImageUrl imageData undefined.

End Service.

End Strapi.

(** ** The MyBookings page: upcoming and past tabs *)

Module MyBookings.
Import JS Strapi.

Local Open Scope string_scope.

Section Tabs.

(** [dayjs(x).tz(userTimezone)] as the instant it denotes, in
    milliseconds; [None] for an invalid date.  The time zone only changes
    how an instant is displayed. *)
Variable dayjs : value -> option Z.

(** [a.isAfter(b)] and [a.isBefore(b)]: false for an invalid date. *)
Definition isAfter (a : option Z) (b : Z) : bool :=
  match a with Some t => (b <? t)%Z | None => false end.

Definition isBefore (a : option Z) (b : Z) : bool :=
  match a with Some t => (t <? b)%Z | None => false end.

Definition upcomingBookings (now : Z) (bookings : list Booking) : list Booking :=
  filter (fun booking =>
            let bookingDate := dayjs (or (scheduleTime booking) (date booking)) in
            let status := or (or (bookingStatus booking) (status_ booking))
                             (JString "confirmed") in
            isAfter bookingDate now && negb (strictEq status "cancelled"))
         bookings.

Definition pastBookings (now : Z) (bookings : list Booking) : list Booking :=
  filter (fun booking =>
            let bookingDate := dayjs (or (scheduleTime booking) (date booking)) in
            let status := or (or (bookingStatus booking) (status_ booking))
                             (JString "confirmed") in
            isBefore bookingDate now || strictEq status "cancelled")
         bookings.

(** The status [getStatusBadge] displays. *)
Definition badgeStatus (booking : Booking) : value :=
  or (or (bookingStatus booking) (status_ booking)) (JString "pending").

(** The scheduled instant and the status the two filters read. *)
Definition scheduledInstant (booking : Booking) : option Z :=
  dayjs (or (scheduleTime booking) (date booking)).

Definition statusOf (booking : Booking) : value :=
  or (or (bookingStatus booking) (status_ booking)) (JString "confirmed").

End Tabs.
End MyBookings.

(** ** The Schedule page: booking the selected slot *)

Module ScheduleBooking.
Import JSDate JS Strapi.

Local Open Scope string_scope.

Definition TIME_SLOTS : list string :=
  [ "9:00 AM"; "9:30 AM"; "10:00 AM"; "10:30 AM";
    "11:00 AM"; "11:30 AM"; "12:00 PM"; "12:30 PM";
    "1:00 PM"; "1:30 PM"; "2:00 PM"; "2:30 PM";
    "3:00 PM"; "3:30 PM"; "4:00 PM"; "4:30 PM";
    "5:00 PM"; "5:30 PM" ].

(** [String(n).padStart(width, '0')]. *)
Fixpoint zeros (n : nat) : string :=
  match n with O => "" | S k => String "0" (zeros k) end.

Definition padStart (width : nat) (n : Z) : string :=
  let t := numberToString n in
  zeros (width - String.length t) ++ t.

(** [dayjs(d).format('YYYY-MM-DD')]. *)
Definition formatYMD (d : Date) : string :=
  padStart 4 (getFullYear d) ++ "-" ++ padStart 2 (getMonth d + 1)
  ++ "-" ++ padStart 2 (getDate d).

Definition nthName (names : list string) (i : Z) : string :=
  nth (Z.to_nat i) names "".

(** [dayjs(d).format('ddd, MMM D')]. *)
Definition formatDayMonth (d : Date) : string :=
  nthName ["Sun"; "Mon"; "Tue"; "Wed"; "Thu"; "Fri"; "Sat"] (getDay d) ++ ", "
  ++ nthName ["Jan"; "Feb"; "Mar"; "Apr"; "May"; "Jun";
              "Jul"; "Aug"; "Sep"; "Oct"; "Nov"; "Dec"] (getMonth d)
  ++ " " ++ numberToString (getDate d).

(** What the page keeps and shows. *)
Record view : Type := {
  processing : bool;
  errMsg : string;
  alerts : list string;
  location : option string
}.

Definition setProcessing (b : bool) (v : view) : view :=
  {| processing := b; errMsg := errMsg v; alerts := alerts v; location := location v |}.

Definition setErrMsg (m : string) (v : view) : view :=
  {| processing := processing v; errMsg := m; alerts := alerts v; location := location v |}.

Definition alert (m : string) (v : view) : view :=
  {| processing := processing v; errMsg := errMsg v;
     alerts := (alerts v ++ [m])%list; location := location v |}.

Definition navigate (to : string) (v : view) : view :=
  {| processing := processing v; errMsg := errMsg v; alerts := alerts v;
     location := Some to |}.

Section Page.
Context {host : Host}.

(** [dayjs(text)] for a text with a time such as "2:00 PM": the instant
    the library reads from it (through the host's [Date] parser), [None]
    for an invalid date; [toISOString] prints an instant as the absolute
    ISO timestamp; [invalidTime] is the message of the RangeError that
    [toISOString] throws on an invalid date. *)
Variable dayjs : string -> option Date.
Variable toISOString : Date -> string.
Variable invalidTime : string.

Local Open Scope async_scope.

(** [!user.email || !user.email.includes('@')]: strings and arrays have
    [includes]; on another truthy value the call throws a TypeError. *)
Definition checkEmail (user : value) : completion value :=
  let email := get user "email" in
  if negb (truthy email) then Throw "Invalid user email. Please sign in again."
  else
    match email with
    | JString e =>
        if negb (includes e "@")
        then Throw "Invalid user email. Please sign in again."
        else Return email
    | JArray xs =>
        if negb (existsb (fun x => strictEq x "@") xs)
        then Throw "Invalid user email. Please sign in again."
        else Return email
    | other => Throw (TypeError_message other "includes")
    end.

(** [user.email.trim()]: only strings have [trim]. *)
Definition trimEmail (email : value) : completion value :=
  match email with
  | JString e => Return (JString (trim e))
  | other => Throw (TypeError_message other "trim")
  end.

(** [dayjs(`${dayjs(selectedDate).format('YYYY-MM-DD')} ${selectedTime}`)
    .toISOString()]. *)
Definition scheduleTimeOf (selectedDate : Date) (selectedTime : string)
  : completion value :=
  match dayjs (formatYMD selectedDate ++ " " ++ selectedTime) with
  | None => Throw invalidTime
  | Some instant => Return (JString (toISOString instant))
  end.

(** The object literal [bookingData], its members evaluated in order. *)
Definition bookingData (selectedDate : Date) (selectedTime : string)
    (user selectedService : value) : Async value :=
  email <- lift (checkEmail user) ;;
  documentId <- read selectedService "documentId" ;;
  userEmail <- lift (trimEmail email) ;;
  scheduleTime <- lift (scheduleTimeOf selectedDate selectedTime) ;;
  ret (JObject
         [ ("service", or documentId (get selectedService "id"));
           ("userEmail", userEmail);
           ("scheduleTime", scheduleTime);
           ("bookingStatus", JString "confirmed") ]).

Definition errorMessage (message : string) : string :=
  if includes message "email"
  then "Email validation error. Please sign out and sign in again."
  else if includes message "service"
  then "Service selection error. Please go back and select the service again."
  else if includes message "validation"
  then "Data validation error. Please refresh the page and try again."
  else if includes message "400"
  then "Invalid booking data. Please check your information."
  else "Booking failed. Please try again.".

Definition onBook (selectedDate : option Date) (selectedTime : option string)
    (user selectedService : value) (v : view) : Async view :=
  match selectedDate, selectedTime with
  | Some selectedDate, Some selectedTime =>
      if (selectedTime =? "") || negb (truthy user) then ret v
      else
        let v := setErrMsg "" (setProcessing true v) in
        v <- tryCatch
               (data <- bookingData selectedDate selectedTime user selectedService ;;
                _ <- createBooking data ;;
                ret (navigate "/my-bookings"
                       (alert ("Successfully booked " ++ doubleQuote
                               ++ toString (get selectedService "title")
                               ++ doubleQuote
                               ++ " on " ++ formatDayMonth selectedDate
                               ++ " at " ++ selectedTime ++ "!") v)))
               (fun err => ret (setErrMsg (errorMessage err) v)) ;;
        ret (setProcessing false v)
  | _, _ => ret v
  end.

End Page.
End ScheduleBooking.

(** ** Dates as text *)

Module DateText.
Import JSDate JS ScheduleBooking.

Local Open Scope string_scope.

(** The year of an ISO timestamp: four digits from 0 to 9999, a sign and
    six digits otherwise. *)
Definition isoYear (y : Z) : string :=
  if ((0 <=? y) && (y <=? 9999))%Z then padStart 4 y
  else (if (y <? 0)%Z then "-" else "+") ++ padStart 6 (Z.abs y).

(** The timestamp YYYY-MM-DDTHH:mm:ss.sssZ of a time value. *)
Definition isoText (t : Z) : string :=
  let day := Day t in
  let w := (t mod msPerDay)%Z in
  isoYear (YearFromDay day) ++ "-" ++ padStart 2 (MonthFromDay day + 1)
  ++ "-" ++ padStart 2 (DateFromDay day) ++ "T"
  ++ padStart 2 (w / 3600000) ++ ":"
  ++ padStart 2 (w / 60000 mod 60) ++ ":"
  ++ padStart 2 (w / 1000 mod 60) ++ "."
  ++ padStart 3 (w mod 1000) ++ "Z".

(** [d.toISOString()]: the timestamp of the instant of [d], in UTC. *)
Definition toISOString {zone : Zone} (d : Date) : string := isoText (UTC d).

End DateText.

(** ** The Schedule page: cell keys, month navigation, the cells drawn *)

Module ScheduleView.
Import JSDate JS Schedule.

Local Open Scope string_scope.

(** [getDateKey]: year, month (0..11) and date, as printed by a template
    literal. *)
Definition getDateKey (d : Date) : string :=
  numberToString (getFullYear d) ++ "-" ++ numberToString (getMonth d)
  ++ "-" ++ numberToString (getDate d).

(** [selectedDate && getDateKey(selectedDate)]: a [Date] object is
    truthy, [null] is not. *)
Definition selectedKey (selectedDate : option Date) : option string :=
  match selectedDate with
  | Some d => Some (getDateKey d)
  | None => None
  end.

(** [key === selectedKey]. *)
Definition isSel (key : string) (selectedKey : option string) : bool :=
  match selectedKey with
  | Some k => key =? k
  | None => false
  end.

(** [key === getDateKey(today)], for the [today] taken when the module
    was loaded. *)
Definition isToday (today : Date) (key : string) : bool :=
  key =? getDateKey today.

(** The two navigation buttons: [new Date(year, month - 1)] and
    [new Date(year, month + 1)]; the day of the month defaults to 1. *)
Definition prevMonth {zone : Zone} (viewMonth : Date) : Date :=
  newDate (getFullYear viewMonth) (getMonth viewMonth - 1) 1.

Definition nextMonth {zone : Zone} (viewMonth : Date) : Date :=
  newDate (getFullYear viewMonth) (getMonth viewMonth + 1) 1.

(** What the calendar body draws for a cell [d]. *)
Record cell : Type := {
  key : string;
  current : bool;
  today_ : bool;
  selected : bool;
  disabled : bool;
  label : Z
}.

Definition drawCell (today now viewMonth : Date) (selectedDate : option Date)
    (d : Date) : cell :=
  let key := getDateKey d in
  let isCurrent := sameMonth d viewMonth in
  {| key := key;
     current := isCurrent;
     today_ := isToday today key;
     selected := isSel key (selectedKey selectedDate);
     disabled := negb isCurrent || isDateDisabled now d;
     label := getDate d |}.

Definition calendarBody {zone : Zone} (today now viewMonth : Date)
    (selectedDate : option Date) : list cell :=
  map (drawCell today now viewMonth selectedDate) (generateCalendar viewMonth).

(** The part of the page state the calendar works on.  [drawn] is the
    instant of the render that put the cells on the screen: the flags of
    a cell are computed then, and the click handler of the cell holds on
    to the [isDisabled] of that render. *)
Record calendar : Type := {
  viewMonth : Date;
  selectedDate : option Date;
  drawn : Date
}.

(** The events that change it: the two navigation buttons, a click on
    the cell at position [k] of the grid, and a render for another
    reason (the user signs in, a slot is chosen, a booking is under
    way).  Each carries the instant [now] of the render that follows
    it. *)
Inductive event : Type :=
| Prev (now : Date)
| Next (now : Date)
| Click (now : Date) (k : nat)
| Render (now : Date).

(** A click on a disabled cell changes no state, so nothing is drawn
    again. *)
Definition step {zone : Zone} (c : calendar) (e : event) : calendar :=
  match e with
  | Prev now =>
      {| viewMonth := prevMonth (viewMonth c); selectedDate := selectedDate c;
         drawn := now |}
  | Next now =>
      {| viewMonth := nextMonth (viewMonth c); selectedDate := selectedDate c;
         drawn := now |}
  | Click now k =>
      match nth_error (generateCalendar (viewMonth c)) k with
      | Some d =>
          if isDisabled (drawn c) (viewMonth c) d then c
          else {| viewMonth := viewMonth c;
                  selectedDate := onClick (drawn c) (viewMonth c) d (selectedDate c);
                  drawn := now |}
      | None => c
      end
  | Render now =>
      {| viewMonth := viewMonth c; selectedDate := selectedDate c; drawn := now |}
  end.

Definition run {zone : Zone} (c : calendar) (events : list event) : calendar :=
  fold_left step events c.

(** [location.state?.selectedService || location.state?.service]; [get]
    reads [undefined] from [null] and [undefined], as [?.] does. *)
Definition selectedServiceOf (state : value) : value :=
  or (get state "selectedService") (get state "service").

End ScheduleView.

(** ** The MyBookings page: image helper, modal, rebooking, cancelling *)

Module MyBookingsPage.
Import JS Strapi.

Local Open Scope string_scope.

Definition noImage : string := "https://via.placeholder.com/80?text=No+Image".

(** [a === b].  Arrays and objects are compared by identity; the values
    here carry none, and two of them count as distinct objects.  What is
    proved about the list of bookings is stated for ids that are strings,
    numbers, [null] or [undefined]. *)
Definition strictEquals (a b : value) : bool :=
  match a, b with
  | undefined, undefined => true
  | null, null => true
  | JBool x, JBool y => Bool.eqb x y
  | JNumber x, JNumber y => (x =? y)%Z
  | JString x, JString y => x =? y
  | _, _ => false
  end.

Definition primitive (v : value) : bool :=
  match v with
  | JArray _ | JObject _ => false
  | _ => true
  end.

Section Page.
Context {host : Host}.

Local Open Scope async_scope.

(** The page's own [getImageUrl(service)]. *)
Definition getImageUrl (service : value) : completion value :=
  if negb (truthy service) then Return (JString noImage)
  else
    let imageUrl := null in
    let imageUrl :=
      if truthy (get service "image") then
        if typeof_string (get service "image") then get service "image"
        else if truthy (get (get service "image") "url")
        then get (get service "image") "url"
        else if truthy (and (and (get (get service "image") "data")
                                (get (get (get service "image") "data") "attributes"))
                           (get (get (get (get service "image") "data") "attributes") "url"))
        then get (get (get (get service "image") "data") "attributes") "url"
        else if truthy (and (get (get service "image") "attributes")
                           (get (get (get service "image") "attributes") "url"))
        then get (get (get service "image") "attributes") "url"
        else imageUrl
      else imageUrl in
    if negb (truthy imageUrl) then Return (JString noImage)
    else
      match imageUrl with
      | JString u =>
          if negb (startsWith u "http")
          then Return (JString (STRAPI_URL ++ u))
          else Return (JString u)
      | other => Throw (TypeError_message other "startsWith")
      end.

(** What the page keeps and shows; [location] is the route navigated to
    with its state. *)
Record page : Type := {
  bookings : list Booking;
  error : string;
  loading : bool;
  selectedBooking : option Booking;
  showModal : bool;
  cancelling : bool;
  alerts : list string;
  location : option (string * value)
}.

Definition setBookings (f : list Booking -> list Booking) (p : page) : page :=
  {| bookings := f (bookings p); error := error p; loading := loading p;
     selectedBooking := selectedBooking p; showModal := showModal p;
     cancelling := cancelling p; alerts := alerts p; location := location p |}.

Definition setError (m : string) (p : page) : page :=
  {| bookings := bookings p; error := m; loading := loading p;
     selectedBooking := selectedBooking p; showModal := showModal p;
     cancelling := cancelling p; alerts := alerts p; location := location p |}.

Definition setLoading (b : bool) (p : page) : page :=
  {| bookings := bookings p; error := error p; loading := b;
     selectedBooking := selectedBooking p; showModal := showModal p;
     cancelling := cancelling p; alerts := alerts p; location := location p |}.

Definition setSelectedBooking (b : option Booking) (p : page) : page :=
  {| bookings := bookings p; error := error p; loading := loading p;
     selectedBooking := b; showModal := showModal p;
     cancelling := cancelling p; alerts := alerts p; location := location p |}.

Definition setShowModal (b : bool) (p : page) : page :=
  {| bookings := bookings p; error := error p; loading := loading p;
     selectedBooking := selectedBooking p; showModal := b;
     cancelling := cancelling p; alerts := alerts p; location := location p |}.

Definition setCancelling (b : bool) (p : page) : page :=
  {| bookings := bookings p; error := error p; loading := loading p;
     selectedBooking := selectedBooking p; showModal := showModal p;
     cancelling := b; alerts := alerts p; location := location p |}.

Definition alert (m : string) (p : page) : page :=
  {| bookings := bookings p; error := error p; loading := loading p;
     selectedBooking := selectedBooking p; showModal := showModal p;
     cancelling := cancelling p; alerts := (alerts p ++ [m])%list;
     location := location p |}.

Definition navigate (to : string) (state : value) (p : page) : page :=
  {| bookings := bookings p; error := error p; loading := loading p;
     selectedBooking := selectedBooking p; showModal := showModal p;
     cancelling := cancelling p; alerts := alerts p;
     location := Some (to, state) |}.

(** [fetchUserBookings]; a list is truthy, so [fetchedBookings || []] is
    the list itself. *)
Definition fetchUserBookings (userEmail : value) (p : page) : Async page :=
  p <- tryCatch
         (let p := setLoading true (setError "" p) in
          fetchedBookings <- fetchBookingsForUser userEmail ;;
          ret (setBookings (fun _ => fetchedBookings) p))
         (fun err =>
            ret (setError "Failed to load bookings. Please try again."
                   (setLoading true (setError "" p)))) ;;
  ret (setLoading false p).

Definition handleManageBooking (booking : Booking) (p : page) : page :=
  setShowModal true (setSelectedBooking (Some booking) p).

Definition closeModal (p : page) : page :=
  setSelectedBooking None (setShowModal false p).

(** The [service] member of the state handed to the Schedule page. *)
Definition rebookService (service : value) : value :=
  JObject [ ("id", or (get service "id") (get service "documentId"));
            ("title", or (get service "name") (get service "title"));
            ("duration", get service "duration");
            ("price", get service "price");
            ("backgroundColor", or (get service "backgroundColor") (JString "yellow")) ].

Definition handleRescheduleBooking (booking : Booking) (p : page) : page :=
  if negb (truthy (service booking))
  then alert "Service information not available for rescheduling" p
  else
    navigate "/schedule"
      (JObject [ ("service", rebookService (service booking));
                 ("originalBookingId", id booking);
                 ("isRescheduling", JBool true) ])
      (closeModal p).

Definition handleBookAgain (booking : Booking) (p : page) : page :=
  if negb (truthy (service booking))
  then alert "Service information not available" p
  else
    navigate "/schedule"
      (JObject [ ("service", rebookService (service booking)) ]) p.

(** [prevBookings.filter(b => b.id !== bookingId)]. *)
Definition removeBooking (bookingId : value) (prevBookings : list Booking)
  : list Booking :=
  filter (fun b => negb (strictEquals (id b) bookingId)) prevBookings.

(** [handleCancelBooking]; [confirmed] is the answer of the [confirm]
    dialog.  State updates made before an error is thrown stay in place;
    here every update is the last thing its branch does. *)
Definition handleCancelBooking (confirmed : bool) (booking : Booking) (p : page)
  : Async page :=
  if negb confirmed then ret p
  else
    let p := setCancelling true p in
    p <- tryCatch
           (let bookingId := id booking in
            (* First check if booking still exists on server *)
            checkResult <- checkBookingExists bookingId ;;
            if negb (exists_ checkResult) then
              ret (alert "This booking no longer exists and has been removed from your list."
                     (closeModal (setBookings (removeBooking bookingId) p)))
            else
              (* If booking exists, attempt to cancel it *)
              tryCatch
                (_ <- cancelBooking bookingId ;;
                 ret (alert "Booking cancelled successfully."
                        (closeModal (setBookings (removeBooking bookingId) p))))
                (fun cancelError =>
                   if includes cancelError "not found" || includes cancelError "404" then
                     ret (alert "This booking has already been cancelled or removed."
                            (closeModal (setBookings (removeBooking bookingId) p)))
                   else if includes cancelError "All cancellation methods failed" then
                     ret (alert "Unable to cancel this booking at the moment. Please try again later or contact support." p)
                   else
                     ret (alert "Failed to cancel booking. Please try again or contact support." p)))
           (fun error =>
              ret (alert "An unexpected error occurred. Please try again or contact support." p)) ;;
    ret (setCancelling false p).

End Page.
End MyBookingsPage.

(** ** The AccountSettings page: the name fields, saving, the password *)

Module AccountSettings.
Import JS.

Local Open Scope string_scope.

(** [s.split(sep)] for a separator of one character. *)
Fixpoint split (sep : ascii) (s : string) : list string :=
  match s with
  | EmptyString => [""]
  | String c rest =>
      if Ascii.eqb c sep then "" :: split sep rest
      else match split sep rest with
           | part :: parts => String c part :: parts
           | [] => [String c ""]
           end
  end.

(** The signed-in user as Firebase hands it over: each member is a
    string or [null]. *)
Record user : Type := {
  displayName : option string;
  email : option string;
  phoneNumber : option string
}.

Record form : Type := {
  firstName : string;
  lastName : string;
  formEmail : string;
  phone : string
}.

Record passwords : Type := {
  currentPassword : string;
  newPassword : string;
  confirmPassword : string
}.

(** [v || ''] for a string or [null]. *)
Definition orEmpty (v : option string) : string :=
  match v with
  | Some s => s
  | None => ""
  end.

(** The form as the auth listener and [handleCancelEdit] fill it. *)
Definition formOf (u : user) : form :=
  let displayName := orEmpty (displayName u) in
  let nameParts := split " " displayName in
  {| firstName := orEmpty (hd_error nameParts);
     lastName := join " " (tl nameParts);
     formEmail := orEmpty (email u);
     phone := orEmpty (phoneNumber u) |}.

(** The display name [handleSaveInfo] sends. *)
Definition displayNameOf (f : form) : string :=
  trim (firstName f ++ " " ++ lastName f).

(** The calls into Firebase Auth, and how one ends: fulfilled, or
    rejected with an error whose [code] is read. *)
Inductive call : Type :=
| UpdateProfile (displayName : string)
| UpdateEmail (email : string)
| Reauthenticate (email : option string) (password : string)
| UpdatePassword (newPassword : string).

Inductive outcome : Type :=
| Fulfilled
| Failed (code : option string).

Section Firebase.

(** The auth service: its state, the user it holds, and what a call does
    to it. *)
Variable backend : Type.
Variable currentUser : backend -> user.
Variable perform : call -> backend -> outcome * backend.

Record settings : Type := {
  isLoading : bool;
  isEditing : bool;
  message : string;
  error : string;
  formData : form;
  passwordData : passwords;
  auth : backend;
  calls : list call
}.

Definition setIsLoading (b : bool) (st : settings) : settings :=
  {| isLoading := b; isEditing := isEditing st; message := message st;
     error := error st; formData := formData st; passwordData := passwordData st;
     auth := auth st; calls := calls st |}.

Definition setIsEditing (b : bool) (st : settings) : settings :=
  {| isLoading := isLoading st; isEditing := b; message := message st;
     error := error st; formData := formData st; passwordData := passwordData st;
     auth := auth st; calls := calls st |}.

Definition setMessage (m : string) (st : settings) : settings :=
  {| isLoading := isLoading st; isEditing := isEditing st; message := m;
     error := error st; formData := formData st; passwordData := passwordData st;
     auth := auth st; calls := calls st |}.

Definition setError (m : string) (st : settings) : settings :=
  {| isLoading := isLoading st; isEditing := isEditing st; message := message st;
     error := m; formData := formData st; passwordData := passwordData st;
     auth := auth st; calls := calls st |}.

Definition setFormData (f : form) (st : settings) : settings :=
  {| isLoading := isLoading st; isEditing := isEditing st; message := message st;
     error := error st; formData := f; passwordData := passwordData st;
     auth := auth st; calls := calls st |}.

Definition setPasswordData (pw : passwords) (st : settings) : settings :=
  {| isLoading := isLoading st; isEditing := isEditing st; message := message st;
     error := error st; formData := formData st; passwordData := pw;
     auth := auth st; calls := calls st |}.

(** [await f(user, ...)]: the call is logged and the service moves on. *)
Definition await (c : call) (st : settings) : outcome * settings :=
  let (o, b) := perform c (auth st) in
  (o, {| isLoading := isLoading st; isEditing := isEditing st;
         message := message st; error := error st; formData := formData st;
         passwordData := passwordData st; auth := b;
         calls := (calls st ++ [c])%list |}).

(** [error.code === text]. *)
Definition codeIs (code : option string) (text : string) : bool :=
  match code with
  | Some c => c =? text
  | None => false
  end.

Definition saveError (code : option string) : string :=
  if codeIs code "auth/requires-recent-login"
  then "For security reasons, please log in again before updating information"
  else if codeIs code "auth/invalid-email" then "Invalid email format"
  else if codeIs code "auth/email-already-in-use" then "This email is already in use"
  else "Update failed, please try again".

Definition passwordError (code : option string) : string :=
  if codeIs code "auth/wrong-password" then "Current password is incorrect"
  else if codeIs code "auth/requires-recent-login"
  then "For security reasons, please log in again before changing password"
  else if codeIs code "auth/weak-password"
  then "New password is too weak, please choose a stronger password"
  else "Password update failed, please try again".

(** [formData.email !== user.email]. *)
Definition emailChanged (st : settings) : bool :=
  match email (currentUser (auth st)) with
  | Some e => negb (formEmail (formData st) =? e)
  | None => true
  end.

Definition handleSaveInfo (st : settings) : settings :=
  let st := setMessage "" (setError "" (setIsLoading true st)) in
  let saved (st : settings) : settings :=
    setIsEditing false (setMessage "Personal information updated successfully!" st) in
  let st :=
    let displayName := displayNameOf (formData st) in
    match await (UpdateProfile displayName) st with
    | (Failed code, st) => setError (saveError code) st
    | (Fulfilled, st) =>
        if emailChanged st then
          match await (UpdateEmail (formEmail (formData st))) st with
          | (Failed code, st) => setError (saveError code) st
          | (Fulfilled, st) => saved st
          end
        else saved st
    end in
  setIsLoading false st.

Definition handleCancelEdit (st : settings) : settings :=
  setMessage "" (setError "" (setIsEditing false
    (setFormData (formOf (currentUser (auth st))) st))).

Definition handleUpdatePassword (st : settings) : settings :=
  let st := setMessage "" (setError "" (setIsLoading true st)) in
  let pw := passwordData st in
  if negb (newPassword pw =? confirmPassword pw) then
    setIsLoading false (setError "New password and confirm password do not match" st)
  else if (length (newPassword pw) <? 6)%nat then
    setIsLoading false (setError "Password must be at least 6 characters long" st)
  else if currentPassword pw =? newPassword pw then
    setIsLoading false
      (setError "New password cannot be the same as current password" st)
  else
    let st :=
      match await (Reauthenticate (email (currentUser (auth st))) (currentPassword pw)) st with
      | (Failed code, st) => setError (passwordError code) st
      | (Fulfilled, st) =>
          match await (UpdatePassword (newPassword pw)) st with
          | (Failed code, st) => setError (passwordError code) st
          | (Fulfilled, st) =>
              setPasswordData {| currentPassword := ""; newPassword := "";
                                 confirmPassword := "" |}
                (setMessage "Password updated successfully!" st)
          end
      end in
    setIsLoading false st.

End Firebase.

Arguments isLoading {backend} _.
Arguments isEditing {backend} _.
Arguments message {backend} _.
Arguments error {backend} _.
Arguments formData {backend} _.
Arguments passwordData {backend} _.
Arguments auth {backend} _.
Arguments calls {backend} _.
Arguments setIsLoading {backend} b st.
Arguments setIsEditing {backend} b st.
Arguments setMessage {backend} m st.
Arguments setError {backend} m st.
Arguments setFormData {backend} f st.
Arguments setPasswordData {backend} pw st.
Arguments await {backend} perform c st.
Arguments emailChanged {backend} currentUser st.
Arguments handleSaveInfo {backend} currentUser perform st.
Arguments handleCancelEdit {backend} currentUser st.
Arguments handleUpdatePassword {backend} currentUser perform st.

End AccountSettings.

(* ================================================================== *)
(** * Part II.  The descriptions the program is held against *)
(* ================================================================== *)

(** ** The calendar grid *)

Module CalendarSpec.
Import JSDate Schedule.

(** The month the grid is built for: the [Date] constructor receives
    [getFullYear baseDate] and reads it through [MakeFullYear]. *)
Definition gridYear (baseDate : Date) : Z := MakeFullYear (getFullYear baseDate).

Definition gridFirst (baseDate : Date) : Z :=
  MakeDay (gridYear baseDate) (getMonth baseDate) 1.

Definition gridLength (baseDate : Date) : Z :=
  daysInMonth (leap (gridYear baseDate)) (getMonth baseDate).

(** Cell [k] of the grid: day [k] counted from the Sunday on or before
    the first of the month. *)
Definition gridCell (baseDate : Date) (k : Z) : Date :=
  (gridFirst baseDate - WeekDay (gridFirst baseDate) + k) * msPerDay.

Definition midnight (d : Z) : Date := d * msPerDay.

(** Day number of the first day of the month [baseDate] lies in, and the
    number of days of that month. *)
Definition firstOfMonth (baseDate : Date) : Z :=
  Day baseDate - (getDate baseDate - 1).

Definition monthLength (baseDate : Date) : Z :=
  daysInMonth (leap (getFullYear baseDate)) (getMonth baseDate).

Section Zoned.
Context {zone : Zone}.

(** Day [d] as the host builds it: [new Date] for that day gives a valid
    date of that day.  The day is inside the range of time values, and
    the zone does not skip it. *)
Definition builds (d : Z) : Prop :=
  inRange (d * msPerDay) /\ Day (atLocal (d * msPerDay)) = d.

(** The 42 days from the Sunday on or before the first of the grid's
    month are built as asked. *)
Definition regular (baseDate : Date) : Prop :=
  forall k, 0 <= k < 42 ->
    builds (gridFirst baseDate - WeekDay (gridFirst baseDate) + k).

(** The grid for [baseDate]: 42 cells on ascending days; the leading
    cells, as many as the week day of the first of the month, and the
    trailing cells are marked as outside the month ([sameMonth] is
    false); between them the days 1, 2, ... of the month. *)
Definition calendar_grid (baseDate : Date) : Prop :=
  let days := generateCalendar baseDate in
  let n := Z.to_nat (monthLength baseDate) in
  List.length days = 42%nat /\
  StronglySorted Z.lt days /\
  StronglySorted Z.lt (map Day days) /\
  exists leading month trailing,
    days = leading ++ month ++ trailing /\
    map Day month = map (fun d => firstOfMonth baseDate + d - 1) (range 1 n) /\
    map getDate month = range 1 n /\
    Forall (fun c => sameMonth c baseDate = true) month /\
    Forall (fun c => sameMonth c baseDate = false) leading /\
    Forall (fun c => sameMonth c baseDate = false) trailing /\
    List.length leading = Z.to_nat (WeekDay (firstOfMonth baseDate)) /\
    (WeekDay (firstOfMonth baseDate) = 0 -> leading = []).

End Zoned.

End CalendarSpec.

(** ** Time zones for the examples *)

Module Zones.
Import JSDate.

(** A host in UTC, and one five hours behind it. *)
Definition utc : Zone := fixedOffset 0.

Definition eastern : Zone := fixedOffset (-18000000).

(** A zone that crosses the date line as Pacific/Apia did: ten hours
    behind UTC until 30 December 2011, 10:00 UTC, and fourteen hours
    ahead from then on, so that the local day after 29 December 2011 is
    the 31st. *)
Definition crossing : Z := 1325239200000.

Definition apiaLocalTime (t : Z) : Z :=
  if t <? crossing then t - 36000000 else t + 50400000.

Definition apiaUTC (t : Z) : Z :=
  if t <? crossing + 50400000 then t + 36000000 else t - 50400000.

Lemma apia_lands t : t <= apiaLocalTime (apiaUTC t) < t + 2 * msPerDay.
Proof.
  unfold apiaLocalTime, apiaUTC, crossing, msPerDay.
  destruct (Z.ltb_spec t (1325239200000 + 50400000));
    repeat match goal with
           | |- context [?a <? ?b] => destruct (Z.ltb_spec a b)
           end; lia.
Qed.

Lemma apia_readsBack t : apiaUTC (apiaLocalTime (apiaUTC t)) = apiaUTC t.
Proof.
  unfold apiaLocalTime, apiaUTC, crossing.
  destruct (Z.ltb_spec t (1325239200000 + 50400000));
    repeat match goal with
           | |- context [?a <? ?b] => destruct (Z.ltb_spec a b)
           end; lia.
Qed.

Definition apia : Zone :=
  {| UTC := apiaUTC; LocalTime := apiaLocalTime;
     lands := apia_lands; readsBack := apia_readsBack |}.

End Zones.

(** ** The cancellation flow *)

Module CancelSpec.
Import JS Strapi.

Local Open Scope string_scope.

Section Outcomes.
Context {host : Host}.

(** How method 1 (DELETE) and method 2 (PUT) complete, given what came
    back for their request. *)
Definition deleteOutcome (f : fetched) : completion value :=
  match f with
  | Resolved r => deleteResult r
  | Rejected e => Throw e
  end.

Definition putOutcome (f : fetched) : completion value :=
  match f with
  | Resolved r => putResult r
  | Rejected e => Throw e
  end.

(** An HTTP failure: a response whose status is not one of 200..299. *)
Definition httpFailure (f : fetched) (code : Z) : Prop :=
  exists r, f = Resolved r /\ ok r = false /\ status r = code.

(** An answer that accepts the request: a response with a status of
    200..299; one whose body is the JSON text of [v]; one whose body is
    not JSON, [e] being the message of the parser's error. *)
Definition accepted (f : fetched) : Prop :=
  exists r, f = Resolved r /\ ok r = true.

Definition acceptedWith (f : fetched) (v : value) : Prop :=
  exists r, f = Resolved r /\ ok r = true /\ JSON_parse (text r) = inl v.

Definition acceptedUnread (f : fetched) (e : string) : Prop :=
  exists r, f = Resolved r /\ ok r = true /\ JSON_parse (text r) = inr e.

(** A response that announces JSON and carries the JSON text of [v]. *)
Definition carries (r : response) (v : value) : Prop :=
  exists contentType,
    Strapi.contentType r = Some contentType
    /\ includes contentType "application/json" = true
    /\ trim (text r) <> ""
    /\ JSON_parse (text r) = inl v.

(** The client has a single error class; the pages tell "not found" and
    "already deleted" apart from every other failure by the message.  An
    error is unrelated when it is neither. *)
Definition unrelated (error : string) : Prop :=
  includes error "not found" = false /\ includes error "already deleted" = false.

Definition succeeds {A} (c : completion A) : Prop := exists v, c = Return v.

(** A request that failed, and not with a 404 or what reads as one: an
    HTTP status other than 404, or a network error whose message is
    unrelated. *)
Definition failedOtherwise (f : fetched) : Prop :=
  (exists code, httpFailure f code /\ code <> 404%Z)
  \/ (exists e, f = Rejected e /\ unrelated e).

(** The two ways the operation fails: with an error that reads as "not
    found" (the booking is not there), or with any other error (the
    cancellation failed). *)
Definition BookingNotFoundError {A} (c : completion A) : Prop :=
  exists e, c = Throw e /\ includes e "not found" = true.

Definition CancellationFailedError {A} (c : completion A) : Prop :=
  exists e, c = Throw e /\ includes e "not found" = false.

(** A computation that fails with "not found" only. *)
Definition notFoundOnly {A} (m : Async A) : Prop :=
  forall s, succeeds (fst (m s)) \/ BookingNotFoundError (fst (m s)).

End Outcomes.
End CancelSpec.

(** ** The normaliser and the image resolver *)

Module NormalizerSpec.
Import JS Strapi.

Local Open Scope string_scope.

Section Spec.
Context {host : Host}.

(** [v.k1.k2...], reading [undefined] through a missing step. *)
Definition path (v : value) (keys : list string) : value := fold_left get keys v.

(** The places an image URL is looked for, in order: a direct string, the
    [url] field, [data.attributes.url], [attributes.url]. *)
Definition candidates (imageData : value) : list value :=
  [ if typeof_string imageData then imageData else undefined;
    get imageData "url";
    path imageData ["data"; "attributes"; "url"];
    path imageData ["attributes"; "url"] ].

(** The first candidate that resolves, with the base URL in front of it
    unless it starts with "http"; the fallback when none does, which is
    the placeholder for a caller that passes none. *)
Definition resolveImage (imageData fallback : value) : completion value :=
  match find truthy (candidates imageData) with
  | None =>
      Return (match fallback with undefined => JString placeholder | _ => fallback end)
  | Some (JString u) =>
      Return (JString (if startsWith u "http" then u else STRAPI_URL ++ u))
  | Some other => Throw (TypeError_message other "startsWith")
  end.

(** An absolute URL begins with a scheme and a colon (RFC 3986: a letter,
    then letters, digits, "+", "-" or "."); every other reference, a
    path or one that begins with "//", is relative. *)
Definition isLetter (c : ascii) : bool :=
  let n := nat_of_ascii c in
  ((65 <=? n) && (n <=? 90) || (97 <=? n) && (n <=? 122))%nat.

Definition isSchemeChar (c : ascii) : bool :=
  let n := nat_of_ascii c in
  isLetter c || ((48 <=? n) && (n <=? 57))%nat
  || (n =? 43)%nat || (n =? 45)%nat || (n =? 46)%nat.

Fixpoint schemeEnds (s : string) : bool :=
  match s with
  | EmptyString => false
  | String c rest =>
      if Ascii.eqb c ":" then true
      else if isSchemeChar c then schemeEnds rest else false
  end.

Definition absoluteURL (u : string) : bool :=
  match u with
  | EmptyString => false
  | String c rest => isLetter c && schemeEnds rest
  end.

(** The rule for a bare string as first described: an absolute URL is
    returned unchanged, a relative one behind the base URL. *)
Definition resolved_by_kind (u : string) : Prop :=
  getImageUrl_default (JString u)
  = Return (JString (if absoluteURL u then u else STRAPI_URL ++ u)).

(** The status rule as first described: the booking-specific field, else
    the generic field of the raw record, else [confirmed]. *)
Definition status_with_generic_fallback (raw : value) : Prop :=
  forall b, normalizeBooking raw = Return b ->
    MyBookings.statusOf b
    = or (or (get raw "bookingStatus") (get raw "status")) (JString "confirmed").

End Spec.
End NormalizerSpec.

(** ** The booking scenario *)

Module BookingSpec.
Import JSDate JS Strapi ScheduleBooking DateText.

Local Open Scope string_scope.

(** The text before the first [c] and the text after it. *)
Fixpoint splitAt (c : ascii) (s : string) : string * string :=
  match s with
  | EmptyString => ("", "")
  | String a rest =>
      if Ascii.eqb a c then ("", rest)
      else let (before, after) := splitAt c rest in (String a before, after)
  end.

Definition digit (c : ascii) : option Z :=
  let n := nat_of_ascii c in
  if ((48 <=? n) && (n <=? 57))%nat then Some (Z.of_nat (n - 48)) else None.

(** The number that a text of decimal digits denotes, after the digits
    [acc] read so far. *)
Fixpoint number (acc : Z) (s : string) : option Z :=
  match s with
  | EmptyString => Some acc
  | String c rest =>
      match digit c with
      | Some d => number (10 * acc + d) rest
      | None => None
      end
  end.

Definition digits (s : string) : option Z :=
  match s with EmptyString => None | _ => number 0 s end.

(** Minutes after midnight that a 12-hour clock label such as "2:00 PM"
    denotes: an hour from 1 to 12 in one or two digits, a colon, the
    minutes from 00 to 59 in two digits, a space, and AM or PM. *)
Definition clockMinutes (label : string) : option Z :=
  let (h, rest) := splitAt ":" label in
  let (m, half) := splitAt " " rest in
  match digits h, digits m with
  | Some hour, Some minute =>
      if ((String.length h <=? 2)%nat && (String.length m =? 2)%nat
          && (1 <=? hour) && (hour <=? 12) && (minute <=? 59))%Z
      then
        if half =? "AM" then Some ((hour mod 12) * 60 + minute)%Z
        else if half =? "PM" then Some ((hour mod 12 + 12) * 60 + minute)%Z
        else None
      else None
  | _, _ => None
  end.

(** A text of the form "YYYY-MM-DD h:mm AM" (or PM) for a day of the
    calendar in the years 1000 to 9999, and what it denotes: the year,
    the month from 1 to 12, the day of the month and the minutes after
    midnight. *)
Definition localDateTime (text : string) : option (Z * Z * Z * Z) :=
  match text with
  | String y1 (String y2 (String y3 (String y4 (String s1
      (String m1 (String m2 (String s2
      (String d1 (String d2 (String s3 clock)))))))))) =>
      if Ascii.eqb s1 "-" && Ascii.eqb s2 "-" && Ascii.eqb s3 " " then
        match number 0 (String y1 (String y2 (String y3 (String y4 "")))),
              number 0 (String m1 (String m2 "")),
              number 0 (String d1 (String d2 "")),
              clockMinutes clock with
        | Some y, Some m, Some d, Some minutes =>
            if ((1000 <=? y) && (1 <=? m) && (m <=? 12) && (1 <=? d)
                && (d <=? daysInMonth (leap y) (m - 1)))%Z
            then Some (y, m, d, minutes)
            else None
        | _, _, _, _ => None
        end
      else None
  | _ => None
  end.

(** The date library on this host reads every such text as that local
    date and time.  The text is not in the ISO format, so the library
    hands it to the [Date] parser of the host, for which the language
    standard leaves the result open. *)
Definition readsLocalTime {zone : Zone} (dayjs : string -> option Date) : Prop :=
  forall text y m d minutes,
    localDateTime text = Some (y, m, d, minutes) ->
    dayjs text
    = Some (atLocal (MakeDay y (m - 1) d * msPerDay + minutes * 60000)).

(** The selected calendar date combined with the local time of the
    selected slot. *)
Definition combined (selectedDate : Date) (minutes : Z) : Date :=
  (setHours0 selectedDate + minutes * 60000)%Z.

(** The payload of the scenario: service reference, requester's email,
    scheduled instant and status, and nothing else. *)
Definition payload (service email scheduleTime : value) : value :=
  JObject [ ("service", service); ("userEmail", email);
            ("scheduleTime", scheduleTime);
            ("bookingStatus", JString "confirmed") ].

(** The request that creates a booking with the payload [data]. *)
Definition bookingRequest {host : Host} (data : value) : request :=
  {| method := "POST";
     url := STRAPI_URL ++ "/api/bookings";
     headers := [("Content-Type", "application/json")];
     body := Some (JSON_stringify (JObject [("data", data)])) |}.

End BookingSpec.

(** ** A scripted host, for running the client on concrete exchanges *)

Module Scripted.
Import JS Strapi.

Local Open Scope string_scope.

(** The JSON text of an object with the single member [data]. *)
Definition dataText (member : string) : string :=
  "{" ++ doubleQuote ++ "data" ++ doubleQuote ++ ":" ++ member ++ "}".

(** A parser for the handful of texts the examples use; every other text
    is a syntax error. *)
Definition parse (t : string) : value + string :=
  if t =? dataText "7" then inl (JObject [("data", JNumber 7)])
  else if t =? dataText "[]" then inl (JObject [("data", JArray [])])
  else if t =? dataText "null" then inl (JObject [("data", null)])
  else inr "Unexpected end of JSON input".

(** [JSON.stringify] on the values of the model.  A text is quoted, with
    the quote, the backslash and the control characters escaped; a
    member whose value is [undefined] is left out of an object and
    printed as [null] in an array; [undefined] itself has no JSON text
    ([None]). *)
Definition backslash : string := String (ascii_of_nat 92) "".

Definition hexDigit (n : nat) : string :=
  String (nth n ["0"; "1"; "2"; "3"; "4"; "5"; "6"; "7"; "8"; "9";
                 "a"; "b"; "c"; "d"; "e"; "f"]%char "0"%char) "".

Definition escaped (c : ascii) : string :=
  let n := nat_of_ascii c in
  if (n =? 34)%nat then backslash ++ doubleQuote
  else if (n =? 92)%nat then backslash ++ backslash
  else if (n =? 8)%nat then backslash ++ "b"
  else if (n =? 9)%nat then backslash ++ "t"
  else if (n =? 10)%nat then backslash ++ "n"
  else if (n =? 12)%nat then backslash ++ "f"
  else if (n =? 13)%nat then backslash ++ "r"
  else if (n <? 32)%nat
  then backslash ++ "u00" ++ hexDigit (n / 16) ++ hexDigit (n mod 16)
  else String c "".

Fixpoint escapedText (s : string) : string :=
  match s with
  | EmptyString => ""
  | String c rest => escaped c ++ escapedText rest
  end.

Definition quote (s : string) : string :=
  doubleQuote ++ escapedText s ++ doubleQuote.

Fixpoint stringify (v : value) : option string :=
  match v with
  | undefined => None
  | null => Some "null"
  | JBool true => Some "true"
  | JBool false => Some "false"
  | JNumber n => Some (numberToString n)
  | JString s => Some (quote s)
  | JArray xs =>
      Some ("[" ++ join "," (map (fun x => match stringify x with
                                           | Some t => t
                                           | None => "null"
                                           end) xs) ++ "]")
  | JObject fields =>
      Some ("{" ++ join "," (flat_map (fun '(k, x) =>
                                         match stringify x with
                                         | Some t => [quote k ++ ":" ++ t]
                                         | None => []
                                         end) fields) ++ "}")
  end.

(** The text a request body gets. *)
Definition bodyText (v : value) : string :=
  match stringify v with
  | Some t => t
  | None => "undefined"
  end.

(** The world is the list of answers still to come, served in order; the
    network is down once the script is used up. *)
#[export] Instance host : Host := {|
  world := list fetched;
  serve := fun _ w =>
             match w with
             | f :: rest => (f, rest)
             | [] => (Rejected "Failed to fetch", [])
             end;
  JSON_parse := parse;
  JSON_stringify := bodyText;
  TypeError_message := fun _ k => "Cannot read properties (reading " ++ k ++ ")";
  ToNumber := fun _ => None;
  VITE_STRAPI_URL := None
|}.

Definition answer (code : Z) (t : string) : fetched :=
  Resolved {| status := code; statusText := "";
              contentType := Some "application/json"; text := t |}.

Definition start (script : list fetched) : session :=
  {| store := script; sent := [] |}.

(** The direct query finds the record, DELETE is answered 500 and PUT
    404: the cancellation reports success. *)
Definition raceScript : list fetched :=
  [answer 200 (dataText "7"); answer 500 ""; answer 404 ""].

(** The direct query finds the record, DELETE is answered 500 and PUT
    204 No Content, without a body. *)
Definition noContent : fetched :=
  Resolved {| status := 204; statusText := "No Content";
              contentType := None; text := "" |}.

Definition acceptedScript : list fetched :=
  [answer 200 (dataText "7"); answer 500 ""; noContent].

Definition rawBooking : value :=
  JObject [("id", JNumber 12); ("documentId", JString "k3x9");
           ("bookingStatus", JString "cancelled"); ("scheduleTime", JNumber 1000)].

Definition legacyBooking : value :=
  JObject [("id", JNumber 12); ("scheduleTime", JNumber 1000)].

Definition normalized (raw : value) : Booking :=
  match normalizeBooking raw with
  | Return b => b
  | Throw _ =>
      {| id := null; documentId := null; strapiId := null; userEmail := null;
         userName := null; scheduleTime := null; date := null;
         bookingStatus := null; status_ := null; service := null |}
  end.

(** [dayjs] on a number of milliseconds. *)
Definition dayjsOfNumber (v : value) : option Z :=
  match v with JNumber n => Some n | _ => None end.

(** A host whose local time is UTC: [toISOString] of a time value. *)
Definition isoUTC (t : JSDate.Date) : string :=
  let w := (t mod JSDate.msPerDay)%Z in
  ScheduleBooking.formatYMD t ++ "T"
  ++ ScheduleBooking.padStart 2 (w / 3600000) ++ ":"
  ++ ScheduleBooking.padStart 2 (w / 60000 mod 60) ++ ":"
  ++ ScheduleBooking.padStart 2 (w / 1000 mod 60) ++ "."
  ++ ScheduleBooking.padStart 3 (w mod 1000) ++ "Z".

(** [dayjs] on the one text of the booking example: 15 November 2026,
    14:00. *)
Definition dayjsOfText (t : string) : option JSDate.Date :=
  if t =? "2026-11-15 2:00 PM" then Some 1794751200000%Z else None.

(** A date library on a host that reads the texts "YYYY-MM-DD h:mm AM"
    (or PM) as local dates and times. *)
Definition dayjsLenient {zone : JSDate.Zone} (t : string) : option JSDate.Date :=
  match BookingSpec.localDateTime t with
  | Some (y, m, d, minutes) =>
      Some (JSDate.atLocal
              (JSDate.MakeDay y (m - 1) d * JSDate.msPerDay + minutes * 60000)%Z)
  | None => None
  end.

(** One on a host that reads a date "YYYY-MM-DD" and takes a text with
    anything after it as an invalid date. *)
Definition dayjsStrict {zone : JSDate.Zone} (t : string) : option JSDate.Date :=
  match t with
  | String y1 (String y2 (String y3 (String y4 (String s1
      (String m1 (String m2 (String s2
      (String d1 (String d2 EmptyString))))))))) =>
      match BookingSpec.number 0 (String y1 (String y2 (String y3 (String y4 "")))),
            BookingSpec.number 0 (String m1 (String m2 "")),
            BookingSpec.number 0 (String d1 (String d2 "")) with
      | Some y, Some m, Some d =>
          if Ascii.eqb s1 "-" && Ascii.eqb s2 "-"
          then Some (JSDate.atLocal (JSDate.MakeDay y (m - 1) d * JSDate.msPerDay)%Z)
          else None
      | _, _, _ => None
      end
  | _ => None
  end.

Definition signedIn : value := JObject [("email", JString " ann@example.org ")].

Definition haircut : value :=
  JObject [("id", JNumber 3); ("documentId", JString "svc-haircut");
           ("title", JString "Haircut"); ("duration", JNumber 30);
           ("price", JNumber 25)].

Definition idle : ScheduleBooking.view :=
  {| ScheduleBooking.processing := false; ScheduleBooking.errMsg := "";
     ScheduleBooking.alerts := []; ScheduleBooking.location := None |}.

End Scripted.

(** ** The calendar as the visitor sees it *)

Module ViewSpec.
Import JSDate Schedule ScheduleView.

(** Months counted from year 0: the month a date lies in. *)
Definition monthIndex (t : Date) : Z := 12 * getFullYear t + getMonth t.

(** A selection that is not before the calendar day of [lo]. *)
Definition notBefore (lo : Date) (selected : option Date) : Prop :=
  match selected with
  | Some d => Day lo <= Day d
  | None => True
  end.

(** The instants of the renders that follow the events. *)
Definition renderTime (e : event) : Date :=
  match e with
  | Prev now | Next now | Click now _ | Render now => now
  end.

Definition renderTimes (events : list event) : list Date := map renderTime events.

End ViewSpec.

(** ** What the client sends, and what the pages show afterwards *)

Module ServiceSpec.
Import JS Strapi.

Local Open Scope string_scope.

Section Spec.
Context {host : Host}.

(** The exchanges a run of [m] from [s] adds to the log. *)
Definition adds {A} (m : Async A) (s : session)
    (trace : list (request * fetched)) : Prop :=
  sent (snd (m s)) = (sent s ++ trace)%list.

(** A computation that only ever appends to the log. *)
Definition extends {A} (m : Async A) : Prop :=
  forall s, exists trace, adds m s trace.

(** The id a raw record is known by: [documentId], else [id]. *)
Definition rawId (raw : value) : value := or (get raw "documentId") (get raw "id").

(** The request of [fetchBookingsForUser]. *)
Definition bookingsQuery (userEmail : value) : request :=
  GET (STRAPI_URL ++ "/api/bookings?filters[userEmail][$eq]=" ++ toString userEmail
         ++ "&populate=service.image&sort=scheduleTime:desc").

(** An absolute URL, as [getImageUrl] tells one. *)
Definition absolute (v : value) : Prop :=
  exists u, v = JString u /\ startsWith u "http" = true.

End Spec.
End ServiceSpec.

Module BookingPageSpec.
Import JS ScheduleBooking.

Local Open Scope string_scope.

(** The Schedule page after an attempt that failed with [message], and
    after one that went through. *)
Definition failed (message : string) (v : view) : view :=
  {| processing := false; errMsg := errorMessage message;
     alerts := alerts v; location := location v |}.

Definition booked (notice : string) (v : view) : view :=
  {| processing := false; errMsg := "";
     alerts := (alerts v ++ [notice])%list; location := Some "/my-bookings" |}.

End BookingPageSpec.

Module CancelPageSpec.
Import JS Strapi MyBookingsPage.

Local Open Scope string_scope.

(** The MyBookings page once the cancel handler is through: the booking
    dropped from the list and the dialog closed, or everything left in
    place; either way one notice is shown. *)
Definition dropped (bookingId : value) (notice : string) (p : page) : page :=
  setCancelling false
    (alert notice (closeModal (setBookings (removeBooking bookingId)
                                 (setCancelling true p)))).

Definition kept (notice : string) (p : page) : page :=
  setCancelling false (alert notice (setCancelling true p)).

Definition gone : string :=
  "This booking no longer exists and has been removed from your list.".

Definition done : string := "Booking cancelled successfully.".

Definition already : string := "This booking has already been cancelled or removed.".

Definition unable : string :=
  "Unable to cancel this booking at the moment. Please try again later or contact support.".

Definition failedNotice : string :=
  "Failed to cancel booking. Please try again or contact support.".

Definition unexpected : string :=
  "An unexpected error occurred. Please try again or contact support.".

End CancelPageSpec.

(** ** Scripted scenarios for the pages *)

Module Scenarios.
Import JS Strapi Scripted.

Local Open Scope string_scope.

(** The JSON text of a list with one record, and a host that reads it;
    every other text is read as the scripted host reads it. *)
Definition quoted (t : string) : string := doubleQuote ++ t ++ doubleQuote.

Definition oneBooking : string :=
  dataText ("[{" ++ quoted "id" ++ ":12," ++ quoted "documentId" ++ ":"
            ++ quoted "k3x9" ++ "," ++ quoted "bookingStatus" ++ ":"
            ++ quoted "cancelled" ++ "," ++ quoted "scheduleTime" ++ ":1000}]").

Definition demo : Host := {|
  world := list fetched;
  serve := fun _ w =>
             match w with
             | f :: rest => (f, rest)
             | [] => (Rejected "Failed to fetch", [])
             end;
  JSON_parse := fun t =>
                  if t =? oneBooking then inl (JObject [("data", JArray [rawBooking])])
                  else parse t;
  JSON_stringify := bodyText;
  TypeError_message := fun _ k => "Cannot read properties (reading " ++ k ++ ")";
  ToNumber := fun _ => None;
  VITE_STRAPI_URL := None
|}.

Definition running (script : list fetched) (log : list (request * fetched))
  : @session demo :=
  @Build_session demo script log.

Definition begin (script : list fetched) : @session demo := running script [].

(** A booking as the list holds it, with the populated service. *)
Definition haircutBooking : Booking :=
  {| id := JString "bk7"; documentId := JString "bk7"; strapiId := JNumber 12;
     userEmail := JString "ann@example.org"; userName := undefined;
     scheduleTime := JNumber 1000; date := JNumber 1000;
     bookingStatus := JString "confirmed"; status_ := JString "confirmed";
     service := haircut |}.

Definition otherBooking : Booking :=
  {| id := JString "bk8"; documentId := JString "bk8"; strapiId := JNumber 13;
     userEmail := JString "ann@example.org"; userName := undefined;
     scheduleTime := JNumber 2000; date := JNumber 2000;
     bookingStatus := JString "confirmed"; status_ := JString "confirmed";
     service := haircut |}.

(** The page with two bookings fetched, and after "Manage" has been
    pressed on the first. *)
Definition fetchedPage : MyBookingsPage.page :=
  {| MyBookingsPage.bookings := [haircutBooking; otherBooking];
     MyBookingsPage.error := "";
     MyBookingsPage.loading := false;
     MyBookingsPage.selectedBooking := None;
     MyBookingsPage.showModal := false;
     MyBookingsPage.cancelling := false;
     MyBookingsPage.alerts := [];
     MyBookingsPage.location := None |}.

Definition listed : MyBookingsPage.page :=
  MyBookingsPage.handleManageBooking haircutBooking fetchedPage.

(** A user without an at sign in the email. *)
Definition oddUser : value := JObject [("email", JString "ann.example.org")].

(** A toy auth service: the state is the user; a call succeeds unless
    the password to re-authenticate with is empty. *)
Definition ann : AccountSettings.user :=
  {| AccountSettings.displayName := Some " Ann  Lee ";
     AccountSettings.email := Some "ann@example.org";
     AccountSettings.phoneNumber := None |}.

Definition toyPerform (c : AccountSettings.call) (u : AccountSettings.user)
  : AccountSettings.outcome * AccountSettings.user :=
  match c with
  | AccountSettings.UpdateProfile d =>
      (AccountSettings.Fulfilled,
       {| AccountSettings.displayName := Some d;
          AccountSettings.email := AccountSettings.email u;
          AccountSettings.phoneNumber := AccountSettings.phoneNumber u |})
  | AccountSettings.UpdateEmail e =>
      (AccountSettings.Fulfilled,
       {| AccountSettings.displayName := AccountSettings.displayName u;
          AccountSettings.email := Some e;
          AccountSettings.phoneNumber := AccountSettings.phoneNumber u |})
  | AccountSettings.Reauthenticate _ password =>
      (if password =? "" then AccountSettings.Failed (Some "auth/wrong-password")
       else AccountSettings.Fulfilled, u)
  | AccountSettings.UpdatePassword _ => (AccountSettings.Fulfilled, u)
  end.

(** The settings page as first mounted, and after the form has been
    reset from the signed-in user. *)
Definition mounted : AccountSettings.settings AccountSettings.user :=
  {| AccountSettings.isLoading := false;
     AccountSettings.isEditing := true;
     AccountSettings.message := "";
     AccountSettings.error := "";
     AccountSettings.formData :=
       {| AccountSettings.firstName := ""; AccountSettings.lastName := "";
          AccountSettings.formEmail := ""; AccountSettings.phone := "" |};
     AccountSettings.passwordData :=
       {| AccountSettings.currentPassword := "";
          AccountSettings.newPassword := "";
          AccountSettings.confirmPassword := "" |};
     AccountSettings.auth := ann;
     AccountSettings.calls := [] |}.

Definition loaded : AccountSettings.settings AccountSettings.user :=
  AccountSettings.handleCancelEdit (fun u => u) mounted.

(** Texts outside ASCII, as their UTF-8 bytes: the no-break space U+00A0,
    the ideographic space U+3000 and the letter e with acute accent
    U+00E9. *)
Definition noBreakSpace : string :=
  String (ascii_of_nat 194) (String (ascii_of_nat 160) "").

Definition ideographicSpace : string :=
  String (ascii_of_nat 227) (String (ascii_of_nat 128) (String (ascii_of_nat 128) "")).

Definition eAcute : string :=
  String (ascii_of_nat 195) (String (ascii_of_nat 169) "").

(** A user whose display name is padded with such spaces, and the page
    after the form has been reset from that user. *)
Definition padded : AccountSettings.user :=
  {| AccountSettings.displayName := Some (noBreakSpace ++ "Ann Lee" ++ ideographicSpace);
     AccountSettings.email := Some "ann@example.org";
     AccountSettings.phoneNumber := None |}.

Definition loadedPadded : AccountSettings.settings AccountSettings.user :=
  AccountSettings.handleCancelEdit (fun u => u)
    {| AccountSettings.isLoading := false;
       AccountSettings.isEditing := true;
       AccountSettings.message := "";
       AccountSettings.error := "";
       AccountSettings.formData := AccountSettings.formData mounted;
       AccountSettings.passwordData := AccountSettings.passwordData mounted;
       AccountSettings.auth := padded;
       AccountSettings.calls := [] |}.

(** The page with a new password of [n] letters e with acute accent
    typed in twice. *)
Definition typed (n : nat) : AccountSettings.settings AccountSettings.user :=
  let password := String.concat "" (repeat eAcute n) in
  {| AccountSettings.isLoading := false;
     AccountSettings.isEditing := false;
     AccountSettings.message := "";
     AccountSettings.error := "";
     AccountSettings.formData := AccountSettings.formData mounted;
     AccountSettings.passwordData :=
       {| AccountSettings.currentPassword := "secret";
          AccountSettings.newPassword := password;
          AccountSettings.confirmPassword := password |};
     AccountSettings.auth := ann;
     AccountSettings.calls := [] |}.

End Scenarios.

(* ================================================================== *)
(** * Part III.  Facts and theorems *)
(* ================================================================== *)

Module JSDateFacts.
Import JSDate.

Lemma DayFromYear_succ y : DayFromYear (y + 1) = DayFromYear y + DaysInYear y.
Proof.
  unfold DayFromYear, DaysInYear, leap.
  destruct (Z.eqb_spec (y mod 4) 0), (Z.eqb_spec (y mod 100) 0),
    (Z.eqb_spec (y mod 400) 0); cbn [andb orb negb];
    Z.div_mod_to_equations; lia.
Qed.

Lemma DayFromYear_blocks a c q e :
  0 <= c <= 3 -> 0 <= q <= 24 -> 0 <= e <= 3 ->
  DayFromYear (1601 + 400 * a + 100 * c + 4 * q + e)
  = 146097 * a + 36524 * c + 1461 * q + 365 * e - 134774.
Proof.
  intros. unfold DayFromYear. Z.div_mod_to_equations. lia.
Qed.

Lemma leap_blocks a c q e :
  0 <= c <= 3 -> 0 <= q <= 24 -> 0 <= e <= 3 ->
  leap (1601 + 400 * a + 100 * c + 4 * q + e)
  = (e =? 3) && (negb (q =? 24) || (c =? 3)).
Proof.
  intros. unfold leap.
  destruct (Z.eqb_spec e 3), (Z.eqb_spec q 24), (Z.eqb_spec c 3);
    cbn [andb orb negb];
    repeat match goal with
           | |- context [?x mod ?k =? 0] => destruct (Z.eqb_spec (x mod k) 0)
           end; cbn [andb orb negb]; try reflexivity;
    exfalso; Z.div_mod_to_equations; lia.
Qed.

(** The block decomposition behind [YearFromDay]. *)
Lemma YearFromDay_blocks d :
  exists a c q e w,
    0 <= c <= 3 /\ 0 <= q <= 24 /\ 0 <= e <= 3 /\
    YearFromDay d = 1601 + 400 * a + 100 * c + 4 * q + e /\
    d = 146097 * a + 36524 * c + 1461 * q + 365 * e - 134774 + w /\
    0 <= w /\
    w < (if (e =? 3) && (negb (q =? 24) || (c =? 3)) then 366 else 365).
Proof.
  unfold YearFromDay.
  set (n := d + 134774).
  set (r := n mod 146097).
  set (c := Z.min (r / 36524) 3).
  set (r2 := r - c * 36524).
  set (q := r2 / 1461).
  set (r3 := r2 mod 1461).
  set (e := Z.min (r3 / 365) 3).
  exists (n / 146097), c, q, e, (r3 - 365 * e).
  assert (Hr : 0 <= r < 146097) by (apply Z.mod_pos_bound; lia).
  assert (Hn : n = 146097 * (n / 146097) + r) by (apply Z.div_mod; lia).
  assert (Hc : 0 <= c <= 3 /\ 0 <= r2 /\ (c < 3 -> r2 < 36524) /\ r2 <= 36524).
  { subst c r2. Z.div_mod_to_equations. lia. }
  assert (Hq : 0 <= q <= 24 /\ 0 <= r3 < 1461 /\ r2 = 1461 * q + r3).
  { subst q r3. Z.div_mod_to_equations. lia. }
  assert (He : 0 <= e <= 3 /\ 0 <= r3 - 365 * e /\ (e < 3 -> r3 - 365 * e < 365)
               /\ r3 - 365 * e <= 365).
  { subst e. Z.div_mod_to_equations. lia. }
  repeat split; try lia.
  destruct (Z.eqb_spec e 3), (Z.eqb_spec q 24), (Z.eqb_spec c 3);
    cbn [andb orb negb]; lia.
Qed.

Lemma YearFromDay_spec d :
  DayFromYear (YearFromDay d) <= d < DayFromYear (YearFromDay d + 1).
Proof.
  destruct (YearFromDay_blocks d) as (a & c & q & e & w & Hc & Hq & He & Hy & Hd & Hw0 & Hw).
  rewrite DayFromYear_succ. unfold DaysInYear.
  rewrite Hy, leap_blocks, DayFromYear_blocks by assumption. lia.
Qed.

Lemma DayFromYear_mono y1 y2 : y1 <= y2 -> DayFromYear y1 <= DayFromYear y2.
Proof.
  intros H. unfold DayFromYear. Z.div_mod_to_equations. lia.
Qed.

(** [YearFromDay] is the year whose days contain [d]. *)
Lemma YearFromDay_unique y d :
  DayFromYear y <= d < DayFromYear (y + 1) -> YearFromDay d = y.
Proof.
  intros H. pose proof (YearFromDay_spec d) as S.
  destruct (Z.lt_trichotomy (YearFromDay d) y) as [L | [E | G]]; [exfalso | exact E | exfalso].
  - pose proof (DayFromYear_mono (YearFromDay d + 1) y ltac:(lia)). lia.
  - pose proof (DayFromYear_mono (y + 1) (YearFromDay d) ltac:(lia)). lia.
Qed.

Lemma DayWithinYear_bounds d :
  0 <= DayWithinYear d < DaysInYear (YearFromDay d).
Proof.
  unfold DayWithinYear. pose proof (YearFromDay_spec d) as S.
  rewrite DayFromYear_succ in S. lia.
Qed.

Ltac month_cases m :=
  let C := fresh "C" in
  assert (m = 0 \/ m = 1 \/ m = 2 \/ m = 3 \/ m = 4 \/ m = 5 \/ m = 6 \/ m = 7
          \/ m = 8 \/ m = 9 \/ m = 10 \/ m = 11) as C by lia;
  repeat (destruct C as [-> | C]); [ .. | subst m].

Ltac split_ltb :=
  repeat match goal with
         | |- context [?a <? ?b] => destruct (Z.ltb_spec a b)
         end.

Lemma daysInMonth_bounds lp m : 28 <= daysInMonth lp m <= 31.
Proof.
  unfold daysInMonth.
  destruct lp; repeat match goal with
                      | |- context [match ?x with _ => _ end] => destruct x
                      end; lia.
Qed.

Lemma monthStart_succ lp m :
  0 <= m <= 11 -> monthStart lp (m + 1) = monthStart lp m + daysInMonth lp m.
Proof. intros H. destruct lp; month_cases m; reflexivity. Qed.

Lemma monthStart_12 y : monthStart (leap y) 12 = DaysInYear y.
Proof. reflexivity. Qed.

Lemma MakeDay_in_year y m dt :
  0 <= m <= 11 ->
  MakeDay y m dt = DayFromYear y + monthStart (leap y) m + dt - 1.
Proof.
  intros Hm. unfold MakeDay.
  replace (m / 12) with 0 by (Z.div_mod_to_equations; lia).
  replace (m mod 12) with m by (Z.div_mod_to_equations; lia).
  now rewrite Z.add_0_r.
Qed.

Lemma MonthFromDay_eq d :
  MonthFromDay d = monthOfYearDay (leap (YearFromDay d)) (DayWithinYear d).
Proof. reflexivity. Qed.

Lemma monthOfYearDay_spec lp w :
  0 <= w < monthStart lp 12 ->
  0 <= monthOfYearDay lp w <= 11 /\
  monthStart lp (monthOfYearDay lp w) <= w
    < monthStart lp (monthOfYearDay lp w) + daysInMonth lp (monthOfYearDay lp w).
Proof.
  intros B. unfold monthOfYearDay.
  destruct lp; cbv [monthStart] in B |- *; split_ltb;
    cbv [monthStart daysInMonth]; lia.
Qed.

Lemma monthOfYearDay_unique lp m w :
  0 <= m <= 11 ->
  monthStart lp m <= w < monthStart lp m + daysInMonth lp m ->
  monthOfYearDay lp w = m.
Proof.
  intros Hm B. unfold monthOfYearDay.
  destruct lp; month_cases m; cbv [monthStart daysInMonth] in B |- *;
    split_ltb; lia.
Qed.

(** Every day number is the day [DateFromDay] of month [MonthFromDay] of
    year [YearFromDay]. *)
Lemma civil_of_day d :
  0 <= MonthFromDay d <= 11 /\
  1 <= DateFromDay d <= daysInMonth (leap (YearFromDay d)) (MonthFromDay d) /\
  d = MakeDay (YearFromDay d) (MonthFromDay d) (DateFromDay d).
Proof.
  pose proof (DayWithinYear_bounds d) as B.
  rewrite <- monthStart_12 in B.
  destruct (monthOfYearDay_spec _ _ B) as [Hm Hw].
  unfold DateFromDay. rewrite MonthFromDay_eq.
  rewrite MakeDay_in_year by exact Hm.
  unfold DayWithinYear in *. lia.
Qed.

(** Conversely the day built from a year, a month in 0..11 and a date of
    that month reads back as that year, month and date. *)
Lemma day_of_civil y m dt :
  0 <= m <= 11 -> 1 <= dt <= daysInMonth (leap y) m ->
  YearFromDay (MakeDay y m dt) = y /\
  MonthFromDay (MakeDay y m dt) = m /\
  DateFromDay (MakeDay y m dt) = dt.
Proof.
  intros Hm Hdt. rewrite MakeDay_in_year by exact Hm.
  assert (Hy : YearFromDay (DayFromYear y + monthStart (leap y) m + dt - 1) = y).
  { apply YearFromDay_unique. rewrite DayFromYear_succ, <- monthStart_12.
    destruct (leap y); month_cases m; cbv [monthStart daysInMonth] in Hdt |- *; lia. }
  assert (Hmo : MonthFromDay (DayFromYear y + monthStart (leap y) m + dt - 1) = m).
  { rewrite MonthFromDay_eq. unfold DayWithinYear. rewrite Hy.
    apply monthOfYearDay_unique; [exact Hm | lia]. }
  unfold DateFromDay, DayWithinYear. rewrite Hmo, Hy. repeat split; lia.
Qed.

Lemma MakeDay_date y m dt : MakeDay y m dt = MakeDay y m 1 + (dt - 1).
Proof. unfold MakeDay. lia. Qed.

(** The first of the next month follows the last day of this month, also
    across the end of the year. *)
Lemma MakeDay_next_month y m :
  0 <= m <= 11 ->
  MakeDay y (m + 1) 1 = MakeDay y m 1 + daysInMonth (leap y) m.
Proof.
  intros Hm. unfold MakeDay.
  replace (m / 12) with 0 by (Z.div_mod_to_equations; lia).
  replace (m mod 12) with m by (Z.div_mod_to_equations; lia).
  rewrite Z.add_0_r.
  destruct (Z.eq_dec m 11) as [-> | N].
  - change ((11 + 1) / 12) with 1. change ((11 + 1) mod 12) with 0.
    rewrite DayFromYear_succ, <- monthStart_12.
    change (monthStart (leap (y + 1)) 0) with 0.
    change (monthStart (leap y) (11 + 1)) with (monthStart (leap y) 12).
    pose proof (monthStart_succ (leap y) 11 ltac:(lia)) as E.
    change (11 + 1) with 12 in E. lia.
  - replace ((m + 1) / 12) with 0 by (Z.div_mod_to_equations; lia).
    replace ((m + 1) mod 12) with (m + 1) by (Z.div_mod_to_equations; lia).
    rewrite Z.add_0_r, monthStart_succ by lia. lia.
Qed.

Lemma Day_midnight d : Day (d * msPerDay) = d.
Proof. unfold Day, msPerDay. apply Z.div_mul. lia. Qed.

Lemma WeekDay_bounds d : 0 <= WeekDay d <= 6.
Proof. unfold WeekDay. Z.div_mod_to_equations. lia. Qed.

Lemma MakeFullYear_idem y : MakeFullYear (MakeFullYear y) = MakeFullYear y.
Proof.
  unfold MakeFullYear.
  destruct (Z.leb_spec 0 y), (Z.leb_spec y 99); cbn [andb];
    repeat match goal with
           | |- context [?a <=? ?b] => destruct (Z.leb_spec a b)
           end; cbn [andb]; try reflexivity; lia.
Qed.

End JSDateFacts.

Module ScheduleFacts.
Import JSDate JSDateFacts Schedule CalendarSpec.

Lemma range_length lo n : List.length (range lo n) = n.
Proof. unfold range. now rewrite length_map, length_seq. Qed.

Lemma range_S lo n : range lo (S n) = lo :: range (lo + 1) n.
Proof.
  unfold range. cbn [seq map]. rewrite Z.add_0_r. f_equal.
  rewrite <- seq_shift, map_map. apply map_ext. intros a. lia.
Qed.

Lemma range_app lo n k :
  range lo (n + k) = range lo n ++ range (lo + Z.of_nat n) k.
Proof.
  revert lo. induction n as [| n IH]; intros lo.
  - cbn. now rewrite Z.add_0_r.
  - cbn [Nat.add]. rewrite !range_S, IH. cbn [app]. do 3 f_equal. lia.
Qed.

Lemma map_range_shift {A} (f : Z -> A) lo n :
  map f (range lo n) = map (fun k => f (lo + k)) (range 0 n).
Proof. unfold range. rewrite !map_map. apply map_ext. intros a. f_equal. Qed.

Lemma range_In lo n x : In x (range lo n) <-> lo <= x < lo + Z.of_nat n.
Proof.
  unfold range. rewrite in_map_iff. split.
  - intros (k & <- & Hk). apply in_seq in Hk. lia.
  - intros H. exists (Z.to_nat (x - lo)). split; [lia |]. apply in_seq. lia.
Qed.

Lemma getMonth_bounds t : 0 <= getMonth t <= 11.
Proof. unfold getMonth. apply civil_of_day. Qed.

(** The fields of a date are those of its day. *)
Lemma fields_of_day (a b : Date) :
  Day a = Day b ->
  getFullYear a = getFullYear b /\ getMonth a = getMonth b
  /\ getDate a = getDate b /\ getDay a = getDay b.
Proof.
  unfold getFullYear, getMonth, getDate, getDay. intros ->. now repeat split.
Qed.

Lemma sameMonth_of_day (a b c : Date) :
  Day a = Day b -> sameMonth a c = sameMonth b c.
Proof.
  intros E. destruct (fields_of_day a b E) as (Hy & Hm & _).
  unfold sameMonth. now rewrite Hy, Hm.
Qed.

Lemma gridLength_bounds baseDate : 28 <= gridLength baseDate <= 31.
Proof. apply daysInMonth_bounds. Qed.

(** Day [dt] of the grid's month reads back as such. *)
Lemma grid_month_day baseDate dt :
  1 <= dt <= gridLength baseDate ->
  let t := (gridFirst baseDate + dt - 1) * msPerDay in
  getFullYear t = gridYear baseDate /\
  getMonth t = getMonth baseDate /\
  getDate t = dt.
Proof.
  intros H t. unfold getFullYear, getMonth at 1, getDate. subst t.
  rewrite Day_midnight.
  replace (gridFirst baseDate + dt - 1)
    with (MakeDay (gridYear baseDate) (getMonth baseDate) dt)
    by (unfold gridFirst; rewrite (MakeDay_date _ _ dt); lia).
  apply day_of_civil; [apply getMonth_bounds | exact H].
Qed.

(** A date on day [dt] of the grid's month. *)
Lemma grid_month_date baseDate dt (c : Date) :
  1 <= dt <= gridLength baseDate ->
  Day c = gridFirst baseDate + dt - 1 ->
  getFullYear c = gridYear baseDate /\
  getMonth c = getMonth baseDate /\
  getDate c = dt.
Proof.
  intros H E. pose proof (grid_month_day baseDate dt H) as G. cbv zeta in G.
  destruct (fields_of_day c ((gridFirst baseDate + dt - 1) * msPerDay))
    as (Hy & Hm & Hd & _); [now rewrite Day_midnight |].
  now rewrite Hy, Hm, Hd.
Qed.

Section Zoned.
Context {zone : Zone}.

(** A date built for a local midnight lies on that day or on the next;
    on that very day when the host builds the day. *)
Lemma atLocal_midnight d :
  d <= Day (atLocal (d * msPerDay)) <= d + 1.
Proof.
  unfold atLocal. pose proof (lands (d * msPerDay)) as L.
  unfold Day. unfold msPerDay in *. Z.div_mod_to_equations. lia.
Qed.

Lemma atLocal_builds d : builds d -> Day (atLocal (d * msPerDay)) = d.
Proof. intros [_ E]. exact E. Qed.

Lemma newDate_grid baseDate x :
  newDate (getFullYear baseDate) (getMonth baseDate) x
  = atLocal ((gridFirst baseDate + x - 1) * msPerDay).
Proof.
  unfold newDate, gridFirst, gridYear. rewrite (MakeDay_date _ _ x).
  do 2 f_equal. lia.
Qed.

Lemma newDate_gridYear baseDate x :
  newDate (gridYear baseDate) (getMonth baseDate) x
  = atLocal ((gridFirst baseDate + x - 1) * msPerDay).
Proof.
  unfold newDate, gridFirst, gridYear. rewrite MakeFullYear_idem.
  rewrite (MakeDay_date _ _ x). do 2 f_equal. lia.
Qed.

Lemma newDate_grid_next baseDate x :
  newDate (getFullYear baseDate) (getMonth baseDate + 1) x
  = atLocal ((gridFirst baseDate + gridLength baseDate + x - 1) * msPerDay).
Proof.
  unfold newDate, gridFirst, gridLength, gridYear.
  rewrite (MakeDay_date _ _ x), MakeDay_next_month by apply getMonth_bounds.
  do 2 f_equal. lia.
Qed.

(** In every zone the first of the grid's month is built in that
    month. *)
Lemma start_month baseDate :
  let start := newDate (getFullYear baseDate) (getMonth baseDate) 1 in
  getFullYear start = gridYear baseDate /\ getMonth start = getMonth baseDate.
Proof.
  cbv zeta. rewrite newDate_grid.
  replace (gridFirst baseDate + 1 - 1) with (gridFirst baseDate) by lia.
  pose proof (atLocal_midnight (gridFirst baseDate)) as L.
  pose proof (gridLength_bounds baseDate) as B.
  assert (C : Day (atLocal (gridFirst baseDate * msPerDay)) = gridFirst baseDate + 1 - 1
              \/ Day (atLocal (gridFirst baseDate * msPerDay))
                 = gridFirst baseDate + 2 - 1) by lia.
  destruct C as [C | C].
  - destruct (grid_month_date baseDate 1 _ ltac:(lia) C) as (Hy & Hm & _).
    now split.
  - destruct (grid_month_date baseDate 2 _ ltac:(lia) C) as (Hy & Hm & _).
    now split.
Qed.

Lemma start_fields baseDate :
  builds (gridFirst baseDate) ->
  let start := newDate (getFullYear baseDate) (getMonth baseDate) 1 in
  getFullYear start = gridYear baseDate /\ getMonth start = getMonth baseDate
  /\ getDay start = WeekDay (gridFirst baseDate).
Proof.
  intros Hb. cbv zeta. destruct (start_month baseDate) as (Hy & Hm).
  cbv zeta in Hy, Hm. repeat split; [exact Hy | exact Hm |].
  rewrite newDate_grid. unfold getDay.
  replace (gridFirst baseDate + 1 - 1) with (gridFirst baseDate) by lia.
  now rewrite (atLocal_builds _ Hb).
Qed.

Lemma end_date baseDate :
  builds (gridFirst baseDate + gridLength baseDate - 1) ->
  getDate (newDate (getFullYear baseDate) (getMonth baseDate + 1) 0)
  = gridLength baseDate.
Proof.
  intros Hb. rewrite newDate_grid_next.
  pose proof (gridLength_bounds baseDate) as B.
  replace (gridFirst baseDate + gridLength baseDate + 0 - 1)
    with (gridFirst baseDate + gridLength baseDate - 1) by lia.
  apply (grid_month_date baseDate (gridLength baseDate)); [lia |].
  now rewrite (atLocal_builds _ Hb).
Qed.

(** The first and the last day of the grid's month are among the 42
    days. *)
Lemma regular_first baseDate : regular baseDate -> builds (gridFirst baseDate).
Proof.
  intros R. pose proof (WeekDay_bounds (gridFirst baseDate)) as W.
  specialize (R (WeekDay (gridFirst baseDate)) ltac:(lia)).
  now replace (gridFirst baseDate - WeekDay (gridFirst baseDate)
               + WeekDay (gridFirst baseDate)) with (gridFirst baseDate) in R by lia.
Qed.

Lemma regular_last baseDate :
  regular baseDate -> builds (gridFirst baseDate + gridLength baseDate - 1).
Proof.
  intros R. pose proof (WeekDay_bounds (gridFirst baseDate)) as W.
  pose proof (gridLength_bounds baseDate) as B.
  specialize (R (WeekDay (gridFirst baseDate) + gridLength baseDate - 1) ltac:(lia)).
  now replace (gridFirst baseDate - WeekDay (gridFirst baseDate)
               + (WeekDay (gridFirst baseDate) + gridLength baseDate - 1))
    with (gridFirst baseDate + gridLength baseDate - 1) in R by lia.
Qed.

(** The grid holds the dates built for the 42 consecutive days that
    start on the Sunday on or before the first of the grid's month. *)
Lemma generateCalendar_cells baseDate :
  builds (gridFirst baseDate) ->
  builds (gridFirst baseDate + gridLength baseDate - 1) ->
  generateCalendar baseDate
  = map (fun k => atLocal (gridCell baseDate k)) (range 0 42).
Proof.
  intros Hfirst Hlast.
  unfold generateCalendar, pushFor.
  destruct (start_fields baseDate Hfirst) as (Hy & Hm & Hsd). cbv zeta in *.
  rewrite Hy, Hm, Hsd, (end_date _ Hlast).
  pose proof (WeekDay_bounds (gridFirst baseDate)) as Bs.
  pose proof (gridLength_bounds baseDate) as Bl.
  set (sd := WeekDay (gridFirst baseDate)) in *.
  set (n := gridLength baseDate) in *.
  cbn [app]. rewrite length_app, !length_map, !range_length.
  replace (sd - 0) with sd by lia.
  replace (n + 1 - 1) with n by lia.
  replace (42 - Z.of_nat (Z.to_nat sd + Z.to_nat n) + 1 - 1) with (42 - sd - n) by lia.
  replace 42%nat with (Z.to_nat sd + (Z.to_nat n + Z.to_nat (42 - sd - n)))%nat by lia.
  rewrite !range_app, !map_app, <- app_assoc.
  f_equal; [| f_equal].
  - apply map_ext. intros i. rewrite newDate_gridYear.
    unfold gridCell. fold sd. do 2 f_equal. lia.
  - rewrite (map_range_shift _ 1), (map_range_shift _ (0 + _)).
    apply map_ext. intros d. rewrite newDate_grid. unfold gridCell. fold sd.
    do 2 f_equal. lia.
  - rewrite (map_range_shift _ 1), (map_range_shift _ (0 + _ + _)).
    apply map_ext. intros i. rewrite newDate_grid_next. unfold gridCell.
    fold sd n. do 2 f_equal. lia.
Qed.

Lemma generateCalendar_regular baseDate :
  regular baseDate ->
  generateCalendar baseDate
  = map (fun k => atLocal (gridCell baseDate k)) (range 0 42).
Proof.
  intros R. apply generateCalendar_cells;
    [now apply regular_first | now apply regular_last].
Qed.

End Zoned.

(** A day of the same year and month lies between the first and the
    last day of that month. *)
Lemma same_month_between y m c :
  0 <= m <= 11 ->
  YearFromDay c = y -> MonthFromDay c = m ->
  MakeDay y m 1 <= c < MakeDay y m 1 + daysInMonth (leap y) m.
Proof.
  intros Hm Hy Hmo.
  destruct (civil_of_day c) as (_ & Hd & Hc).
  rewrite Hy, Hmo in *. rewrite (MakeDay_date _ _ (DateFromDay c)) in Hc. lia.
Qed.

Lemma same_month_between_date y m (t : Date) :
  0 <= m <= 11 ->
  getFullYear t = y -> getMonth t = m ->
  MakeDay y m 1 <= Day t < MakeDay y m 1 + daysInMonth (leap y) m.
Proof. exact (same_month_between y m (Day t)). Qed.

Lemma sameMonth_true_iff d1 d2 :
  sameMonth d1 d2 = true
  <-> getMonth d1 = getMonth d2 /\ getFullYear d1 = getFullYear d2.
Proof. unfold sameMonth. rewrite andb_true_iff, !Z.eqb_eq. tauto. Qed.

Lemma gridCell_day baseDate k :
  Day (gridCell baseDate k)
  = gridFirst baseDate - WeekDay (gridFirst baseDate) + k.
Proof. unfold gridCell. apply Day_midnight. Qed.

Section Cells.
Context {zone : Zone}.

(** A cell built on its day. *)
Lemma cell_day baseDate k :
  regular baseDate -> 0 <= k < 42 ->
  Day (atLocal (gridCell baseDate k))
  = gridFirst baseDate - WeekDay (gridFirst baseDate) + k.
Proof. intros R Hk. unfold gridCell. exact (atLocal_builds _ (R k Hk)). Qed.

Lemma cell_gridCell baseDate k :
  regular baseDate -> 0 <= k < 42 ->
  Day (atLocal (gridCell baseDate k)) = Day (gridCell baseDate k).
Proof. intros R Hk. now rewrite cell_day, gridCell_day. Qed.

End Cells.

(** Cells of the grid inside the grid's month. *)
Lemma gridCell_inside baseDate k :
  WeekDay (gridFirst baseDate) <= k
    < WeekDay (gridFirst baseDate) + gridLength baseDate ->
  getFullYear (gridCell baseDate k) = gridYear baseDate /\
  getMonth (gridCell baseDate k) = getMonth baseDate /\
  getDate (gridCell baseDate k) = k - WeekDay (gridFirst baseDate) + 1.
Proof.
  intros H.
  pose proof (grid_month_day baseDate (k - WeekDay (gridFirst baseDate) + 1)
                ltac:(lia)) as G.
  cbv zeta in G.
  replace (gridFirst baseDate + (k - WeekDay (gridFirst baseDate) + 1) - 1)
    with (gridFirst baseDate - WeekDay (gridFirst baseDate) + k) in G by lia.
  exact G.
Qed.

Lemma gridFirst_eq baseDate :
  MakeDay (gridYear baseDate) (getMonth baseDate) 1 = gridFirst baseDate.
Proof. unfold gridFirst. reflexivity. Qed.

Lemma gridLength_eq baseDate :
  daysInMonth (leap (gridYear baseDate)) (getMonth baseDate) = gridLength baseDate.
Proof. unfold gridLength. reflexivity. Qed.

(** Cells of the grid before and after the grid's month. *)
Lemma gridCell_outside baseDate k :
  k < WeekDay (gridFirst baseDate)
  \/ WeekDay (gridFirst baseDate) + gridLength baseDate <= k ->
  ~ (getMonth (gridCell baseDate k) = getMonth baseDate /\
     getFullYear (gridCell baseDate k) = gridYear baseDate).
Proof.
  intros H [Hm Hy].
  pose proof (same_month_between_date (gridYear baseDate) (getMonth baseDate)
                (gridCell baseDate k) (getMonth_bounds baseDate) Hy Hm) as B.
  rewrite gridCell_day, gridFirst_eq, gridLength_eq in B.
  lia.
Qed.

Lemma range_sorted lo n : StronglySorted Z.lt (range lo n).
Proof.
  revert lo. induction n as [| n IH]; intros lo.
  - constructor.
  - rewrite range_S. constructor; [apply IH |].
    apply Forall_forall. intros x Hx. apply range_In in Hx. lia.
Qed.

Lemma sorted_nth l :
  StronglySorted Z.lt l ->
  forall i j a b, (i < j)%nat ->
    nth_error l i = Some a -> nth_error l j = Some b -> a < b.
Proof.
  induction 1 as [| x l S IH Hx]; intros i j a b L Hi Hj.
  - destruct i; discriminate Hi.
  - destruct j as [| j]; [lia |]. cbn [nth_error] in Hj.
    destruct i as [| i].
    + cbn [nth_error] in Hi. injection Hi as <-.
      rewrite Forall_forall in Hx. apply Hx. now apply nth_error_In in Hj.
    + cbn [nth_error] in Hi. apply (IH i j); [lia | exact Hi | exact Hj].
Qed.

Lemma sorted_by (f : Z -> Z) l :
  StronglySorted Z.lt (map f l) ->
  (forall a b, f a < f b -> a < b) ->
  StronglySorted Z.lt l.
Proof.
  intros S Hf. induction l as [| a l IH]; [constructor |].
  cbn [map] in S. apply StronglySorted_inv in S as [S Ha].
  constructor; [now apply IH |].
  apply Forall_forall. intros x Hx. apply Hf.
  rewrite Forall_forall in Ha. apply Ha. now apply in_map.
Qed.

Lemma Day_lt (a b : Date) : Day a < Day b -> a < b.
Proof. unfold Day, msPerDay. intros H. Z.div_mod_to_equations. lia. Qed.

Lemma getDate_bounds t : 1 <= getDate t <= 31.
Proof.
  unfold getDate.
  destruct (civil_of_day (Day t)) as (_ & B & _).
  pose proof (daysInMonth_bounds (leap (YearFromDay (Day t))) (MonthFromDay (Day t))).
  lia.
Qed.

Section Grid.
Context {zone : Zone}.

(** The grid has 42 cells in every zone. *)
Lemma generateCalendar_length baseDate :
  List.length (generateCalendar baseDate) = 42%nat.
Proof.
  unfold generateCalendar, pushFor. cbn [app].
  rewrite !length_app, !length_map, !range_length.
  set (start := newDate (getFullYear baseDate) (getMonth baseDate) 1).
  set (end_ := newDate (getFullYear baseDate) (getMonth baseDate + 1) 0).
  pose proof (WeekDay_bounds (Day start)) as W. fold (getDay start) in W.
  pose proof (getDate_bounds end_) as D.
  lia.
Qed.

(** On a regular grid the cells lie on 42 consecutive days. *)
Lemma generateCalendar_days baseDate :
  regular baseDate ->
  map Day (generateCalendar baseDate)
  = range (gridFirst baseDate - WeekDay (gridFirst baseDate)) 42.
Proof.
  intros R. rewrite (generateCalendar_regular _ R), map_map.
  transitivity
    (map (fun k => gridFirst baseDate - WeekDay (gridFirst baseDate) + k)
       (range 0 42)).
  - apply map_ext_in. intros k Hk. apply range_In in Hk.
    apply cell_day; [exact R | lia].
  - unfold range. rewrite map_map. apply map_ext. intros a. lia.
Qed.

Lemma generateCalendar_sorted_days baseDate :
  regular baseDate -> StronglySorted Z.lt (map Day (generateCalendar baseDate)).
Proof. intros R. rewrite (generateCalendar_days _ R). apply range_sorted. Qed.

Lemma generateCalendar_sorted baseDate :
  regular baseDate -> StronglySorted Z.lt (generateCalendar baseDate).
Proof.
  intros R. apply (sorted_by Day); [now apply generateCalendar_sorted_days |].
  apply Day_lt.
Qed.

End Grid.

End ScheduleFacts.

Module CalendarTheorems.
Import JSDate JSDateFacts Schedule CalendarSpec ScheduleFacts.

Lemma firstOfMonth_MakeDay baseDate :
  firstOfMonth baseDate = MakeDay (getFullYear baseDate) (getMonth baseDate) 1.
Proof.
  unfold firstOfMonth, getDate, getFullYear, getMonth.
  destruct (civil_of_day (Day baseDate)) as (_ & _ & E).
  rewrite (MakeDay_date _ _ (DateFromDay (Day baseDate))) in E. lia.
Qed.

Lemma MakeFullYear_id y : ~ (0 <= y <= 99) -> MakeFullYear y = y.
Proof.
  intros H. unfold MakeFullYear.
  destruct (Z.leb_spec 0 y), (Z.leb_spec y 99); cbn [andb]; try reflexivity; lia.
Qed.

Lemma grid_of_base baseDate :
  ~ (0 <= getFullYear baseDate <= 99) ->
  gridYear baseDate = getFullYear baseDate /\
  gridFirst baseDate = firstOfMonth baseDate /\
  gridLength baseDate = monthLength baseDate.
Proof.
  intros H. pose proof (MakeFullYear_id _ H) as E.
  unfold gridFirst, gridLength, gridYear, monthLength.
  rewrite firstOfMonth_MakeDay, E. repeat split.
Qed.

Lemma sameMonth_inside baseDate k :
  gridYear baseDate = getFullYear baseDate ->
  WeekDay (gridFirst baseDate) <= k
    < WeekDay (gridFirst baseDate) + gridLength baseDate ->
  sameMonth (gridCell baseDate k) baseDate = true.
Proof.
  intros E H. destruct (gridCell_inside baseDate k H) as (Hy & Hm & _).
  apply sameMonth_true_iff. rewrite Hy, Hm, E. split; reflexivity.
Qed.

Lemma sameMonth_outside baseDate k :
  gridYear baseDate = getFullYear baseDate ->
  k < WeekDay (gridFirst baseDate)
  \/ WeekDay (gridFirst baseDate) + gridLength baseDate <= k ->
  sameMonth (gridCell baseDate k) baseDate = false.
Proof.
  intros E H. apply not_true_is_false. intros T.
  apply sameMonth_true_iff in T. rewrite <- E in T.
  exact (gridCell_outside baseDate k H T).
Qed.

Section Grid.
Context {zone : Zone}.

(** C3 (amended).  For every reference date whose year is not one of
    0..99, on a host that builds each of the 42 days of the grid as
    asked (the days are inside the range of [Date] values and the time
    zone skips none of them), the grid has exactly 42 cells on ascending
    days: first as many cells of the previous month as the week day of
    the first of the month (none when it is a Sunday), then the days
    1, 2, ... of the month, then cells of the next month; the cells
    outside the month, and only they, have [sameMonth] false. *)
Theorem generateCalendar_grid (baseDate : Date) :
  ~ (0 <= getFullYear baseDate <= 99) ->
  regular baseDate ->
  calendar_grid baseDate.
Proof.
  intros Hyear R. destruct (grid_of_base baseDate Hyear) as (Ey & Ef & El).
  unfold calendar_grid. cbv zeta.
  split; [apply generateCalendar_length |].
  split; [now apply generateCalendar_sorted |].
  split; [now apply generateCalendar_sorted_days |].
  pose proof (WeekDay_bounds (gridFirst baseDate)) as Bs.
  pose proof (gridLength_bounds baseDate) as Bl.
  rewrite <- El, <- Ef.
  set (sd := WeekDay (gridFirst baseDate)) in *.
  set (n := gridLength baseDate) in *.
  set (cell := fun k => atLocal (gridCell baseDate k)).
  assert (Hday : forall k, 0 <= k < 42 -> Day (cell k) = Day (gridCell baseDate k)).
  { intros k Hk. now apply cell_gridCell. }
  exists (map cell (range 0 (Z.to_nat sd))),
         (map cell (range sd (Z.to_nat n))),
         (map cell (range (sd + n) (Z.to_nat (42 - sd - n)))).
  repeat split.
  - rewrite (generateCalendar_regular _ R). fold cell.
    replace 42%nat with (Z.to_nat sd + (Z.to_nat n + Z.to_nat (42 - sd - n)))%nat by lia.
    rewrite !range_app, !map_app. repeat f_equal; lia.
  - rewrite map_map, (map_range_shift _ sd), (map_range_shift _ 1).
    apply map_ext_in. intros k Hk. apply range_In in Hk.
    rewrite Hday, gridCell_day by lia. fold sd. lia.
  - rewrite map_map. unfold range at 2. rewrite <- (map_id (range sd _)) at 1.
    unfold range. rewrite !map_map. apply map_ext_in. intros a Ha.
    apply in_seq in Ha.
    destruct (fields_of_day (cell (sd + Z.of_nat a))
                (gridCell baseDate (sd + Z.of_nat a))) as (_ & _ & Hd & _);
      [apply Hday; lia |].
    rewrite Hd.
    destruct (gridCell_inside baseDate (sd + Z.of_nat a)) as (_ & _ & Hd').
    { fold sd n. lia. }
    rewrite Hd'. fold sd. lia.
  - apply Forall_forall. intros c Hc. apply in_map_iff in Hc as (k & <- & Hk).
    apply range_In in Hk.
    rewrite (sameMonth_of_day _ (gridCell baseDate k)) by (apply Hday; lia).
    apply sameMonth_inside; [exact Ey | fold sd n; lia].
  - apply Forall_forall. intros c Hc. apply in_map_iff in Hc as (k & <- & Hk).
    apply range_In in Hk.
    rewrite (sameMonth_of_day _ (gridCell baseDate k)) by (apply Hday; lia).
    apply sameMonth_outside; [exact Ey | fold sd n; lia].
  - apply Forall_forall. intros c Hc. apply in_map_iff in Hc as (k & <- & Hk).
    apply range_In in Hk.
    rewrite (sameMonth_of_day _ (gridCell baseDate k)) by (apply Hday; lia).
    apply sameMonth_outside; [exact Ey | fold sd n; lia].
  - now rewrite length_map, range_length.
  - intros H0. now rewrite H0.
Qed.

End Grid.

(** A zone at a fixed offset skips no day. *)
Lemma fixedOffset_builds offset d :
  Z.abs (d * msPerDay - offset) <= timeLimit -> builds (zone := fixedOffset offset) d.
Proof.
  intros H. split; [exact H |].
  unfold atLocal. cbn [UTC LocalTime fixedOffset].
  replace (d * msPerDay - offset + offset) with (d * msPerDay) by lia.
  apply Day_midnight.
Qed.

(** C3, as first stated for every reference date, fails for a date of the
    year 51 (15 January 0051, a month whose first day is a Sunday): the
    [Date] constructor reads the year 51 as 1951, the grid is the one of
    January 1951, which starts on a Monday, and its first cell is
    31 December 1950.  It fails as well for December 2011 in a zone that
    left out the 30th: the cell built for the 30th is the 31st, twice in
    the grid. *)
Lemma generateCalendar_two_digit_year :
  ~ calendar_grid (zone := Zones.utc) (-60556550400000)
  /\ ~ calendar_grid (zone := Zones.apia) 1323907200000.
Proof.
  split.
  - unfold calendar_grid. cbv zeta.
    intros (_ & _ & _ & l & mo & t & Hd & Hmo & _ & _ & _ & _ & _ & Hs).
    assert (El : l = []) by (apply Hs; vm_compute; reflexivity).
    subst l. cbn [app] in Hd.
    destruct mo as [| c mo].
    { apply (f_equal (@List.length _)) in Hmo.
      rewrite !length_map, range_length in Hmo. vm_compute in Hmo.
      discriminate Hmo. }
    apply (f_equal (@hd_error _)) in Hd. cbn [app hd_error] in Hd.
    apply (f_equal (@hd_error _)) in Hmo. cbn [map hd_error] in Hmo.
    vm_compute in Hd. injection Hd as <-.
    vm_compute in Hmo. discriminate Hmo.
  - unfold calendar_grid. cbv zeta. intros (_ & S & _).
    pose proof (sorted_nth _ S 33 34 1325289600000 1325289600000 ltac:(lia)
                  ltac:(vm_compute; reflexivity) ltac:(vm_compute; reflexivity)).
    lia.
Qed.

(** November 2026 on a host five hours behind UTC. *)
Lemma november_2026_regular : regular (zone := Zones.eastern) 1794753000000.
Proof.
  intros k Hk. apply fixedOffset_builds.
  replace (gridFirst 1794753000000 - WeekDay (gridFirst 1794753000000))
    with 20758 by (vm_compute; reflexivity).
  unfold msPerDay, timeLimit. lia.
Qed.

Lemma generateCalendar_grid_witness :
  ~ (0 <= getFullYear 1794753000000 <= 99)
  /\ regular (zone := Zones.eastern) 1794753000000
  /\ calendar_grid (zone := Zones.eastern) 1794753000000.
Proof.
  assert (H : ~ (0 <= getFullYear 1794753000000 <= 99)).
  { replace (getFullYear 1794753000000) with 2026 by (vm_compute; reflexivity). lia. }
  split; [exact H |]. split; [exact november_2026_regular |].
  exact (generateCalendar_grid (zone := Zones.eastern) 1794753000000 H
           november_2026_regular).
Defined.

(** The grid at months of a known calendar: November 2026 starts on a
    Sunday (no leading cell, 12 trailing cells); August 2026 has 31 days
    and starts on a Saturday (6 leading cells, 5 trailing cells);
    February 2024 has 29 days and starts on a Thursday. *)
Example calendar_november_2026 :
  map (fun c => (getMonth c, getDate c))
    (generateCalendar (zone := Zones.eastern) 1794753000000)
  = (map (fun d => (10, d)) (range 1 30) ++ map (fun d => (11, d)) (range 1 12))%list.
Proof. vm_compute. reflexivity. Qed.

Example calendar_august_2026 :
  map (fun c => (getMonth c, getDate c))
    (generateCalendar (zone := Zones.utc) (newDate (zone := Zones.utc) 2026 7 20))
  = (map (fun d => (6, d)) (range 26 6) ++ map (fun d => (7, d)) (range 1 31)
       ++ map (fun d => (8, d)) (range 1 5))%list.
Proof. vm_compute. reflexivity. Qed.

Example calendar_february_2024 :
  map (fun c => (getMonth c, getDate c))
    (generateCalendar (zone := Zones.utc) (newDate (zone := Zones.utc) 2024 1 29))
  = (map (fun d => (0, d)) (range 28 4) ++ map (fun d => (1, d)) (range 1 29)
       ++ map (fun d => (2, d)) (range 1 9))%list.
Proof. vm_compute. reflexivity. Qed.

(** December 2011 where the 30th was left out: the cell for the 30th
    shows the 31st, so the 31st comes twice, the second time in the
    column of Saturday as it should, the first in the column of
    Friday. *)
Example calendar_december_2011_apia :
  map (fun c => (getDate c, getDay c))
    (firstn 3 (skipn 32 (generateCalendar (zone := Zones.apia) 1323907200000)))
  = [(29, 4); (31, 6); (31, 6)].
Proof. vm_compute. reflexivity. Qed.

(** 29 February 2000, 1 January 1970 and 31 December 1969 as the host
    reads them: year, month, date, week day. *)
Example date_fields :
  map (fun t => (getFullYear t, getMonth t, getDate t, getDay t))
      [951782400000; 0; -1]
  = [(2000, 1, 29, 2); (1970, 0, 1, 4); (1969, 11, 31, 3)].
Proof. vm_compute. reflexivity. Qed.

Lemma isDateDisabled_iff now date :
  isDateDisabled now date = true <-> Day date < Day now.
Proof.
  unfold isDateDisabled, setHours0. rewrite Z.ltb_lt.
  unfold Day, msPerDay. Z.div_mod_to_equations. lia.
Qed.

(** C9.  A cell is disabled exactly when its day lies before the current
    calendar day or the cell is outside the displayed month; a click on a
    disabled cell leaves the selected date as it was, a click on any other
    cell selects it. *)
Theorem isDisabled_spec (now viewMonth d : Date) :
  (isDisabled now viewMonth d = true
   <-> Day d < Day now
       \/ ~ (getMonth d = getMonth viewMonth
             /\ getFullYear d = getFullYear viewMonth))
  /\ (forall selectedDate,
        onClick now viewMonth d selectedDate
        = if isDisabled now viewMonth d then selectedDate else Some d).
Proof.
  split.
  - unfold isDisabled, isCurrent.
    rewrite orb_true_iff, negb_true_iff, isDateDisabled_iff.
    rewrite <- sameMonth_true_iff.
    destruct (sameMonth d viewMonth); intuition congruence.
  - intros sel. unfold onClick. now destruct (isDisabled now viewMonth d).
Qed.

End CalendarTheorems.

Module JSFacts.
Import JS.

Local Open Scope string_scope.

Lemma occurs_app c s1 s2 : occurs c (s1 ++ s2) = occurs c s1 || occurs c s2.
Proof.
  induction s1 as [| a s1 IH]; cbn; [reflexivity |].
  now rewrite IH, orb_assoc.
Qed.

Lemma prefix_occurs c s1 s2 :
  String.prefix s1 s2 = true -> occurs c s1 = true -> occurs c s2 = true.
Proof.
  revert s1. induction s2 as [| b s2 IH]; intros [| a s1]; cbn;
    try discriminate.
  destruct (ascii_dec a b) as [-> | _]; [| discriminate].
  intros Hp Ho. apply orb_true_iff in Ho as [Ho | Ho].
  - now rewrite Ho.
  - rewrite (IH _ Hp Ho). apply orb_true_r.
Qed.

(** A string without some character of [sub] does not include [sub]. *)
Lemma includes_absent c s sub :
  occurs c sub = true -> occurs c s = false -> includes s sub = false.
Proof.
  intros Hsub. induction s as [| a s IH]; intros Hs.
  - cbn [includes]. destruct (String.prefix sub "") eqn:P; [| reflexivity].
    pose proof (prefix_occurs c _ _ P Hsub). discriminate.
  - cbn [includes]. destruct (String.prefix sub (String a s)) eqn:P.
    + pose proof (prefix_occurs c _ _ P Hsub) as E. congruence.
    + apply IH. cbn in Hs. now apply orb_false_iff in Hs.
Qed.

Lemma occurs_uint c u :
  occurs c "0123456789" = false ->
  occurs c (NilEmpty.string_of_uint u) = false.
Proof.
  intros H. cbn in H. repeat (apply orb_false_iff in H as [? H]).
  induction u; cbn [NilEmpty.string_of_uint occurs]; rewrite ?IHu;
    try reflexivity; now rewrite orb_false_r.
Qed.

Lemma occurs_number c n :
  occurs c "-0123456789" = false -> occurs c (numberToString n) = false.
Proof.
  intros H. cbn [occurs] in H. apply orb_false_iff in H as [Hm H].
  assert (U : forall u, occurs c (NilZero.string_of_uint u) = false).
  { intros u. destruct u; unfold NilZero.string_of_uint;
      try exact (occurs_uint c _ H).
    cbn [occurs] in H |- *. apply orb_false_iff in H as [H _]. now rewrite H. }
  unfold numberToString, NilZero.string_of_int.
  destruct (Z.to_int n) as [u | u]; [apply U |].
  cbn [occurs]. now rewrite Hm, U.
Qed.

(** The messages built from a status code carry neither marker. *)
Lemma failed_message_unrelated (verb : string) n :
  occurs "n" verb = false -> occurs "y" verb = false ->
  includes (verb ++ " failed: " ++ numberToString n) "not found" = false /\
  includes (verb ++ " failed: " ++ numberToString n) "already deleted" = false.
Proof.
  intros Hn Hy. split.
  - apply (includes_absent "n"); [reflexivity |].
    rewrite !occurs_app, Hn, occurs_number; reflexivity.
  - apply (includes_absent "y"); [reflexivity |].
    rewrite !occurs_app, Hy, occurs_number; reflexivity.
Qed.

End JSFacts.

Module StrapiFacts.
Import JS JSFacts Strapi CancelSpec.

Local Open Scope string_scope.

Section Facts.
Context {host : Host}.

Lemma tryCatch_rethrow {A} (m : Async A) s :
  tryCatch m (fun error => throw error) s = m s.
Proof. unfold tryCatch, throw. now destruct (m s) as [[a | e] s']. Qed.

Lemma delete_failed_unrelated n : unrelated ("DELETE failed: " ++ numberToString n).
Proof. apply (failed_message_unrelated "DELETE"); reflexivity. Qed.

Lemma put_failed_unrelated n : unrelated ("PUT failed: " ++ numberToString n).
Proof. apply (failed_message_unrelated "PUT"); reflexivity. Qed.

(** The two cancellation methods, run in order from a session [s1]. *)
Lemma tryMethods_cancel actualId s1 :
  tryMethods 0 (cancelMethods actualId) None s1 =
  let (fd, w2) := serve (deleteRequest actualId) (store s1) in
  let s2 := {| store := w2;
               sent := (sent s1 ++ [(deleteRequest actualId, fd)])%list |} in
  match deleteOutcome fd with
  | Return v => (Return v, s2)
  | Throw e1 =>
      if includes e1 "already deleted" then (Return cancelled, s2)
      else if includes e1 "not found" then (Throw e1, s2)
      else
        let (fp, w3) := serve (putRequest actualId) w2 in
        let s3 := {| store := w3;
                     sent := (sent s2 ++ [(putRequest actualId, fp)])%list |} in
        match putOutcome fp with
        | Return v => (Return v, s3)
        | Throw e2 =>
            if includes e2 "already deleted" || includes e2 "not found"
            then (Return cancelled, s3)
            else (Throw e2, s3)
        end
  end.
Proof.
  cbn [tryMethods cancelMethods]. unfold tryCatch at 1, bind at 1, fetch at 1.
  destruct (serve (deleteRequest actualId) (store s1)) as [fd w2].
  cbv zeta.
  assert (Hput : forall s2,
    tryCatch (bind (fetch (putRequest actualId)) (fun response => lift (putResult response)))
      (fun error =>
         if includes error "already deleted" then ret cancelled
         else if (1 =? 1)%nat && includes error "not found" then ret cancelled
         else if includes error "not found" then throw error
         else tryMethods 2 [] (Some error)) s2
    = let (fp, w3) := serve (putRequest actualId) (store s2) in
      let s3 := {| store := w3;
                   sent := (sent s2 ++ [(putRequest actualId, fp)])%list |} in
      match putOutcome fp with
      | Return v => (Return v, s3)
      | Throw e2 =>
          if includes e2 "already deleted" || includes e2 "not found"
          then (Return cancelled, s3)
          else (Throw e2, s3)
      end).
  { intros s2. unfold tryCatch, bind, fetch.
    destruct (serve (putRequest actualId) (store s2)) as [fp w3]. cbv zeta.
    destruct fp as [r | e]; cbn [putOutcome lift].
    - destruct (putResult r) as [v | e2]; [reflexivity |].
      cbn [Nat.eqb andb tryMethods].
      destruct (includes e2 "already deleted"), (includes e2 "not found"); reflexivity.
    - cbn [Nat.eqb andb tryMethods].
      destruct (includes e "already deleted"), (includes e "not found"); reflexivity. }
  destruct fd as [r | e]; cbn [deleteOutcome lift].
  - destruct (deleteResult r) as [v | e1]; [reflexivity |].
    cbn [Nat.eqb andb].
    destruct (includes e1 "already deleted"); [reflexivity |].
    destruct (includes e1 "not found"); [reflexivity |].
    apply Hput.
  - cbn [Nat.eqb andb].
    destruct (includes e "already deleted"); [reflexivity |].
    destruct (includes e "not found"); [reflexivity |].
    apply Hput.
Qed.

Lemma cancelBooking_located bookingIdentifier s actualBooking actualId s1 :
  locate bookingIdentifier s = (Return (actualBooking, actualId), s1) ->
  cancelBooking bookingIdentifier s
  = tryMethods 0 (cancelMethods actualId) None s1.
Proof.
  intros H. unfold cancelBooking. rewrite tryCatch_rethrow.
  unfold bind at 1. now rewrite H.
Qed.

(** The resolution phase of [cancelBooking] fails with "not found" only. *)
Lemma notFoundOnly_ret {A} (a : A) : notFoundOnly (ret a).
Proof. intros s. left. now exists a. Qed.

Lemma notFoundOnly_throw {A} : notFoundOnly (@throw _ A "Booking not found on server").
Proof. intros s. right. now eexists. Qed.

Lemma notFoundOnly_bind {A B} (m : Async A) (k : A -> Async B) :
  notFoundOnly m -> (forall a, notFoundOnly (k a)) -> notFoundOnly (bind m k).
Proof.
  intros Hm Hk s. unfold bind. specialize (Hm s).
  destruct (m s) as [[a | e] s1]; [apply Hk |].
  destruct Hm as [(v & E) | (e' & [= <-] & N)]; [discriminate E |].
  right. now exists e.
Qed.

Lemma notFoundOnly_catch {A} (m : Async A) (fallthrough : A) :
  notFoundOnly
    (tryCatch m (fun error =>
       if includes error "not found" then throw error else ret fallthrough)).
Proof.
  intros s. unfold tryCatch. destruct (m s) as [[a | e] s1]; [left; now exists a |].
  destruct (includes e "not found") eqn:E; cbn [fst throw ret].
  - right. now exists e.
  - left. now eexists.
Qed.

Lemma locate_fails_not_found bookingIdentifier : notFoundOnly (locate bookingIdentifier).
Proof.
  unfold locate. apply notFoundOnly_bind.
  { unfold locateDirect. apply notFoundOnly_catch. }
  intros [b i]. apply notFoundOnly_bind.
  { destruct (negb (truthy b)); [| apply notFoundOnly_ret].
    unfold locateFilter. cbv beta zeta. apply notFoundOnly_bind.
    - apply notFoundOnly_catch.
    - intros [actualBooking |]; [| apply notFoundOnly_ret].
      apply notFoundOnly_bind; [apply notFoundOnly_catch |].
      intros actualId. apply notFoundOnly_ret. }
  intros [b' i'].
  destruct (negb (truthy b') || negb (truthy i'));
    [apply notFoundOnly_throw | apply notFoundOnly_ret].
Qed.

Lemma put_not_delete actualId : putRequest actualId <> deleteRequest actualId.
Proof. intros E. apply (f_equal method) in E. discriminate E. Qed.

Lemma httpFailure_delete f code :
  httpFailure f code -> code <> 404%Z ->
  exists e, deleteOutcome f = Throw e /\ unrelated e.
Proof.
  intros (r & -> & Hok & Hs) Hc. cbn [deleteOutcome]. unfold deleteResult.
  rewrite Hok. cbn [negb]. destruct (Z.eqb_spec (status r) 404) as [E | _]; [lia |].
  eexists. split; [reflexivity | apply delete_failed_unrelated].
Qed.

Lemma httpFailure_put_404 f :
  httpFailure f 404%Z -> putOutcome f = Throw "Booking already deleted".
Proof.
  intros (r & -> & Hok & Hs). cbn [putOutcome]. unfold putResult.
  now rewrite Hok, Hs.
Qed.

Lemma httpFailure_delete_404 f :
  httpFailure f 404%Z -> deleteOutcome f = Throw "Booking not found on server".
Proof.
  intros (r & -> & Hok & Hs). cbn [deleteOutcome]. unfold deleteResult.
  now rewrite Hok, Hs.
Qed.

(** A DELETE answered with a status of 200..299 succeeds, whatever the
    body; a PUT so answered succeeds when its body is JSON. *)
Lemma deleteOutcome_ok r : ok r = true -> succeeds (deleteOutcome (Resolved r)).
Proof.
  intros Hok. cbn [deleteOutcome]. unfold deleteResult, succeeds.
  rewrite Hok. cbn [negb].
  destruct (contentType r) as [ct |]; [| now eexists].
  destruct (negb (ct =? "") && includes ct "application/json"); [| now eexists].
  destruct (negb (trim (text r) =? "")); [| now eexists].
  destruct (JSON_parse (text r)); now eexists.
Qed.

Lemma putOutcome_ok r v :
  ok r = true -> JSON_parse (text r) = inl v -> putOutcome (Resolved r) = Return v.
Proof.
  intros Hok Hp. cbn [putOutcome]. unfold putResult. now rewrite Hok, Hp.
Qed.

Lemma deleteResult_accepted r :
  ok r = true ->
  (forall v, carries r v -> deleteResult r = Return v) /\
  ((forall v, ~ carries r v) -> deleteResult r = Return deleted).
Proof.
  intros Hok. unfold deleteResult. rewrite Hok. cbn [negb]. split.
  - intros v (ct & Hct & Hin & Hne & Hp). rewrite Hct.
    destruct (String.eqb_spec ct "") as [-> | _]; [discriminate Hin |].
    rewrite Hin. cbn [negb andb].
    destruct (String.eqb_spec (trim (text r)) "") as [E | _]; [contradiction |].
    cbn [negb]. now rewrite Hp.
  - intros N. destruct (contentType r) as [ct |] eqn:Hct; [| reflexivity].
    destruct (negb (ct =? "") && includes ct "application/json") eqn:Hj;
      [| reflexivity].
    apply andb_true_iff in Hj as [_ Hin].
    destruct (String.eqb_spec (trim (text r)) "") as [E | Hne]; cbn [negb];
      [reflexivity |].
    destruct (JSON_parse (text r)) as [v | e] eqn:Hp; [| reflexivity].
    exfalso. apply (N v). now exists ct.
Qed.

Lemma httpFailure_put f code :
  httpFailure f code -> code <> 404%Z ->
  putOutcome f = Throw ("PUT failed: " ++ numberToString code).
Proof.
  intros (r & -> & Hok & Hs) Hc. cbn [putOutcome]. unfold putResult.
  rewrite Hok, Hs. cbn [negb]. destruct (Z.eqb_spec code 404) as [E | _]; [lia |].
  reflexivity.
Qed.

Lemma httpFailure_delete_message f code :
  httpFailure f code -> code <> 404%Z ->
  deleteOutcome f = Throw ("DELETE failed: " ++ numberToString code).
Proof.
  intros (r & -> & Hok & Hs) Hc. cbn [deleteOutcome]. unfold deleteResult.
  rewrite Hok, Hs. cbn [negb]. destruct (Z.eqb_spec code 404) as [E | _]; [lia |].
  reflexivity.
Qed.

Lemma acceptedWith_put f v : acceptedWith f v -> putOutcome f = Return v.
Proof. intros (r & -> & Hok & Hp). now apply putOutcome_ok. Qed.

Lemma acceptedUnread_put f e : acceptedUnread f e -> putOutcome f = Throw e.
Proof.
  intros (r & -> & Hok & Hp). cbn [putOutcome]. unfold putResult.
  now rewrite Hok, Hp.
Qed.

(** How a failed step reads, from the answer to its request. *)
Lemma deleteOutcome_throw f e :
  deleteOutcome f = Throw e ->
  (httpFailure f 404%Z /\ e = "Booking not found on server")
  \/ (exists code, httpFailure f code /\ code <> 404%Z
                   /\ e = "DELETE failed: " ++ numberToString code)
  \/ f = Rejected e.
Proof.
  destruct f as [r | e']; cbn [deleteOutcome]; [| intros [= ->]; now right; right].
  destruct (ok r) eqn:Hok.
  - destruct (deleteOutcome_ok r Hok) as (v & E). cbn [deleteOutcome] in E.
    rewrite E. discriminate.
  - unfold deleteResult. rewrite Hok. cbn [negb].
    destruct (Z.eqb_spec (status r) 404) as [E | N]; intros [= <-].
    + left. split; [| reflexivity]. now exists r.
    + right. left. exists (status r). split; [now exists r |]. now split.
Qed.

Lemma putOutcome_throw f e :
  putOutcome f = Throw e ->
  (httpFailure f 404%Z /\ e = "Booking already deleted")
  \/ (exists code, httpFailure f code /\ code <> 404%Z
                   /\ e = "PUT failed: " ++ numberToString code)
  \/ f = Rejected e
  \/ acceptedUnread f e.
Proof.
  destruct f as [r | e']; cbn [putOutcome];
    [| intros [= ->]; now right; right; left].
  unfold putResult. destruct (ok r) eqn:Hok; cbn [negb].
  - destruct (JSON_parse (text r)) as [v | e'] eqn:Hp; intros [= <-].
    right. right. right. now exists r.
  - destruct (Z.eqb_spec (status r) 404) as [E | N]; intros [= <-].
    + left. split; [| reflexivity]. now exists r.
    + right. left. exists (status r). split; [now exists r |]. now split.
Qed.

Lemma httpFailure_not_accepted f code r : httpFailure f code -> f = Resolved r -> ok r = false.
Proof. intros (r' & -> & Hok & _) [= ->]. exact Hok. Qed.


Lemma failedOtherwise_delete f :
  failedOtherwise f -> exists e, deleteOutcome f = Throw e /\ unrelated e.
Proof.
  intros [(code & F & N) | (e & -> & U)].
  - eexists. split; [apply (httpFailure_delete_message _ _ F N) |].
    apply delete_failed_unrelated.
  - now exists e.
Qed.

Lemma failedOtherwise_put f :
  failedOtherwise f -> exists e, putOutcome f = Throw e /\ unrelated e.
Proof.
  intros [(code & F & N) | (e & -> & U)].
  - eexists. split; [apply (httpFailure_put _ _ F N) |].
    apply put_failed_unrelated.
  - now exists e.
Qed.

Lemma deleteOutcome_unrelated f e :
  deleteOutcome f = Throw e -> unrelated e -> failedOtherwise f.
Proof.
  intros H [U1 U2].
  apply deleteOutcome_throw in H as [(F & ->) | [(code & F & N & ->) | ->]].
  - discriminate U1.
  - left. now exists code.
  - right. exists e. now repeat split.
Qed.

Lemma putOutcome_unrelated f e :
  putOutcome f = Throw e -> unrelated e ->
  failedOtherwise f \/ acceptedUnread f e.
Proof.
  intros H [U1 U2].
  apply putOutcome_throw in H as [(F & ->) | [(code & F & N & ->) | [-> | A]]].
  - discriminate U2.
  - left. left. now exists code.
  - left. right. exists e. now repeat split.
  - now right.
Qed.

(** C1.  Once the resolution phase has located a record, [cancelBooking]
    sends DELETE and, only after a failure of it, PUT; what comes back
    decides the rest.
    - DELETE is answered 2xx: no PUT is sent and the operation returns,
      the body when the response announces and carries JSON, and
      [{success: true, message: 'Booking deleted successfully'}] for any
      other body.
    - DELETE is answered 404: no PUT is sent and the operation fails with
      "Booking not found on server".
    - DELETE fails otherwise (another status, or a network error with an
      unrelated message): PUT is sent.  PUT answered 2xx with a JSON
      body: the operation returns that body.  PUT answered 404: the
      operation reports success.  PUT answered with another status, or
      rejected with an unrelated message: the operation fails with that
      error.
    - The defect: PUT answered 2xx with a body that is not JSON (an
      empty body, as with 204 No Content) makes the operation fail with
      the parser's error, where DELETE so answered is a success.
    - So the operation fails with an error other than "not found"
      exactly when DELETE failed otherwise and PUT failed otherwise or
      was accepted with a body that is not JSON. *)
Theorem cancelBooking_flow
    (bookingIdentifier actualBooking actualId : value) (s s1 : session) :
  locate bookingIdentifier s = (Return (actualBooking, actualId), s1) ->
  let outcome := fst (cancelBooking bookingIdentifier s) in
  let log := sent (snd (cancelBooking bookingIdentifier s)) in
  let fd := fst (serve (deleteRequest actualId) (store s1)) in
  let fp := fst (serve (putRequest actualId)
                   (snd (serve (deleteRequest actualId) (store s1)))) in
  let onlyDelete := (sent s1 ++ [(deleteRequest actualId, fd)])%list in
  let both := (sent s1 ++ [(deleteRequest actualId, fd);
                           (putRequest actualId, fp)])%list in
  (forall r, fd = Resolved r -> ok r = true ->
     log = onlyDelete /\
     (forall v, carries r v -> outcome = Return v) /\
     ((forall v, ~ carries r v) -> outcome = Return deleted)) /\
  (httpFailure fd 404%Z ->
     log = onlyDelete /\ outcome = Throw "Booking not found on server") /\
  (failedOtherwise fd ->
     log = both /\
     (forall v, acceptedWith fp v -> outcome = Return v) /\
     (httpFailure fp 404%Z -> outcome = Return cancelled) /\
     (forall e, acceptedUnread fp e -> unrelated e -> outcome = Throw e) /\
     (forall code, httpFailure fp code -> code <> 404%Z ->
        outcome = Throw ("PUT failed: " ++ numberToString code)) /\
     (forall e, fp = Rejected e -> unrelated e -> outcome = Throw e)) /\
  (CancellationFailedError outcome <->
     failedOtherwise fd
     /\ (failedOtherwise fp \/ exists e, acceptedUnread fp e /\ unrelated e)) /\
  (CancellationFailedError outcome -> log = both).
Proof.
  intros Hloc. cbv zeta.
  rewrite (cancelBooking_located _ _ _ _ _ Hloc), tryMethods_cancel.
  destruct (serve (deleteRequest actualId) (store s1)) as [fd w2].
  cbn [fst snd].
  destruct (serve (putRequest actualId) w2) as [fp w3]. cbn [fst snd].
  split; [| split; [| split; [| split]]].
  - (* DELETE accepted *)
    intros r -> Hok. destruct (deleteResult_accepted r Hok) as [A B].
    cbn [deleteOutcome]. split; [| split].
    + destruct (deleteOutcome_ok r Hok) as (v & E). cbn [deleteOutcome] in E.
      now rewrite E.
    + intros v C. now rewrite (A v C).
    + intros N. now rewrite (B N).
  - (* DELETE answered 404 *)
    intros F. rewrite (httpFailure_delete_404 _ F). now split.
  - (* DELETE failed otherwise *)
    intros F. destruct (failedOtherwise_delete _ F) as (e1 & E1 & U1 & U2).
    rewrite E1, U2, U1. split; [| split; [| split; [| split; [| split]]]].
    + destruct (putOutcome fp) as [v | e2];
        [| destruct (includes e2 "already deleted" || includes e2 "not found")];
        cbn [snd sent]; now rewrite <- app_assoc.
    + intros v A. now rewrite (acceptedWith_put _ _ A).
    + intros F2. now rewrite (httpFailure_put_404 _ F2).
    + intros e A [V1 V2]. now rewrite (acceptedUnread_put _ _ A), V1, V2.
    + intros code F2 N2. rewrite (httpFailure_put _ _ F2 N2).
      destruct (put_failed_unrelated code) as [V1 V2]. now rewrite V1, V2.
    + intros e -> [V1 V2]. cbn [putOutcome]. now rewrite V1, V2.
  - (* the operation fails with an error other than "not found" *)
    split.
    + intros (e & E & Nf).
      destruct (deleteOutcome fd) as [v | e1] eqn:Hd; [discriminate E |].
      destruct (includes e1 "already deleted") eqn:Had; [discriminate E |].
      destruct (includes e1 "not found") eqn:Hnf.
      { cbn [fst] in E. injection E as <-. congruence. }
      assert (U : unrelated e1) by now split.
      split; [exact (deleteOutcome_unrelated _ _ Hd U) |].
      destruct (putOutcome fp) as [v | e2] eqn:Hp; [discriminate E |].
      destruct (includes e2 "already deleted" || includes e2 "not found") eqn:M;
        [discriminate E |].
      apply orb_false_iff in M as [M1 M2].
      destruct (putOutcome_unrelated _ _ Hp) as [O | A]; [now split | now left |].
      right. exists e2. now repeat split.
    + intros [F G]. destruct (failedOtherwise_delete _ F) as (e1 & E1 & U1 & U2).
      rewrite E1, U2, U1.
      assert (X : exists e2, putOutcome fp = Throw e2 /\ unrelated e2).
      { destruct G as [G | (e2 & A & V)]; [now apply failedOtherwise_put |].
        exists e2. split; [now apply acceptedUnread_put | exact V]. }
      destruct X as (e2 & E2 & V1 & V2). rewrite E2, V1, V2.
      now exists e2.
  - intros (e & E & Nf).
    destruct (deleteOutcome fd) as [v | e1] eqn:Hd; [discriminate E |].
    destruct (includes e1 "already deleted") eqn:Had; [discriminate E |].
    destruct (includes e1 "not found") eqn:Hnf.
    { cbn [fst] in E. injection E as <-. congruence. }
    destruct (putOutcome fp) as [v | e2] eqn:Hp; [discriminate E |].
    destruct (includes e2 "already deleted" || includes e2 "not found") eqn:M;
      [discriminate E |].
    cbn [snd sent]. now rewrite <- app_assoc.
Qed.

End Facts.
End StrapiFacts.

Module ClientTheorems.
Import JS JSFacts Strapi CancelSpec StrapiFacts NormalizerSpec MyBookings.

Local Open Scope string_scope.

Section Theorems.
Context {host : Host}.

(** C2 (the code departs from it).  When both queries of
    [checkBookingExists] fail at the network level, each inner [catch]
    swallows the error and the function returns [exists: false]: the outer
    [catch], which would answer [exists: true], is never reached. *)
Theorem checkBookingExists_network_failure
    (bookingIdentifier : value) (s : session) (e1 e2 : string) :
  fst (serve (directQuery bookingIdentifier) (store s)) = Rejected e1 ->
  fst (serve (filterQuery bookingIdentifier)
         (snd (serve (directQuery bookingIdentifier) (store s)))) = Rejected e2 ->
  fst (checkBookingExists bookingIdentifier s)
  = Return {| exists_ := false; booking := null |}.
Proof.
  intros H1 H2. unfold checkBookingExists, tryCatch, bind, fetch.
  destruct (serve (directQuery bookingIdentifier) (store s)) as [f1 w1].
  cbn [fst snd] in H1, H2. subst f1. cbn [store ret].
  destruct (serve (filterQuery bookingIdentifier) w1) as [f2 w2].
  cbn [fst] in H2. subst f2. reflexivity.
Qed.

(** A clean "not found" through both queries gives [exists: false]. *)
Lemma checkBookingExists_clean_not_found
    (bookingIdentifier : value) (s : session) (r1 r2 : response) :
  fst (serve (directQuery bookingIdentifier) (store s)) = Resolved r1 ->
  fst (serve (filterQuery bookingIdentifier)
         (snd (serve (directQuery bookingIdentifier) (store s)))) = Resolved r2 ->
  status r1 = 404%Z ->
  (ok r2 = false \/
   exists result, JSON_parse (text r2) = inl result /\ nullish result = false
                  /\ get result "data" = JArray []) ->
  fst (checkBookingExists bookingIdentifier s)
  = Return {| exists_ := false; booking := null |}.
Proof.
  intros H1 H2 H404 Hr2. unfold checkBookingExists, tryCatch, bind, fetch.
  destruct (serve (directQuery bookingIdentifier) (store s)) as [f1 w1].
  cbn [fst snd] in H1, H2. subst f1. cbn [store ret].
  assert (Hok : ok r1 = false) by (unfold ok; now rewrite H404).
  rewrite Hok. cbn [store ret].
  destruct (serve (filterQuery bookingIdentifier) w1) as [f2 w2].
  cbn [fst] in H2. subst f2.
  destruct Hr2 as [Hok2 | (result & Hp & Hn & Hd)].
  - now rewrite Hok2.
  - destruct (ok r2); [| reflexivity].
    unfold json, read, readProperty, lift, ret. rewrite Hp, Hn, Hd. reflexivity.
Qed.

Lemma or_idem a c : or (or a a) c = or a c.
Proof. unfold or. now destruct (truthy a) eqn:E; rewrite ?E. Qed.

(** C4 (amended).  The normaliser copies the booking-specific status
    field [bookingStatus] into both [bookingStatus] and [status]; a generic
    status field of the raw record is not read.  The status the tabs work
    with is therefore [bookingStatus] when it is present and [confirmed]
    otherwise (the badge shows [pending] then). *)
Theorem normalizeBooking_status (raw : value) (b : Booking) :
  normalizeBooking raw = Return b ->
  bookingStatus b = get raw "bookingStatus" /\
  status_ b = get raw "bookingStatus" /\
  statusOf b = or (get raw "bookingStatus") (JString "confirmed") /\
  badgeStatus b = or (get raw "bookingStatus") (JString "pending").
Proof.
  unfold normalizeBooking. destruct (nullish raw); [discriminate |].
  intros [= <-]. unfold statusOf, badgeStatus. cbn [bookingStatus status_].
  now rewrite !or_idem.
Qed.

(** C6.  The canonical id is the legacy id when the document-style id is
    absent, the document-style id when it is present, and the legacy id is
    kept in [strapiId]. *)
Theorem normalizeBooking_id (raw : value) (b : Booking) :
  normalizeBooking raw = Return b ->
  (truthy (get raw "documentId") = false -> id b = get raw "id") /\
  (truthy (get raw "documentId") = true -> id b = get raw "documentId") /\
  strapiId b = get raw "id" /\
  documentId b = get raw "documentId".
Proof.
  unfold normalizeBooking. destruct (nullish raw); [discriminate |].
  intros [= <-]. cbn [id strapiId documentId]. unfold or.
  repeat split; intros ->; reflexivity.
Qed.

Lemma get_truthy v k : truthy (get v k) = true -> truthy v = true.
Proof.
  destruct v as [| | b | n | t | xs | fs]; cbn; try discriminate; try reflexivity.
  - destruct (k =? "length"); [| discriminate]. cbn.
    destruct t; [discriminate | reflexivity].
Qed.

Lemma get_falsy v k : truthy v = false -> truthy (get v k) = false.
Proof.
  intros H. destruct (truthy (get v k)) eqn:E; [| reflexivity].
  apply get_truthy in E. congruence.
Qed.

Lemma startsWith_append p rest : startsWith (p ++ rest) p = true.
Proof.
  unfold startsWith. induction p as [| a p IH]; cbn.
  - now destruct rest.
  - destruct (ascii_dec a a) as [_ | N]; [exact IH | now destruct N].
Qed.

Lemma and_get a k : truthy (and a (get a k)) = truthy (get a k).
Proof.
  unfold and. destruct (truthy a) eqn:Ta; [reflexivity |].
  rewrite Ta. symmetry. now apply get_falsy.
Qed.

Lemma and_and_get d k1 k2 :
  truthy (and (and d (get d k1)) (get (get d k1) k2)) = truthy (get (get d k1) k2).
Proof.
  unfold and at 1. rewrite and_get.
  destruct (truthy (get d k1)) eqn:T1; [reflexivity |].
  rewrite and_get, T1. symmetry. now apply get_falsy.
Qed.

Ltac chosen T :=
  rewrite ?T; cbn [negb];
  match goal with
  | |- context [match ?iu with JString _ => _ | _ => _ end] =>
      destruct iu; try reflexivity; try discriminate;
      match goal with
      | |- context [startsWith ?u ?p] => now destruct (startsWith u p)
      end
  end.

(** [getImageUrl] resolves the image as described. *)
Lemma getImageUrl_resolveImage imageData fallback :
  getImageUrl imageData fallback = resolveImage imageData fallback.
Proof.
  unfold getImageUrl, resolveImage, candidates, path. cbn [fold_left find].
  cbv zeta.
  set (fb := match fallback with undefined => JString placeholder | _ => fallback end).
  destruct (truthy imageData) eqn:T; cbn [negb].
  - destruct (typeof_string imageData) eqn:S.
    + rewrite T. destruct imageData; try discriminate S.
      now destruct (startsWith s "http").
    + cbn [truthy]. rewrite and_and_get, and_get.
      destruct (truthy (get imageData "url")) eqn:U; [chosen U |].
      destruct (truthy (get (get (get imageData "data") "attributes") "url")) eqn:D;
        [chosen D |].
      destruct (truthy (get (get imageData "attributes") "url")) eqn:A;
        [chosen A |].
      reflexivity.
  - assert (C1 : truthy (if typeof_string imageData then imageData else undefined) = false)
      by (destruct (typeof_string imageData); [exact T | reflexivity]).
    rewrite C1, !get_falsy; try reflexivity; auto using get_falsy.
Qed.

Lemma getImageUrl_string u fallback :
  u <> "" ->
  getImageUrl (JString u) fallback
  = Return (JString (if startsWith u "http" then u else STRAPI_URL ++ u)).
Proof.
  intros Hu. unfold getImageUrl. cbn [truthy typeof_string].
  destruct (String.eqb_spec u "") as [E | _]; [contradiction |].
  cbn [negb]. now destruct (startsWith u "http").
Qed.

(** C5 (amended).  [getImageUrl] tries, in order, a direct string, the
    [url] field, [data.attributes.url] and [attributes.url].  A resolved
    URL that starts with "http" is returned unchanged; any other is
    returned behind the base URL, which is the configured one, and
    "http://localhost:1337" when none is configured.  When nothing
    resolves, as for [null] and [undefined], the fallback is returned:
    the placeholder, unless the caller passes a fallback of its own. *)
Theorem getImageUrl_spec :
  (forall imageData fallback,
     getImageUrl imageData fallback = resolveImage imageData fallback) /\
  (forall rest,
     getImageUrl_default (JString ("http" ++ rest)) = Return (JString ("http" ++ rest))) /\
  getImageUrl_default (JString "https://x/y.png") = Return (JString "https://x/y.png") /\
  (forall u base, u <> "" -> startsWith u "http" = false ->
     VITE_STRAPI_URL = Some base -> base <> "" ->
     getImageUrl_default (JString u) = Return (JString (base ++ u))) /\
  (forall u, u <> "" -> startsWith u "http" = false ->
     VITE_STRAPI_URL = None \/ VITE_STRAPI_URL = Some "" ->
     getImageUrl_default (JString u) = Return (JString ("http://localhost:1337" ++ u))) /\
  (forall base, VITE_STRAPI_URL = Some base -> base <> "" ->
     getImageUrl_default (JString "/uploads/a.png")
     = Return (JString (base ++ "/uploads/a.png"))) /\
  (forall imageData, find truthy (candidates imageData) = None ->
     getImageUrl_default imageData = Return (JString placeholder)
     /\ getImageUrl imageData undefined = Return (JString placeholder)
     /\ forall fallback, fallback <> undefined ->
          getImageUrl imageData fallback = Return fallback) /\
  getImageUrl_default null = Return (JString placeholder) /\
  getImageUrl_default undefined = Return (JString placeholder).
Proof.
  assert (Base : forall base, VITE_STRAPI_URL = Some base -> base <> "" ->
                   STRAPI_URL = base).
  { intros base E N. unfold STRAPI_URL. rewrite E.
    now destruct (String.eqb_spec base "") as [E' | _]. }
  assert (Local : VITE_STRAPI_URL = None \/ VITE_STRAPI_URL = Some "" ->
                  STRAPI_URL = "http://localhost:1337").
  { intros [E | E]; unfold STRAPI_URL; now rewrite E. }
  split; [exact getImageUrl_resolveImage |].
  split.
  { intros rest. unfold getImageUrl_default.
    rewrite getImageUrl_string by discriminate.
    cbn [append].
    change (String "h" (String "t" (String "t" (String "p" rest))))
      with ("http" ++ rest).
    now rewrite startsWith_append. }
  split; [reflexivity |].
  split.
  { intros u base Hu Hs E N. unfold getImageUrl_default.
    now rewrite getImageUrl_string, Hs, (Base base E N). }
  split.
  { intros u Hu Hs E. unfold getImageUrl_default.
    now rewrite getImageUrl_string, Hs, (Local E). }
  split.
  { intros base E N. unfold getImageUrl_default.
    rewrite getImageUrl_string by discriminate.
    now rewrite (Base base E N). }
  split.
  { intros imageData H. unfold getImageUrl_default.
    rewrite getImageUrl_resolveImage. unfold resolveImage. rewrite H.
    split; [reflexivity |]. split; [reflexivity |].
    intros fallback N. rewrite getImageUrl_resolveImage. unfold resolveImage.
    rewrite H. now destruct fallback. }
  split; reflexivity.
Qed.

Section TabTheorems.
Variable dayjs : value -> option Z.

Lemma upcoming_In now bookings b :
  In b (upcomingBookings dayjs now bookings)
  <-> In b bookings
      /\ isAfter (scheduledInstant dayjs b) now
         && negb (strictEq (statusOf b) "cancelled") = true.
Proof. unfold upcomingBookings. apply filter_In. Qed.

Lemma past_In now bookings b :
  In b (pastBookings dayjs now bookings)
  <-> In b bookings
      /\ isBefore (scheduledInstant dayjs b) now
         || strictEq (statusOf b) "cancelled" = true.
Proof. unfold pastBookings. apply filter_In. Qed.

(** C7.  A fetched booking scheduled strictly after now whose status is
    not [cancelled] is in the upcoming set and not in the past set; a
    booking whose status is [cancelled] is in the past set whatever its
    scheduled instant. *)
Theorem tabs_upcoming_and_cancelled (now : Z) (bookings : list Booking) (b : Booking) :
  In b bookings ->
  (forall t, scheduledInstant dayjs b = Some t -> (now < t)%Z ->
     strictEq (statusOf b) "cancelled" = false ->
     In b (upcomingBookings dayjs now bookings)
     /\ ~ In b (pastBookings dayjs now bookings)) /\
  (strictEq (statusOf b) "cancelled" = true ->
     In b (pastBookings dayjs now bookings)
     /\ ~ In b (upcomingBookings dayjs now bookings)).
Proof.
  intros Hin. split.
  - intros t Ht Hlt Hs. rewrite upcoming_In, past_In, Ht, Hs. cbn [isAfter isBefore negb].
    split.
    + split; [exact Hin |]. rewrite andb_true_r. now apply Z.ltb_lt.
    + intros [_ H]. rewrite orb_false_r in H. apply Z.ltb_lt in H. lia.
  - intros Hs. rewrite upcoming_In, past_In, Hs. cbn [negb]. split.
    + split; [exact Hin | apply orb_true_r].
    + intros [_ H]. rewrite andb_false_r in H. discriminate H.
Qed.

(** C10.  A booking that is not cancelled and is scheduled exactly at the
    current instant is in neither set, so the two sets need not cover the
    fetched bookings. *)
Theorem tabs_not_exhaustive (now : Z) (bookings : list Booking) (b : Booking) :
  scheduledInstant dayjs b = Some now ->
  strictEq (statusOf b) "cancelled" = false ->
  ~ In b (upcomingBookings dayjs now bookings) /\
  ~ In b (pastBookings dayjs now bookings) /\
  (In b bookings ->
   ~ incl bookings (upcomingBookings dayjs now bookings
                    ++ pastBookings dayjs now bookings)%list).
Proof.
  intros Ht Hs.
  assert (Hu : ~ In b (upcomingBookings dayjs now bookings)).
  { rewrite upcoming_In, Ht, Hs. cbn [isAfter]. rewrite Z.ltb_irrefl.
    intros [_ H]. discriminate H. }
  assert (Hp : ~ In b (pastBookings dayjs now bookings)).
  { rewrite past_In, Ht, Hs. cbn [isBefore]. rewrite Z.ltb_irrefl.
    intros [_ H]. discriminate H. }
  repeat split; [exact Hu | exact Hp |].
  intros Hin Hincl. apply Hincl in Hin. apply in_app_or in Hin. tauto.
Qed.

End TabTheorems.

End Theorems.
End ClientTheorems.

Module BookingTheorems.
Import JSDate JSDateFacts JS JSFacts Strapi StrapiFacts ScheduleBooking DateText BookingSpec.

Local Open Scope string_scope.

(** The labels of the slot catalogue read as 9:00 to 17:30 in steps of
    half an hour. *)
Lemma TIME_SLOTS_minutes :
  map clockMinutes TIME_SLOTS
  = map (fun k => Some (540 + 30 * k)%Z) (Schedule.range 0 18).
Proof. vm_compute. reflexivity. Qed.

Lemma includes_nonempty e sub : sub <> "" -> includes e sub = true -> e <> "".
Proof. intros Hs H ->. destruct sub; [now apply Hs | discriminate H]. Qed.

(** [n] padded to [width] has that many characters and reads back as
    [n]. *)
Definition readsAs (width : nat) (n : Z) : bool :=
  match number 0 (padStart width n) with
  | Some k => (k =? n)%Z && (String.length (padStart width n) =? width)%nat
  | None => false
  end.

Lemma readsAs_spec width n :
  readsAs width n = true ->
  number 0 (padStart width n) = Some n
  /\ String.length (padStart width n) = width.
Proof.
  unfold readsAs. destruct (number 0 (padStart width n)) as [k |]; [| discriminate].
  intros H. apply andb_true_iff in H as [Hk Hl].
  apply Z.eqb_eq in Hk. apply Nat.eqb_eq in Hl. now subst k.
Qed.

Lemma years_read : forallb (readsAs 4) (Schedule.range 1000 (Z.to_nat 9000)) = true.
Proof. vm_compute. reflexivity. Qed.

Lemma days_read : forallb (readsAs 2) (Schedule.range 1 31) = true.
Proof. vm_compute. reflexivity. Qed.

Lemma padStart_year y :
  (1000 <= y <= 9999)%Z ->
  exists a b c d,
    padStart 4 y = String a (String b (String c (String d "")))
    /\ number 0 (String a (String b (String c (String d "")))) = Some y.
Proof.
  intros Hy.
  assert (Hin : In y (Schedule.range 1000 (Z.to_nat 9000)))
    by (apply ScheduleFacts.range_In; rewrite Z2Nat.id; lia).
  pose proof (proj1 (forallb_forall _ _) years_read y Hin) as H.
  apply readsAs_spec in H as [Hn Hl].
  destruct (padStart 4 y) as [| a [| b [| c [| d [| e t]]]]]; try discriminate Hl.
  now exists a, b, c, d.
Qed.

Lemma padStart_day n :
  (1 <= n <= 31)%Z ->
  exists a b,
    padStart 2 n = String a (String b "")
    /\ number 0 (String a (String b "")) = Some n.
Proof.
  intros Hn.
  assert (Hin : In n (Schedule.range 1 31)) by (apply ScheduleFacts.range_In; lia).
  pose proof (proj1 (forallb_forall _ _) days_read n Hin) as H.
  apply readsAs_spec in H as [Hr Hl].
  destruct (padStart 2 n) as [| a [| b [| c t]]]; try discriminate Hl.
  now exists a, b.
Qed.

(** The text that the handler builds from a date of the years 1000 to
    9999 and a clock label is of the form of [localDateTime], and denotes
    the date's year, month and day and the label's time. *)
Lemma localDateTime_formatYMD (d : Date) (label : string) (minutes : Z) :
  (1000 <= getFullYear d <= 9999)%Z ->
  clockMinutes label = Some minutes ->
  localDateTime (formatYMD d ++ " " ++ label)
  = Some (getFullYear d, (getMonth d + 1)%Z, getDate d, minutes).
Proof.
  intros Hy Hc.
  destruct (civil_of_day (Day d)) as (Hm & Hd & _).
  fold (getMonth d) in Hm, Hd. fold (getDate d) in Hd. fold (getFullYear d) in Hd.
  pose proof (daysInMonth_bounds (leap (getFullYear d)) (getMonth d)) as Hb.
  destruct (padStart_year _ Hy) as (y1 & y2 & y3 & y4 & EY & NY).
  destruct (padStart_day (getMonth d + 1)%Z ltac:(lia)) as (m1 & m2 & EM & NM).
  destruct (padStart_day (getDate d) ltac:(lia)) as (d1 & d2 & ED & ND).
  unfold formatYMD. rewrite EY, EM, ED. cbn [append].
  unfold localDateTime. cbn [Ascii.eqb Bool.eqb andb].
  rewrite NY, NM, ND, Hc.
  replace (getMonth d + 1 - 1)%Z with (getMonth d) by lia.
  destruct (Z.leb_spec 1000 (getFullYear d)); [| lia].
  destruct (Z.leb_spec 1 (getMonth d + 1)); [| lia].
  destruct (Z.leb_spec (getMonth d + 1) 12); [| lia].
  destruct (Z.leb_spec 1 (getDate d)); [| lia].
  destruct (Z.leb_spec (getDate d) (daysInMonth (leap (getFullYear d)) (getMonth d)));
    [reflexivity | lia].
Qed.

Section Booking.
Context {host : Host} {zone : Zone}.
Variable dayjs : string -> option Date.
Variable invalidTime : string.

(** On a host that reads such texts as local times, the handler's
    timestamp is that of the selected day at the label's time. *)
Lemma scheduleTimeOf_instant (selectedDate : Date) (selectedTime : string)
    (minutes : Z) :
  readsLocalTime dayjs ->
  (1000 <= getFullYear selectedDate <= 9999)%Z ->
  clockMinutes selectedTime = Some minutes ->
  scheduleTimeOf dayjs toISOString invalidTime selectedDate selectedTime
  = Return (JString (isoText (UTC (combined selectedDate minutes)))).
Proof.
  intros Hr Hy Hc. unfold scheduleTimeOf.
  rewrite (Hr _ _ _ _ _ (localDateTime_formatYMD selectedDate selectedTime minutes Hy Hc)).
  unfold toISOString, atLocal. rewrite readsBack.
  replace (getMonth selectedDate + 1 - 1)%Z with (getMonth selectedDate) by lia.
  destruct (civil_of_day (Day selectedDate)) as (_ & _ & E).
  unfold getFullYear, getMonth, getDate. rewrite <- E. reflexivity.
Qed.


End Booking.
End BookingTheorems.

(** ** The calendar body: keys, columns, navigation, selection *)

Module ViewFacts.
Import JSDate JSDateFacts JS JSFacts Schedule CalendarSpec ScheduleFacts
       CalendarTheorems ScheduleView ViewSpec.

Local Open Scope string_scope.

Lemma append_assoc (a b c : string) : (a ++ b) ++ c = a ++ b ++ c.
Proof. induction a as [| x a IH]; cbn; [reflexivity | now rewrite IH]. Qed.

(** The decimal text of a number determines the number. *)
Lemma numberToString_inj a b : numberToString a = numberToString b -> a = b.
Proof.
  unfold numberToString. intros E.
  assert (N : forall n, Z.to_int n <> Decimal.Pos Decimal.Nil
                        /\ Z.to_int n <> Decimal.Neg Decimal.Nil).
  { intros [| p | p]; cbn; split; try discriminate;
      intros H; injection H as H;
      exact (DecimalPos.Unsigned.to_uint_nonnil p H). }
  pose proof (NilZero.isi _ (proj1 (N a)) (proj2 (N a))) as Ha.
  pose proof (NilZero.isi _ (proj1 (N b)) (proj2 (N b))) as Hb.
  rewrite E, Hb in Ha. injection Ha as Ha.
  symmetry. now apply DecimalZ.to_int_inj.
Qed.

Lemma numberToString_unsigned n :
  (0 <= n)%Z -> occurs "-" (numberToString n) = false.
Proof.
  intros H. unfold numberToString, NilZero.string_of_int.
  destruct n as [| p | p]; [reflexivity | | lia].
  cbn [Z.to_int]. unfold NilZero.string_of_uint.
  pose proof (DecimalPos.Unsigned.to_uint_nonnil p) as N.
  destruct (Pos.to_uint p) eqn:E; try congruence;
    rewrite <- E; apply occurs_uint; reflexivity.
Qed.

(** A text is cut in one way only at its last ["-"]. *)
Lemma cut_at_last_dash a a' b b' :
  occurs "-" b = false -> occurs "-" b' = false ->
  a ++ "-" ++ b = a' ++ "-" ++ b' -> a = a' /\ b = b'.
Proof.
  intros Hb Hb'. revert a'.
  induction a as [| x a IH]; intros [| x' a'] E; cbn in E.
  - injection E as E. now split.
  - injection E as Ex E. subst b.
    rewrite occurs_app in Hb. cbn in Hb.
    now rewrite orb_true_r in Hb.
  - injection E as Ex E. subst b'.
    rewrite occurs_app in Hb'. cbn in Hb'.
    now rewrite orb_true_r in Hb'.
  - injection E as Ex E. subst x'.
    destruct (IH a' E) as [-> ->]. now split.
Qed.

Lemma same_fields_same_day (d1 d2 : Date) :
  getFullYear d1 = getFullYear d2 -> getMonth d1 = getMonth d2 ->
  getDate d1 = getDate d2 -> Day d1 = Day d2.
Proof.
  unfold getFullYear, getMonth, getDate. intros Hy Hm Hd.
  destruct (civil_of_day (Day d1)) as (_ & _ & E1).
  destruct (civil_of_day (Day d2)) as (_ & _ & E2).
  rewrite E1, E2, Hy, Hm, Hd. reflexivity.
Qed.

Lemma getDateKey_fields d1 d2 :
  getDateKey d1 = getDateKey d2 ->
  getFullYear d1 = getFullYear d2 /\ getMonth d1 = getMonth d2
  /\ getDate d1 = getDate d2.
Proof.
  unfold getDateKey. intros E.
  pose proof (getMonth_bounds d1) as M1. pose proof (getMonth_bounds d2) as M2.
  pose proof (getDate_bounds d1) as D1. pose proof (getDate_bounds d2) as D2.
  rewrite <- !(append_assoc (numberToString (getFullYear _)) "-"
                 (numberToString (getMonth _) ++ _)) in E.
  rewrite <- !(append_assoc (numberToString (getFullYear _) ++ "-")
                 (numberToString (getMonth _)) _) in E.
  apply cut_at_last_dash in E as [E Ed];
    [| apply numberToString_unsigned; lia | apply numberToString_unsigned; lia].
  rewrite !append_assoc in E.
  apply cut_at_last_dash in E as [Ey Em];
    [| apply numberToString_unsigned; lia | apply numberToString_unsigned; lia].
  repeat split; now apply numberToString_inj.
Qed.

Lemma getDateKey_day d1 d2 : getDateKey d1 = getDateKey d2 -> Day d1 = Day d2.
Proof.
  intros E. apply getDateKey_fields in E as (Hy & Hm & Hd).
  now apply same_fields_same_day.
Qed.

Lemma nth_error_range lo n k v :
  nth_error (range lo n) k = Some v -> (k < n)%nat /\ v = (lo + Z.of_nat k)%Z.
Proof.
  intros E.
  assert (L : (k < n)%nat).
  { rewrite <- (range_length lo n). apply nth_error_Some. congruence. }
  split; [exact L |].
  unfold range in E. rewrite nth_error_map in E.
  rewrite (nth_error_nth' _ 0%nat) in E by now rewrite length_seq.
  rewrite seq_nth in E by exact L. cbn in E. now injection E as <-.
Qed.

Lemma monthOfYearDay_mono lp w1 w2 :
  (w1 <= w2)%Z -> (monthOfYearDay lp w1 <= monthOfYearDay lp w2)%Z.
Proof.
  intros H. unfold monthOfYearDay.
  destruct lp; cbv [monthStart]; split_ltb; lia.
Qed.

Lemma YearFromDay_mono d1 d2 : (d1 <= d2)%Z -> (YearFromDay d1 <= YearFromDay d2)%Z.
Proof.
  intros H.
  pose proof (YearFromDay_spec d1) as S1. pose proof (YearFromDay_spec d2) as S2.
  destruct (Z_le_gt_dec (YearFromDay d1) (YearFromDay d2)) as [L | G]; [exact L |].
  pose proof (DayFromYear_mono (YearFromDay d2 + 1) (YearFromDay d1) ltac:(lia)).
  lia.
Qed.

(** A later day lies in the same or a later month. *)
Lemma monthIndex_mono (t1 t2 : Date) :
  (Day t1 <= Day t2)%Z -> (monthIndex t1 <= monthIndex t2)%Z.
Proof.
  intros H. unfold monthIndex, getFullYear, getMonth.
  pose proof (YearFromDay_mono _ _ H) as Y.
  destruct (civil_of_day (Day t1)) as (M1 & _ & _).
  destruct (civil_of_day (Day t2)) as (M2 & _ & _).
  destruct (Z.eq_dec (YearFromDay (Day t1)) (YearFromDay (Day t2))) as [E | N];
    [| lia].
  rewrite !MonthFromDay_eq. unfold DayWithinYear. rewrite E.
  pose proof (monthOfYearDay_mono (leap (YearFromDay (Day t2)))
                (Day t1 - DayFromYear (YearFromDay (Day t2)))
                (Day t2 - DayFromYear (YearFromDay (Day t2))) ltac:(lia)).
  lia.
Qed.

Lemma monthIndex_sameMonth d1 d2 :
  sameMonth d1 d2 = true <-> monthIndex d1 = monthIndex d2.
Proof.
  rewrite sameMonth_true_iff. unfold monthIndex.
  pose proof (getMonth_bounds d1). pose proof (getMonth_bounds d2).
  split; [intros [-> ->]; reflexivity | intros E; split; lia].
Qed.

Lemma MakeDay_carry y m dt :
  MakeDay y m dt = MakeDay (y + m / 12) (m mod 12) dt.
Proof.
  unfold MakeDay.
  replace (m mod 12 / 12)%Z with 0%Z by (Z.div_mod_to_equations; lia).
  replace ((m mod 12) mod 12)%Z with (m mod 12)%Z by (Z.div_mod_to_equations; lia).
  now rewrite Z.add_0_r.
Qed.

Section Zoned.
Context {zone : Zone}.

(** Cell [k] of a regular grid. *)
Lemma generateCalendar_nth baseDate k d :
  regular baseDate ->
  nth_error (generateCalendar baseDate) k = Some d ->
  (k < 42)%nat /\ Day d = Day (gridCell baseDate (Z.of_nat k)).
Proof.
  intros R. rewrite (generateCalendar_regular _ R), nth_error_map.
  destruct (nth_error (range 0 42) k) as [v |] eqn:E; [| discriminate].
  apply nth_error_range in E as [L ->]. cbn [option_map].
  intros H. injection H as <-. split; [exact L |].
  rewrite ?Z.add_0_l. apply cell_gridCell; [exact R | lia].
Qed.

(** In every zone, no cell lies more than six days before the first of
    the grid's month. *)
Lemma generateCalendar_floor baseDate d :
  In d (generateCalendar baseDate) -> (gridFirst baseDate - 6 <= Day d)%Z.
Proof.
  unfold generateCalendar, pushFor. cbn [app].
  destruct (start_month baseDate) as (Hy & Hm). cbv zeta in Hy, Hm.
  rewrite Hy, Hm.
  set (start := newDate (getFullYear baseDate) (getMonth baseDate) 1).
  pose proof (WeekDay_bounds (Day start)) as W. fold (getDay start) in W.
  intros H. apply in_app_or in H as [H | H]; [apply in_app_or in H as [H | H] |];
    apply in_map_iff in H as (x & <- & Hx); apply range_In in Hx.
  - rewrite newDate_gridYear.
    pose proof (atLocal_midnight (gridFirst baseDate + (x - getDay start + 1) - 1)).
    lia.
  - rewrite newDate_grid.
    pose proof (atLocal_midnight (gridFirst baseDate + x - 1)). lia.
  - rewrite newDate_grid_next.
    pose proof (gridLength_bounds baseDate).
    pose proof (atLocal_midnight (gridFirst baseDate + gridLength baseDate + x - 1)).
    lia.
Qed.

(** The first of a month built by the constructor, for a year it takes
    as written, on a host that builds that day. *)
Lemma newDate_first_fields y m :
  ~ (0 <= y <= 99)%Z ->
  builds (MakeDay y m 1) ->
  getFullYear (newDate y m 1) = (y + m / 12)%Z /\
  getMonth (newDate y m 1) = (m mod 12)%Z /\
  getDate (newDate y m 1) = 1%Z /\
  Day (newDate y m 1) = MakeDay y m 1.
Proof.
  intros H B. unfold newDate, getFullYear, getMonth, getDate.
  rewrite (MakeFullYear_id _ H), (atLocal_builds _ B).
  rewrite MakeDay_carry.
  destruct (day_of_civil (y + m / 12) (m mod 12) 1) as (Hy & Hm & Hd).
  { Z.div_mod_to_equations; lia. }
  { pose proof (daysInMonth_bounds (leap (y + m / 12)) (m mod 12)). lia. }
  now repeat split.
Qed.

(** The grid depends on the year as the constructor reads it, and on the
    month. *)
Lemma generateCalendar_month a b :
  MakeFullYear (getFullYear a) = MakeFullYear (getFullYear b) ->
  getMonth a = getMonth b ->
  generateCalendar a = generateCalendar b.
Proof. intros Hy Hm. unfold generateCalendar, newDate. now rewrite Hy, Hm. Qed.

End Zoned.

Lemma firstOfMonth_fields v :
  getFullYear (midnight (firstOfMonth v)) = getFullYear v /\
  getMonth (midnight (firstOfMonth v)) = getMonth v /\
  getDate (midnight (firstOfMonth v)) = 1%Z.
Proof.
  unfold midnight, getFullYear at 1, getMonth at 1, getDate at 1.
  rewrite Day_midnight, firstOfMonth_MakeDay.
  apply day_of_civil; [apply getMonth_bounds |].
  pose proof (daysInMonth_bounds (leap (getFullYear v)) (getMonth v)). lia.
Qed.

Lemma monthStart_nonneg lp m : (0 <= monthStart lp m)%Z.
Proof.
  unfold monthStart.
  destruct lp; repeat match goal with
                      | |- context [match ?x with _ => _ end] => destruct x
                      end; lia.
Qed.

Lemma gridYear_two_digit baseDate :
  (0 <= getFullYear baseDate <= 99)%Z ->
  gridYear baseDate = (1900 + getFullYear baseDate)%Z.
Proof.
  intros H. unfold gridYear, MakeFullYear.
  destruct (Z.leb_spec 0 (getFullYear baseDate)), (Z.leb_spec (getFullYear baseDate) 99);
    cbn [andb]; lia.
Qed.

(** A date no more than six days before the first of the grid's month
    lies in the grid's year or later, or in the year before it. *)
Lemma year_floor baseDate (d : Date) :
  (gridFirst baseDate - 6 <= Day d)%Z ->
  (gridYear baseDate - 1 <= getFullYear d)%Z.
Proof.
  intros Hd. unfold getFullYear.
  pose proof (getMonth_bounds baseDate) as M.
  assert (F : (DayFromYear (gridYear baseDate) <= gridFirst baseDate)%Z).
  { rewrite <- gridFirst_eq, MakeDay_in_year by exact M.
    pose proof (monthStart_nonneg (leap (gridYear baseDate)) (getMonth baseDate)). lia. }
  assert (L : (DayFromYear (gridYear baseDate - 1) <= Day d)%Z).
  { pose proof (DayFromYear_succ (gridYear baseDate - 1)) as S.
    replace (gridYear baseDate - 1 + 1)%Z with (gridYear baseDate) in S by lia.
    unfold DaysInYear in S. destruct (leap (gridYear baseDate - 1)); lia. }
  apply YearFromDay_mono in L.
  rewrite (YearFromDay_unique (gridYear baseDate - 1)) in L; [exact L |].
  pose proof (DayFromYear_succ (gridYear baseDate - 1)) as S.
  unfold DaysInYear in S. destruct (leap (gridYear baseDate - 1)); lia.
Qed.

End ViewFacts.


Module ViewTheorems.
Import JSDate JSDateFacts JS JSFacts Schedule CalendarSpec ScheduleFacts
       CalendarTheorems ScheduleView ViewSpec ViewFacts.

Local Open Scope Z_scope.

(** X1.  Two dates have the same key exactly when they lie on the same
    calendar day. *)
Theorem getDateKey_same_day (d1 d2 : Date) :
  getDateKey d1 = getDateKey d2 <-> Day d1 = Day d2.
Proof.
  split; [apply getDateKey_day |].
  intros E. unfold getDateKey, getFullYear, getMonth, getDate. now rewrite E.
Qed.

Lemma drawCell_key today now viewMonth selectedDate d :
  key (drawCell today now viewMonth selectedDate d) = getDateKey d.
Proof. reflexivity. Qed.

Lemma drawCell_selected today now viewMonth selectedDate d :
  selected (drawCell today now viewMonth selectedDate d)
  = isSel (getDateKey d) (selectedKey selectedDate).
Proof. reflexivity. Qed.

Lemma drawCell_today today now viewMonth selectedDate d :
  today_ (drawCell today now viewMonth selectedDate d)
  = isToday today (getDateKey d).
Proof. reflexivity. Qed.

Section Zoned.
Context {zone : Zone}.

(** Two positions of a regular grid with the same key are the same
    position. *)
Lemma grid_keys_inj baseDate i j di dj :
  regular baseDate ->
  nth_error (generateCalendar baseDate) i = Some di ->
  nth_error (generateCalendar baseDate) j = Some dj ->
  getDateKey di = getDateKey dj -> i = j.
Proof.
  intros R Hi Hj E.
  apply (generateCalendar_nth _ _ _ R) in Hi as [_ Hi].
  apply (generateCalendar_nth _ _ _ R) in Hj as [_ Hj].
  apply getDateKey_day in E.
  rewrite Hi, Hj, !gridCell_day in E. lia.
Qed.

Lemma calendarBody_nth today now viewMonth selectedDate i c :
  nth_error (calendarBody today now viewMonth selectedDate) i = Some c ->
  exists d, nth_error (generateCalendar viewMonth) i = Some d
            /\ c = drawCell today now viewMonth selectedDate d.
Proof.
  unfold calendarBody. rewrite nth_error_map.
  destruct (nth_error (generateCalendar viewMonth) i) as [d |]; [| discriminate].
  cbn [option_map]. intros H. injection H as <-. now exists d.
Qed.

Lemma calendarBody_keys_inj today now viewMonth selectedDate i j ci cj :
  regular viewMonth ->
  nth_error (calendarBody today now viewMonth selectedDate) i = Some ci ->
  nth_error (calendarBody today now viewMonth selectedDate) j = Some cj ->
  key ci = key cj -> i = j.
Proof.
  intros R Hi Hj E.
  apply calendarBody_nth in Hi as (di & Hi & ->).
  apply calendarBody_nth in Hj as (dj & Hj & ->).
  rewrite !drawCell_key in E.
  exact (grid_keys_inj viewMonth i j di dj R Hi Hj E).
Qed.

(** X2.  On a host that builds each of the 42 days of the grid as asked
    (the days are inside the range of [Date] values and the time zone
    skips none of them), the 42 cells drawn for a month and any
    selection carry pairwise different keys; so at most one cell is
    marked as selected and at most one as today. *)
Theorem calendarBody_keys (today now viewMonth : Date) (selectedDate : option Date) :
  regular viewMonth ->
  let body := calendarBody today now viewMonth selectedDate in
  List.length body = 42%nat /\
  NoDup (map key body) /\
  (forall i j ci cj,
     nth_error body i = Some ci -> nth_error body j = Some cj ->
     selected ci = true -> selected cj = true -> i = j) /\
  (forall i j ci cj,
     nth_error body i = Some ci -> nth_error body j = Some cj ->
     today_ ci = true -> today_ cj = true -> i = j).
Proof.
  intros R. cbv zeta. split; [| split; [| split]].
  - unfold calendarBody. rewrite length_map. apply generateCalendar_length.
  - apply NoDup_nth_error. intros i j Hi E.
    rewrite !nth_error_map in E.
    destruct (nth_error (calendarBody today now viewMonth selectedDate) i)
      as [ci |] eqn:Ei.
    + destruct (nth_error (calendarBody today now viewMonth selectedDate) j)
        as [cj |] eqn:Ej; [| discriminate].
      cbn [option_map] in E. injection E as E.
      exact (calendarBody_keys_inj _ _ _ _ i j ci cj R Ei Ej E).
    + apply nth_error_None in Ei. rewrite length_map in Hi. lia.
  - intros i j ci cj Hi Hj Si Sj.
    apply (calendarBody_keys_inj _ _ _ _ i j ci cj R Hi Hj).
    apply calendarBody_nth in Hi as (di & _ & ->).
    apply calendarBody_nth in Hj as (dj & _ & ->).
    rewrite drawCell_selected in Si, Sj. rewrite !drawCell_key.
    unfold isSel in Si, Sj.
    destruct (selectedKey selectedDate) as [k |]; [| discriminate].
    apply String.eqb_eq in Si, Sj. congruence.
  - intros i j ci cj Hi Hj Ti Tj.
    apply (calendarBody_keys_inj _ _ _ _ i j ci cj R Hi Hj).
    apply calendarBody_nth in Hi as (di & _ & ->).
    apply calendarBody_nth in Hj as (dj & _ & ->).
    rewrite drawCell_today in Ti, Tj. rewrite !drawCell_key.
    unfold isToday in Ti, Tj.
    apply String.eqb_eq in Ti, Tj. congruence.
Qed.

(** X3.  On a host that builds each of the 42 days of the grid as asked,
    cell [k] of the grid falls on week day [k mod 7]: the seven columns
    are Sunday to Saturday, as the header row says. *)
Theorem generateCalendar_columns (baseDate : Date) (k : nat) (d : Date) :
  regular baseDate ->
  nth_error (generateCalendar baseDate) k = Some d ->
  getDay d = Z.of_nat k mod 7.
Proof.
  intros R H. apply (generateCalendar_nth _ _ _ R) in H as [_ H].
  unfold getDay. rewrite H, gridCell_day.
  generalize (gridFirst baseDate) as f. intros f.
  unfold WeekDay. Z.div_mod_to_equations. lia.
Qed.

End Zoned.

(** Within one month the days are ordered as their dates are. *)
Lemma same_month_dates d1 d2 :
  monthIndex d1 = monthIndex d2 ->
  (Day d1 < Day d2 <-> getDate d1 < getDate d2).
Proof.
  intros E. apply monthIndex_sameMonth, sameMonth_true_iff in E as [Em Ey].
  pose proof (firstOfMonth_MakeDay d1) as F1.
  pose proof (firstOfMonth_MakeDay d2) as F2.
  rewrite Em, Ey, <- F2 in F1. unfold firstOfMonth in F1. lia.
Qed.

(** X4.  While a month before the current one is displayed every cell is
    disabled; while a later month is displayed exactly the cells of that
    month are enabled; while the current month is displayed exactly its
    cells from today's date on are enabled. *)
Theorem isDisabled_by_month (now viewMonth d : Date) :
  (monthIndex viewMonth < monthIndex now -> isDisabled now viewMonth d = true) /\
  (monthIndex now < monthIndex viewMonth ->
   isDisabled now viewMonth d = negb (sameMonth d viewMonth)) /\
  (monthIndex viewMonth = monthIndex now ->
   isDisabled now viewMonth d
   = negb (sameMonth d viewMonth) || (getDate d <? getDate now)).
Proof.
  unfold isDisabled, isCurrent.
  destruct (sameMonth d viewMonth) eqn:S; cbn [negb orb];
    [| repeat split; reflexivity].
  apply monthIndex_sameMonth in S.
  split; [| split]; intros H.
  - apply isDateDisabled_iff.
    destruct (Z_lt_le_dec (Day d) (Day now)) as [L | G]; [exact L |].
    pose proof (monthIndex_mono _ _ G). lia.
  - destruct (isDateDisabled now d) eqn:E; [| reflexivity].
    apply isDateDisabled_iff in E.
    pose proof (monthIndex_mono d now ltac:(lia)). lia.
  - pose proof (same_month_dates d now ltac:(lia)) as D.
    destruct (isDateDisabled now d) eqn:E.
    + apply isDateDisabled_iff in E. symmetry. apply Z.ltb_lt. tauto.
    + symmetry. apply Z.ltb_ge.
      destruct (Z_lt_le_dec (getDate d) (getDate now)) as [L | G]; [| exact G].
      apply D, isDateDisabled_iff in L. congruence.
Qed.

Section Navigation.
Context {zone : Zone}.

(** X5.  The navigation buttons move the displayed month by one, to the
    first day of the neighbouring month, and undo each other: the same
    42 cells are drawn again.  This holds on a host that builds the
    first day of the displayed month and of its two neighbours as asked
    (inside the range of [Date] values, and not skipped by the time
    zone); the years 0 to 99, which the [Date] constructor reads as 1900
    to 1999, and their two neighbours are left out. *)
Theorem month_navigation (viewMonth : Date) :
  ~ (-1 <= getFullYear viewMonth <= 100) ->
  builds (MakeDay (getFullYear viewMonth) (getMonth viewMonth - 1) 1) ->
  builds (firstOfMonth viewMonth) ->
  builds (MakeDay (getFullYear viewMonth) (getMonth viewMonth + 1) 1) ->
  monthIndex (nextMonth viewMonth) = monthIndex viewMonth + 1 /\
  monthIndex (prevMonth viewMonth) = monthIndex viewMonth - 1 /\
  getDate (nextMonth viewMonth) = 1 /\
  getDate (prevMonth viewMonth) = 1 /\
  Day (nextMonth (prevMonth viewMonth)) = firstOfMonth viewMonth /\
  Day (prevMonth (nextMonth viewMonth)) = firstOfMonth viewMonth /\
  generateCalendar (nextMonth (prevMonth viewMonth)) = generateCalendar viewMonth /\
  generateCalendar (prevMonth (nextMonth viewMonth)) = generateCalendar viewMonth.
Proof.
  intros H Bp Bf Bn.
  pose proof (getMonth_bounds viewMonth) as M.
  assert (Hy : ~ (0 <= getFullYear viewMonth <= 99)) by lia.
  destruct (newDate_first_fields (getFullYear viewMonth) (getMonth viewMonth + 1) Hy Bn)
    as (Ny & Nm & Nd & _).
  destruct (newDate_first_fields (getFullYear viewMonth) (getMonth viewMonth - 1) Hy Bp)
    as (Py & Pm & Pd & _).
  assert (Back : nextMonth (prevMonth viewMonth)
                 = atLocal (firstOfMonth viewMonth * msPerDay)).
  { unfold nextMonth. unfold prevMonth at 1 2. rewrite Py, Pm.
    unfold newDate. do 2 f_equal.
    rewrite MakeFullYear_id by (Z.div_mod_to_equations; lia).
    rewrite firstOfMonth_MakeDay, MakeDay_carry.
    rewrite (MakeDay_carry (getFullYear viewMonth)).
    f_equal; Z.div_mod_to_equations; lia. }
  assert (Forth : prevMonth (nextMonth viewMonth)
                  = atLocal (firstOfMonth viewMonth * msPerDay)).
  { unfold prevMonth. unfold nextMonth at 1 2. rewrite Ny, Nm.
    unfold newDate. do 2 f_equal.
    rewrite MakeFullYear_id by (Z.div_mod_to_equations; lia).
    rewrite firstOfMonth_MakeDay, MakeDay_carry.
    rewrite (MakeDay_carry (getFullYear viewMonth)).
    f_equal; Z.div_mod_to_equations; lia. }
  pose proof (atLocal_builds _ Bf) as Df.
  destruct (firstOfMonth_fields viewMonth) as (Fy & Fm & _).
  destruct (fields_of_day (atLocal (firstOfMonth viewMonth * msPerDay))
              (midnight (firstOfMonth viewMonth))) as (Ey & Em & _).
  { unfold midnight. now rewrite Df, Day_midnight. }
  rewrite Fy in Ey. rewrite Fm in Em.
  repeat split.
  - unfold monthIndex, nextMonth. rewrite Ny, Nm. Z.div_mod_to_equations. lia.
  - unfold monthIndex, prevMonth. rewrite Py, Pm. Z.div_mod_to_equations. lia.
  - exact Nd.
  - exact Pd.
  - now rewrite Back.
  - now rewrite Forth.
  - rewrite Back. apply generateCalendar_month; [now rewrite Ey | exact Em].
  - rewrite Forth. apply generateCalendar_month; [now rewrite Ey | exact Em].
Qed.

Lemma step_notBefore lo c e :
  lo <= renderTime e ->
  lo <= drawn c ->
  notBefore lo (selectedDate c) ->
  lo <= drawn (step c e) /\ notBefore lo (selectedDate (step c e)).
Proof.
  intros T D I.
  destruct e as [now | now | now k | now]; cbn [step selectedDate drawn renderTime] in *;
    try (split; [exact T | exact I]).
  destruct (nth_error (generateCalendar (viewMonth c)) k) as [d |];
    [| split; [exact D | exact I]].
  destruct (isDisabled (drawn c) (viewMonth c) d) eqn:Dis;
    [split; [exact D | exact I] |].
  cbn [selectedDate drawn]. split; [exact T |].
  unfold onClick. rewrite Dis. cbn [negb notBefore].
  unfold isDisabled in Dis. apply orb_false_iff in Dis as [_ Dis].
  assert (N : ~ (Day d < Day (drawn c))).
  { intros L. apply isDateDisabled_iff in L. congruence. }
  assert (L : Day lo <= Day (drawn c)).
  { unfold Day, msPerDay. apply Z.div_le_mono; lia. }
  lia.
Qed.


(** X24.  For a base date in the years 0 to 99 the grid is the one of
    the same month 1900 years later; none of its cells belongs to the
    displayed month, so every cell is disabled. *)
Theorem generateCalendar_years_0_99 (baseDate : Date) :
  0 <= getFullYear baseDate <= 99 ->
  let shifted := newDate (getFullYear baseDate) (getMonth baseDate) 1 in
  getFullYear shifted = 1900 + getFullYear baseDate /\
  getMonth shifted = getMonth baseDate /\
  generateCalendar baseDate = generateCalendar shifted /\
  (forall now d, In d (generateCalendar baseDate) ->
     sameMonth d baseDate = false /\ isDisabled now baseDate d = true).
Proof.
  intros H. cbv zeta.
  destruct (start_month baseDate) as (Hy & Hm). cbv zeta in Hy, Hm.
  rewrite (gridYear_two_digit _ H) in Hy.
  split; [exact Hy |]. split; [exact Hm |]. split.
  - apply generateCalendar_month; [| now rewrite Hm].
    rewrite Hy. rewrite (MakeFullYear_id (1900 + _)) by lia.
    fold (gridYear baseDate). now rewrite (gridYear_two_digit _ H).
  - intros now d Hd.
    apply generateCalendar_floor, year_floor in Hd.
    rewrite (gridYear_two_digit _ H) in Hd.
    assert (S : sameMonth d baseDate = false).
    { destruct (sameMonth d baseDate) eqn:S; [| reflexivity].
      apply sameMonth_true_iff in S as [_ S]. lia. }
    split; [exact S |]. unfold isDisabled, isCurrent. now rewrite S.
Qed.

End Navigation.

End ViewTheorems.


(** ** Texts of errors *)

Module TextFacts.
Import JS JSFacts.

Local Open Scope string_scope.

Lemma prefix_before sep k a b :
  occurs sep k = false ->
  String.prefix k (a ++ String sep b) = String.prefix k a.
Proof.
  revert a. induction k as [| c k IH]; intros a O.
  - now destruct a.
  - cbn [occurs] in O. apply orb_false_iff in O as [Oc Ok].
    destruct a as [| d a]; cbn [append prefix].
    + destruct (ascii_dec c sep) as [-> | N]; [| reflexivity].
      now rewrite Ascii.eqb_refl in Oc.
    + destruct (ascii_dec c d); [now apply IH | reflexivity].
Qed.

(** A text without the separator occurs in [a], the separator, [b]
    exactly when it occurs in [a] or in [b]. *)
Lemma includes_either sep k a b :
  occurs sep k = false -> k <> "" ->
  includes (a ++ String sep b) k = includes a k || includes b k.
Proof.
  intros O N. induction a as [| x a IH].
  - pose proof (prefix_before sep k "" b O) as P.
    cbn [append] in *. cbn [includes]. rewrite P.
    destruct k as [| c k]; [contradiction |]. reflexivity.
  - pose proof (prefix_before sep k (String x a) b O) as P.
    cbn [append] in *. cbn [includes]. rewrite P.
    destruct (prefix k (String x a)); [reflexivity | exact IH].
Qed.

(** Among the status codes, only 400 and 404 print as such. *)
Lemma status_400_404 n :
  (100 <= n <= 599)%Z ->
  includes (numberToString n) "400" = (n =? 400)%Z
  /\ includes (numberToString n) "404" = (n =? 404)%Z.
Proof.
  intros H.
  assert (A : forallb (fun n => Bool.eqb (includes (numberToString n) "400") (n =? 400)%Z
                                && Bool.eqb (includes (numberToString n) "404") (n =? 404)%Z)
                (Schedule.range 100 500) = true) by (vm_compute; reflexivity).
  rewrite forallb_forall in A.
  specialize (A n ltac:(apply ScheduleFacts.range_In; lia)).
  apply andb_true_iff in A as [A1 A2].
  apply Bool.eqb_prop in A1, A2. now split.
Qed.

Lemma create_failed_keyword n t k :
  occurs " " k = false -> k <> "" ->
  includes ("Failed to create booking: " ++ numberToString n ++ " " ++ t) k
  = includes "Failed to create booking:" k || includes (numberToString n) k
    || includes t k.
Proof.
  intros O N.
  change ("Failed to create booking: " ++ numberToString n ++ " " ++ t)
    with ("Failed to create booking:" ++ String " " (numberToString n ++ String " " t)).
  rewrite (includes_either " " k _ _ O N), (includes_either " " k _ _ O N).
  now rewrite orb_assoc.
Qed.

End TextFacts.

(** ** The client: what it sends and how it ends *)

Module ServiceFacts.
Import JS JSFacts Strapi CancelSpec StrapiFacts ServiceSpec.

Local Open Scope string_scope.

(** One case split of a run: on what the network answers, on a parse, on
    a test. *)
Ltac step :=
  match goal with
  | |- context [serve ?r ?w] => destruct (serve r w) as [? ?] eqn:?
  | |- context [match ?x with _ => _ end] => is_var x; destruct x
  | |- context [match JSON_parse ?t with _ => _ end] =>
      destruct (JSON_parse t) eqn:?
  | |- context [if ?b then _ else _] => destruct b eqn:?
  end; cbv beta iota; cbn [fst snd sent store].

Ltac last_answer :=
  match goal with
  | |- exists before req resp, [?a; (?q, Resolved ?r)] = _ /\ _ =>
      exists [a], q, r; split; [reflexivity | assumption]
  | |- exists before req resp, [(?q, Resolved ?r)] = _ /\ _ =>
      exists [], q, r; split; [reflexivity | assumption]
  end.

Section Facts.
Context {host : Host}.

Lemma extends_ret {A} (a : A) : extends (ret a).
Proof. intros s. exists []. unfold adds. cbn. now rewrite app_nil_r. Qed.

Lemma extends_throw {A} e : extends (@throw _ A e).
Proof. intros s. exists []. unfold adds. cbn. now rewrite app_nil_r. Qed.

Lemma extends_lift {A} (c : completion A) : extends (lift c).
Proof. intros s. exists []. unfold adds. cbn. now rewrite app_nil_r. Qed.

Lemma extends_fetch req : extends (fetch req).
Proof.
  intros s. unfold adds, fetch. destruct (serve req (store s)) as [[r | e] w];
    now eexists.
Qed.

Lemma extends_bind {A B} (m : Async A) (k : A -> Async B) :
  extends m -> (forall a, extends (k a)) -> extends (bind m k).
Proof.
  intros Hm Hk s. unfold adds, bind. destruct (Hm s) as (t1 & E1).
  unfold adds in E1.
  destruct (m s) as [[a | e] s1]; cbn [snd] in *.
  - destruct (Hk a s1) as (t2 & E2). unfold adds in E2.
    exists (t1 ++ t2)%list. now rewrite E2, E1, app_assoc.
  - now exists t1.
Qed.

Lemma extends_tryCatch {A} (m : Async A) (h : string -> Async A) :
  extends m -> (forall e, extends (h e)) -> extends (tryCatch m h).
Proof.
  intros Hm Hh s. unfold adds, tryCatch. destruct (Hm s) as (t1 & E1).
  unfold adds in E1.
  destruct (m s) as [[a | e] s1]; cbn [snd] in *.
  - now exists t1.
  - destruct (Hh e s1) as (t2 & E2). unfold adds in E2.
    exists (t1 ++ t2)%list. now rewrite E2, E1, app_assoc.
Qed.

Lemma extends_json r : extends (json r).
Proof.
  unfold json. destruct (JSON_parse (text r)); [apply extends_ret | apply extends_throw].
Qed.

End Facts.

Ltac extends_tac :=
  repeat first
    [ apply extends_ret | apply extends_throw | apply extends_lift
    | apply extends_fetch | apply extends_json
    | apply extends_bind; [| intros ?]
    | apply extends_tryCatch; [| intros ?]
    | match goal with
      | |- extends (if ?b then _ else _) => destruct b
      | |- extends (match ?x with _ => _ end) => destruct x
      | |- extends (read _ _) => unfold read
      end ].

Section Runs.
Context {host : Host}.

Lemma extends_checkBookingExists bookingIdentifier :
  extends (checkBookingExists bookingIdentifier).
Proof. unfold checkBookingExists. extends_tac. Qed.

Lemma extends_cancelBooking bookingIdentifier :
  extends (cancelBooking bookingIdentifier).
Proof.
  unfold cancelBooking, locate, locateDirect, locateFilter. extends_tac.
Qed.

(** [checkBookingExists] does not throw. *)
Lemma checkBookingExists_returns bookingIdentifier s :
  exists r, fst (checkBookingExists bookingIdentifier s) = Return r.
Proof.
  unfold checkBookingExists. unfold tryCatch at 1.
  match goal with
  | |- context [match ?m s with _ => _ end] => destruct (m s) as [[r | e] s1]
  end; now eexists.
Qed.

(** The resolution phase of [cancelBooking] sends the direct query and,
    at most, the filter query after it. *)
Lemma locate_trace bookingIdentifier s :
  exists trace,
    adds (locate bookingIdentifier) s trace /\
    (map fst trace = [directQuery bookingIdentifier]
     \/ map fst trace = [directQuery bookingIdentifier; filterQuery bookingIdentifier]).
Proof.
  unfold adds, locate, locateDirect, locateFilter.
  generalize (directQuery bookingIdentifier) as q1.
  generalize (filterQuery bookingIdentifier) as q2. intros q2 q1.
  unfold tryCatch, bind, fetch, json, read, lift, readProperty, ret, throw.
  repeat step.
  all: eexists; split; [first [reflexivity | rewrite <- app_assoc; reflexivity] |].
  all: cbn [map fst app]; first [now left | now right].
Qed.

(** What a successful resolution found. *)
Lemma locate_result bookingIdentifier s actualBooking actualId s1 :
  locate bookingIdentifier s = (Return (actualBooking, actualId), s1) ->
  truthy actualBooking = true /\ truthy actualId = true /\
  exists trace,
    sent s1 = (sent s ++ trace)%list /\
    ((map fst trace = [directQuery bookingIdentifier] /\ actualId = bookingIdentifier)
     \/ (map fst trace = [directQuery bookingIdentifier; filterQuery bookingIdentifier]
         /\ actualId = rawId actualBooking)).
Proof.
  unfold locate, locateDirect, locateFilter, rawId.
  generalize (directQuery bookingIdentifier) as q1.
  generalize (filterQuery bookingIdentifier) as q2. intros q2 q1.
  unfold tryCatch, bind, fetch, json, read, lift, readProperty, ret, throw.
  repeat step.
  all: intros H; try discriminate H.
  all: injection H as <- <- <-.
  all: repeat match goal with
         | H : negb _ = false |- _ => apply negb_false_iff in H
         | H : negb _ = true |- _ => apply negb_true_iff in H
         | H : _ || _ = false |- _ => apply orb_false_iff in H as [? ?]
         end.
  all: try (cbn [truthy] in *; discriminate).
  all: split; [assumption |]; split; [assumption |].
  all: cbn [sent].
  all: eexists; split; [first [reflexivity | rewrite <- app_assoc; reflexivity] |].
  all: cbn [map fst app]; first [left; split; reflexivity | right; split; reflexivity].
Qed.

Lemma cancelBooking_throw bookingIdentifier s e s1 :
  locate bookingIdentifier s = (Throw e, s1) ->
  cancelBooking bookingIdentifier s = (Throw e, s1).
Proof.
  intros H. unfold cancelBooking. rewrite tryCatch_rethrow.
  unfold bind at 1. now rewrite H.
Qed.

Lemma status_404_not_ok r : status r = 404%Z -> ok r = false.
Proof. unfold ok. now intros ->. Qed.

(** A direct query answered 404 ends [cancelBooking] at once. *)
Lemma cancelBooking_404 bookingIdentifier s r w :
  serve (directQuery bookingIdentifier) (store s) = (Resolved r, w) ->
  status r = 404%Z ->
  cancelBooking bookingIdentifier s
  = (Throw "Booking not found on server",
     {| store := w;
        sent := (sent s ++ [(directQuery bookingIdentifier, Resolved r)])%list |}).
Proof.
  intros Hs H404. pose proof (status_404_not_ok r H404) as Hok.
  apply Z.eqb_eq in H404.
  unfold cancelBooking. rewrite tryCatch_rethrow.
  unfold locate, locateDirect, bind at 1, bind at 1, tryCatch, bind, fetch.
  rewrite Hs. cbv beta iota. rewrite Hok, H404. reflexivity.
Qed.

(** [checkBookingExists] with the network down. *)
Lemma checkBookingExists_offline bookingIdentifier s e1 w1 e2 w2 :
  serve (directQuery bookingIdentifier) (store s) = (Rejected e1, w1) ->
  serve (filterQuery bookingIdentifier) w1 = (Rejected e2, w2) ->
  checkBookingExists bookingIdentifier s
  = (Return {| exists_ := false; booking := null |},
     {| store := w2;
        sent := (sent s ++ [(directQuery bookingIdentifier, Rejected e1);
                            (filterQuery bookingIdentifier, Rejected e2)])%list |}).
Proof.
  intros H1 H2. unfold checkBookingExists, tryCatch, bind, fetch, ret.
  rewrite H1. cbv beta iota. cbn [store]. rewrite H2. cbv beta iota.
  cbn [sent]. now rewrite <- app_assoc.
Qed.

(** [checkBookingExists] for a booking that only the filter query
    finds. *)
Lemma checkBookingExists_filter_only bookingIdentifier s r1 w1 r2 w2 result :
  serve (directQuery bookingIdentifier) (store s) = (Resolved r1, w1) ->
  ok r1 = false ->
  serve (filterQuery bookingIdentifier) w1 = (Resolved r2, w2) ->
  ok r2 = true ->
  JSON_parse (text r2) = inl result ->
  nullish result = false ->
  truthy (get result "data") && gt0 (get (get result "data") "length") = true ->
  checkBookingExists bookingIdentifier s
  = (Return {| exists_ := true; booking := first (get result "data") |},
     {| store := w2;
        sent := (sent s ++ [(directQuery bookingIdentifier, Resolved r1);
                            (filterQuery bookingIdentifier, Resolved r2)])%list |}).
Proof.
  intros H1 Hok1 H2 Hok2 Hj Hn Hhit.
  unfold checkBookingExists, tryCatch, bind, fetch, ret.
  rewrite H1. cbv beta iota. rewrite Hok1. cbv beta iota. cbn [store].
  rewrite H2. cbv beta iota. rewrite Hok2.
  unfold json, read, lift, readProperty, ret. rewrite Hj, Hn. cbv beta iota.
  rewrite Hhit. cbn [sent]. now rewrite <- app_assoc.
Qed.

Lemma mapM_normalize raws :
  Forall (fun raw => nullish raw = false) raws ->
  exists bs, mapM normalizeBooking raws = Return bs
             /\ Forall2 (fun raw b => normalizeBooking raw = Return b) raws bs
             /\ map id bs = map rawId raws.
Proof.
  induction 1 as [| raw raws Hraw _ (bs & E & F & I)]; cbn [mapM].
  - exists []. repeat split. constructor.
  - assert (N : exists b, normalizeBooking raw = Return b /\ id b = rawId raw).
    { unfold normalizeBooking. rewrite Hraw. eexists. split; reflexivity. }
    destruct N as (b & Nb & Ib). rewrite Nb, E. exists (b :: bs).
    split; [reflexivity |]. split; [now constructor |]. cbn [map]. now rewrite Ib, I.
Qed.

Lemma mapM_nullish raws :
  Exists (fun raw => nullish raw = true) raws ->
  exists e, mapM normalizeBooking raws = Throw e.
Proof.
  induction 1 as [raw raws Hraw | raw raws _ (e & E)]; cbn [mapM].
  - unfold normalizeBooking. rewrite Hraw. now eexists.
  - destruct (normalizeBooking raw); [| now eexists].
    rewrite E. now eexists.
Qed.

End Runs.

Lemma startsWith_app a b p : startsWith a p = true -> startsWith (a ++ b) p = true.
Proof.
  unfold startsWith. revert a. induction p as [| c p IH]; intros a H.
  - now destruct (a ++ b).
  - destruct a as [| x a]; [discriminate H |]. cbn in *.
    destruct (ascii_dec c x); [now apply IH | discriminate H].
Qed.

End ServiceFacts.

Module ServiceTheorems.
Import JS JSFacts Strapi CancelSpec StrapiFacts NormalizerSpec ClientTheorems
       ServiceSpec ServiceFacts.

Local Open Scope string_scope.

Section Theorems.
Context {host : Host}.

(** X7.  [checkBookingExists] never throws and only reads: it sends the
    direct query and, when that finds nothing, the filter query, both
    GET requests.  It answers that the booking exists only when the last
    request it sent got a 2xx response, and that it does not exist only
    after both queries, with no booking in the answer. *)
Theorem checkBookingExists_total (bookingIdentifier : value) (s : session) :
  exists r trace,
    fst (checkBookingExists bookingIdentifier s) = Return r /\
    adds (checkBookingExists bookingIdentifier) s trace /\
    (map fst trace = [directQuery bookingIdentifier]
     \/ map fst trace = [directQuery bookingIdentifier; filterQuery bookingIdentifier]) /\
    Forall (fun x => method (fst x) = "GET") trace /\
    (exists_ r = true ->
       exists before req resp,
         trace = (before ++ [(req, Resolved resp)])%list /\ ok resp = true) /\
    (exists_ r = false ->
       booking r = null /\
       map fst trace = [directQuery bookingIdentifier; filterQuery bookingIdentifier]).
Proof.
  unfold adds, checkBookingExists.
  assert (G1 : method (directQuery bookingIdentifier) = "GET") by reflexivity.
  assert (G2 : method (filterQuery bookingIdentifier) = "GET") by reflexivity.
  revert G1 G2.
  generalize (directQuery bookingIdentifier) as q1.
  generalize (filterQuery bookingIdentifier) as q2. intros q2 q1 G1 G2.
  unfold tryCatch, bind, fetch, json, read, lift, readProperty, ret, throw.
  repeat step.
  all: eexists; eexists; split; [reflexivity |].
  all: split; [first [reflexivity | rewrite <- app_assoc; reflexivity] |].
  all: cbn [map fst exists_ booking app].
  all: split; [first [now left | now right] |].
  all: split; [repeat constructor; assumption |].
  all: split; intros E; try discriminate E; try (split; reflexivity).
  all: last_answer.
Qed.

(** X8.  The requests of [cancelBooking], in order: the direct query,
    the filter query only after it, then DELETE, then PUT only after
    DELETE, the last two addressed to one and the same id, which is the
    identifier passed in when the direct query alone found the booking.
    A run that sends no DELETE fails with "not found": success is never
    reported without a DELETE having been sent. *)
Theorem cancelBooking_requests (bookingIdentifier : value) (s : session) :
  exists trace queries,
    adds (cancelBooking bookingIdentifier) s trace /\
    (queries = [directQuery bookingIdentifier]
     \/ queries = [directQuery bookingIdentifier; filterQuery bookingIdentifier]) /\
    ((map fst trace = queries
      /\ BookingNotFoundError (fst (cancelBooking bookingIdentifier s)))
     \/ exists actualId,
          truthy actualId = true /\
          (queries = [directQuery bookingIdentifier] -> actualId = bookingIdentifier) /\
          (map fst trace = (queries ++ [deleteRequest actualId])%list
           \/ map fst trace
              = (queries ++ [deleteRequest actualId; putRequest actualId])%list)).
Proof.
  unfold adds.
  destruct (locate bookingIdentifier s) as [[[actualBooking actualId] | e] s1] eqn:L.
  - destruct (locate_result _ _ _ _ _ L) as (_ & Ha & t1 & Ht1 & Hq).
    rewrite (cancelBooking_located _ _ _ _ _ L), tryMethods_cancel.
    destruct (serve (deleteRequest actualId) (store s1)) as [fd w2].
    assert (Q : exists queries,
               map fst t1 = queries /\
               (queries = [directQuery bookingIdentifier]
                \/ queries = [directQuery bookingIdentifier;
                              filterQuery bookingIdentifier]) /\
               (queries = [directQuery bookingIdentifier] ->
                actualId = bookingIdentifier)).
    { destruct Hq as [[E ->] | [E _]]; eexists; (split; [exact E |]);
        (split; [first [now left | now right] |]); [reflexivity | discriminate]. }
    destruct Q as (queries & Eq & Hqs & Hid).
    assert (One : forall (c : completion value) w,
               let final := (c, {| store := w;
                                   sent := (sent s1 ++ [(deleteRequest actualId, fd)])%list |}) in
               exists trace,
                 sent (snd final) = (sent s ++ trace)%list /\
                 map fst trace = (queries ++ [deleteRequest actualId])%list).
    { intros c w. exists (t1 ++ [(deleteRequest actualId, fd)])%list.
      cbn [snd sent]. rewrite Ht1, <- app_assoc, map_app, Eq. now split. }
    assert (Two : forall (c : completion value) w fp,
               let final := (c, {| store := w;
                                   sent := ((sent s1 ++ [(deleteRequest actualId, fd)])
                                              ++ [(putRequest actualId, fp)])%list |}) in
               exists trace,
                 sent (snd final) = (sent s ++ trace)%list /\
                 map fst trace
                 = (queries ++ [deleteRequest actualId; putRequest actualId])%list).
    { intros c w fp.
      exists (t1 ++ [(deleteRequest actualId, fd); (putRequest actualId, fp)])%list.
      cbn [snd sent]. rewrite Ht1, <- !app_assoc, map_app, Eq. now split. }
    cbv zeta in One, Two.
    assert (Done : forall final : completion value * session,
               (exists trace,
                  sent (snd final) = (sent s ++ trace)%list /\
                  (map fst trace = (queries ++ [deleteRequest actualId])%list
                   \/ map fst trace
                      = (queries ++ [deleteRequest actualId; putRequest actualId])%list)) ->
               exists trace queries0,
                 sent (snd final) = (sent s ++ trace)%list /\
                 (queries0 = [directQuery bookingIdentifier]
                  \/ queries0 = [directQuery bookingIdentifier;
                                 filterQuery bookingIdentifier]) /\
                 ((map fst trace = queries0 /\ BookingNotFoundError (fst final))
                  \/ exists actualId0,
                       truthy actualId0 = true /\
                       (queries0 = [directQuery bookingIdentifier] ->
                        actualId0 = bookingIdentifier) /\
                       (map fst trace = (queries0 ++ [deleteRequest actualId0])%list
                        \/ map fst trace
                           = (queries0 ++ [deleteRequest actualId0;
                                           putRequest actualId0])%list))).
    { intros final (trace & Hs & Hm). exists trace, queries.
      split; [exact Hs |]. split; [exact Hqs |]. right. exists actualId.
      now repeat split. }
    cbv zeta.
    destruct (deleteOutcome fd) as [v | e1].
    { apply Done. destruct (One (Return v) w2) as (t & ? & ?). exists t. auto. }
    destruct (includes e1 "already deleted").
    { apply Done. destruct (One (Return cancelled) w2) as (t & ? & ?). exists t. auto. }
    destruct (includes e1 "not found").
    { apply Done. destruct (One (Throw e1) w2) as (t & ? & ?). exists t. auto. }
    destruct (serve (putRequest actualId) w2) as [fp w3].
    destruct (putOutcome fp) as [v | e2].
    { apply Done. destruct (Two (Return v) w3 fp) as (t & ? & ?). exists t. auto. }
    destruct (includes e2 "already deleted" || includes e2 "not found").
    { apply Done. destruct (Two (Return cancelled) w3 fp) as (t & ? & ?). exists t. auto. }
    apply Done. destruct (Two (Throw e2) w3 fp) as (t & ? & ?). exists t. auto.
  - rewrite (cancelBooking_throw _ _ _ _ L).
    destruct (locate_trace bookingIdentifier s) as (t1 & Ht1 & Hq).
    unfold adds in Ht1. rewrite L in Ht1. cbn [snd fst] in *.
    exists t1, (map fst t1). split; [exact Ht1 |]. split; [exact Hq |].
    left. split; [reflexivity |].
    destruct (locate_fails_not_found bookingIdentifier s) as [[v Hv] | H];
      rewrite L in *; [discriminate Hv |].
    destruct H as (e' & He & Hinc). cbn [fst] in He. injection He as ->.
    now exists e'.
Qed.

(** X9.  When the direct query is answered 404, [cancelBooking] fails
    with "Booking not found on server" after that one request: the
    filter query is not tried.  [checkBookingExists], from the same
    state, does go on to the filter query. *)
Theorem cancelBooking_direct_404
    (bookingIdentifier : value) (s : session) (r : response) (w : world) :
  serve (directQuery bookingIdentifier) (store s) = (Resolved r, w) ->
  status r = 404%Z ->
  cancelBooking bookingIdentifier s
  = (Throw "Booking not found on server",
     {| store := w;
        sent := (sent s ++ [(directQuery bookingIdentifier, Resolved r)])%list |})
  /\ map fst (sent (snd (checkBookingExists bookingIdentifier s)))
     = (map fst (sent s) ++ [directQuery bookingIdentifier;
                             filterQuery bookingIdentifier])%list.
Proof.
  intros Hs H404. split; [now apply cancelBooking_404 |].
  pose proof (status_404_not_ok r H404) as Hok.
  unfold checkBookingExists.
  generalize dependent (directQuery bookingIdentifier).
  generalize (filterQuery bookingIdentifier) as q2. intros q2 q1 Hs.
  unfold tryCatch, bind, fetch, json, read, lift, readProperty, ret, throw.
  rewrite Hs. cbv beta iota. rewrite Hok. cbv beta iota.
  repeat step.
  all: cbn [sent]; rewrite !map_app, <- app_assoc; reflexivity.
Qed.

(** X10.  [fetchBookingsForUser], answered 2xx with a JSON object, sends
    its one query and: returns the empty list when [data] is missing or
    falsy; for a list of records returns their normalised forms in the
    same order and number, each known by [documentId], else [id]; and
    fails as a whole when a single entry of the list is [null]. *)
Theorem fetchBookingsForUser_list
    (userEmail : value) (s : session) (r : response) (w : world) (result : value) :
  serve (bookingsQuery userEmail) (store s) = (Resolved r, w) ->
  ok r = true ->
  JSON_parse (text r) = inl result ->
  nullish result = false ->
  let out := fetchBookingsForUser userEmail s in
  snd out = {| store := w;
               sent := (sent s ++ [(bookingsQuery userEmail, Resolved r)])%list |} /\
  (truthy (get result "data") = false -> fst out = Return []) /\
  (forall raws, get result "data" = JArray raws ->
     (Forall (fun raw => nullish raw = false) raws ->
      exists bs, fst out = Return bs
                 /\ Forall2 (fun raw b => normalizeBooking raw = Return b) raws bs
                 /\ map id bs = map rawId raws) /\
     (Exists (fun raw => nullish raw = true) raws ->
      exists e, fst out = Throw e)).
Proof.
  intros Hs Hok Hj Hn. cbv zeta.
  assert (E : fetchBookingsForUser userEmail s
              = (normalizeAll (get result "data"),
                 {| store := w;
                    sent := (sent s ++ [(bookingsQuery userEmail, Resolved r)])%list |})).
  { unfold fetchBookingsForUser. rewrite tryCatch_rethrow.
    unfold bind at 1, fetch. fold (bookingsQuery userEmail). rewrite Hs.
    cbv beta iota. rewrite Hok. cbn [negb].
    unfold bind, json, read, readProperty, lift, ret. rewrite Hj, Hn. reflexivity. }
  rewrite E. cbn [fst snd]. split; [reflexivity |]. split.
  - intros F. unfold normalizeAll, or. now rewrite F.
  - intros raws D. rewrite D. unfold normalizeAll, or. cbn [truthy]. split.
    + intros F. destruct (mapM_normalize raws F) as (bs & M & F2 & I).
      exists bs. now repeat split.
    + apply mapM_nullish.
Qed.

(** X11.  With an absolute base URL and an absolute fallback, every URL
    that [getImageUrl] returns is absolute, and resolving it once more
    gives it back unchanged. *)
Theorem getImageUrl_absolute (imageData fallback v : value) :
  startsWith STRAPI_URL "http" = true ->
  absolute fallback ->
  getImageUrl imageData fallback = Return v ->
  absolute v /\ getImageUrl v fallback = Return v.
Proof.
  intros Hbase Hfb H.
  assert (A : absolute v).
  { rewrite getImageUrl_resolveImage in H. unfold resolveImage in H.
    destruct (find truthy (candidates imageData)) as [[| | | | u | |] |];
      try discriminate H; injection H as <-;
      [| destruct Hfb as (f & -> & Hf); now exists f].
    exists (if startsWith u "http" then u else STRAPI_URL ++ u).
    split; [reflexivity |].
    destruct (startsWith u "http") eqn:E; [exact E | now apply startsWith_app]. }
  split; [exact A |].
  destruct A as (u & -> & Hu).
  rewrite getImageUrl_string, Hu; [reflexivity |].
  intros ->. discriminate Hu.
Qed.

(** X12.  The image helper of the MyBookings page gives, for every
    service, what [getImageUrl] of the client gives for the service's
    [image] with the page's own placeholder as fallback. *)
Theorem page_getImageUrl_agrees (service : value) :
  MyBookingsPage.getImageUrl service
  = getImageUrl (get service "image") (JString MyBookingsPage.noImage).
Proof.
  unfold MyBookingsPage.getImageUrl, getImageUrl. cbv zeta.
  destruct (truthy service) eqn:T; cbn [negb].
  - destruct (truthy (get service "image")) eqn:I; cbn [negb]; reflexivity.
  - now rewrite (get_falsy service "image" T).
Qed.

End Theorems.
End ServiceTheorems.

(** ** The Schedule page: how a booking attempt ends *)

Module BookingPageTheorems.
Import JSDate JS JSFacts Strapi StrapiFacts ScheduleBooking BookingSpec
       ServiceSpec BookingPageSpec TextFacts.

Local Open Scope string_scope.

Section Booking.
Context {host : Host}.
Variable dayjs : string -> option Date.
Variable toISOString : Date -> string.
Variable invalidTime : string.

(** [bookingData] sends nothing. *)
Lemma bookingData_pure selectedDate selectedTime user selectedService s :
  snd (bookingData dayjs toISOString invalidTime
         selectedDate selectedTime user selectedService s) = s.
Proof.
  unfold bookingData, bind, lift, read, ret.
  destruct (checkEmail user); [| reflexivity]. cbn [fst snd].
  destruct (readProperty selectedService "documentId"); [| reflexivity].
  destruct (trimEmail a); [| reflexivity].
  destruct (scheduleTimeOf dayjs toISOString invalidTime selectedDate selectedTime);
    reflexivity.
Qed.

(** [onBook] once the guard has passed. *)
Lemma onBook_run selectedDate selectedTime user selectedService v s :
  (selectedTime =? "") || negb (truthy user) = false ->
  onBook dayjs toISOString invalidTime
    (Some selectedDate) (Some selectedTime) user selectedService v s
  = match fst (bookingData dayjs toISOString invalidTime
                 selectedDate selectedTime user selectedService s) with
    | Throw e => (Return (failed e v), s)
    | Return data =>
        let (f, w) := serve (createRequest data) (store s) in
        let s' := {| store := w;
                     sent := (sent s ++ [(createRequest data, f)])%list |} in
        match f with
        | Rejected e => (Return (failed e v), s')
        | Resolved r =>
            if ok r then
              match JSON_parse (text r) with
              | inl _ =>
                  (Return (booked ("Successfully booked " ++ doubleQuote
                                   ++ toString (get selectedService "title")
                                   ++ doubleQuote
                                   ++ " on " ++ formatDayMonth selectedDate
                                   ++ " at " ++ selectedTime ++ "!") v), s')
              | inr e => (Return (failed e v), s')
              end
            else (Return (failed ("Failed to create booking: "
                                  ++ numberToString (status r)
                                  ++ " " ++ statusText r) v), s')
        end
    end.
Proof.
  intros G. unfold onBook. rewrite G.
  pose proof (bookingData_pure selectedDate selectedTime user selectedService s) as P.
  unfold bind at 1. unfold tryCatch at 1. unfold bind at 1.
  destruct (bookingData dayjs toISOString invalidTime
              selectedDate selectedTime user selectedService s) as [[data | e] s1].
  2: { cbn [snd fst] in *. subst s1. reflexivity. }
  cbn [snd fst] in *. subst s1.
  unfold bind at 1, createBooking. rewrite tryCatch_rethrow.
  unfold bind at 1, fetch.
  destruct (serve (createRequest data) (store s)) as [[r | e] w]; [| reflexivity].
  destruct (ok r); cbn [negb]; [| reflexivity].
  unfold json. destruct (JSON_parse (text r)); reflexivity.
Qed.

(** X13.  [onBook] never throws, and what it does is decided as follows.
    While a date, a slot or the user is missing the page stays as it is
    and nothing is sent.  With all three present, [processing] is off
    again at the end and:
    - when the booking data cannot be built (the email check fails, no
      service was handed over, the date does not parse), nothing is sent
      and the page shows the error text for that failure;
    - otherwise exactly one request is sent, the POST of [createBooking]
      with the data built, and nothing about any other booking (so a
      rescheduled booking leaves the original in place); the page is
      booked (one more notice, no error text, route /my-bookings)
      exactly when the answer is 2xx with a JSON body, and shows the
      error text of the failure in every other case, with notices and
      route as before. *)
Theorem onBook_outcome
    (selectedDate : option Date) (selectedTime : option string)
    (user selectedService : value) (v : view) (s : session) :
  let out := onBook dayjs toISOString invalidTime
               selectedDate selectedTime user selectedService v s in
  (selectedDate = None \/ selectedTime = None \/ selectedTime = Some ""
   \/ truthy user = false ->
   out = (Return v, s)) /\
  (forall d t,
     selectedDate = Some d -> selectedTime = Some t -> t <> "" ->
     truthy user = true ->
     let built := fst (bookingData dayjs toISOString invalidTime
                         d t user selectedService s) in
     (forall e, built = Throw e -> out = (Return (failed e v), s)) /\
     (forall data, built = Return data ->
        let f := fst (serve (createRequest data) (store s)) in
        let notice := "Successfully booked " ++ doubleQuote
                      ++ toString (get selectedService "title") ++ doubleQuote
                      ++ " on " ++ formatDayMonth d ++ " at " ++ t ++ "!" in
        snd out = {| store := snd (serve (createRequest data) (store s));
                     sent := (sent s ++ [(createRequest data, f)])%list |} /\
        (forall r x, f = Resolved r -> ok r = true ->
           JSON_parse (text r) = inl x ->
           fst out = Return (booked notice v)) /\
        (forall r e, f = Resolved r -> ok r = true ->
           JSON_parse (text r) = inr e ->
           fst out = Return (failed e v)) /\
        (forall r, f = Resolved r -> ok r = false ->
           fst out = Return (failed ("Failed to create booking: "
                                     ++ numberToString (status r)
                                     ++ " " ++ statusText r) v)) /\
        (forall e, f = Rejected e -> fst out = Return (failed e v)))).
Proof.
  cbv zeta. split.
  - intros [-> | [-> | [-> | U]]]; unfold onBook.
    + reflexivity.
    + now destruct selectedDate.
    + now destruct selectedDate.
    + destruct selectedDate, selectedTime; try reflexivity.
      now rewrite U, orb_true_r.
  - intros d t -> -> Ht U.
    assert (G : (t =? "") || negb (truthy user) = false).
    { rewrite U. destruct (String.eqb_spec t ""); [contradiction | reflexivity]. }
    rewrite (onBook_run d t user selectedService v s G).
    split.
    + intros e ->. reflexivity.
    + intros data ->.
      destruct (serve (createRequest data) (store s)) as [f w]. cbn [fst snd].
      destruct f as [r | e]; cbv zeta.
      * destruct (ok r) eqn:Hok.
        -- destruct (JSON_parse (text r)) as [x | e] eqn:Hp; cbn [fst snd];
             (split; [reflexivity |]); repeat split; intros; congruence.
        -- cbn [fst snd]. split; [reflexivity |].
           repeat split; intros; congruence.
      * cbn [fst snd]. split; [reflexivity |].
        repeat split; intros; congruence.
Qed.

(** X14.  When the store accepts the booking (a 2xx answer) but the body
    of the answer is not JSON, the page reports a failure: the error
    text is set from the parser's message, no notice is shown and the
    route stays, although the POST has been sent and accepted. *)
Theorem onBook_accepted_but_unreadable
    (selectedDate : Date) (selectedTime : string)
    (user selectedService data : value) (v : view) (s : session)
    (r : response) (w : world) (e : string) :
  (selectedTime =? "") || negb (truthy user) = false ->
  fst (bookingData dayjs toISOString invalidTime
         selectedDate selectedTime user selectedService s) = Return data ->
  serve (createRequest data) (store s) = (Resolved r, w) ->
  ok r = true ->
  JSON_parse (text r) = inr e ->
  onBook dayjs toISOString invalidTime
    (Some selectedDate) (Some selectedTime) user selectedService v s
  = (Return (failed e v),
     {| store := w;
        sent := (sent s ++ [(createRequest data, Resolved r)])%list |}).
Proof.
  intros G B Hs Hok Hj. rewrite (onBook_run _ _ _ _ _ _ G), B, Hs.
  cbv zeta beta iota. now rewrite Hok, Hj.
Qed.

(** X15.  For a user whose email is missing, empty or a text without an
    at sign, [onBook] sends nothing and shows "Email validation error.
    Please sign out and sign in again.". *)
Theorem onBook_invalid_email
    (selectedDate : Date) (selectedTime : string)
    (user selectedService : value) (v : view) (s : session) :
  (selectedTime =? "") || negb (truthy user) = false ->
  (truthy (get user "email") = false
   \/ exists email, get user "email" = JString email /\ includes email "@" = false) ->
  onBook dayjs toISOString invalidTime
    (Some selectedDate) (Some selectedTime) user selectedService v s
  = (Return {| processing := false;
               errMsg := "Email validation error. Please sign out and sign in again.";
               alerts := alerts v; location := location v |}, s).
Proof.
  intros G E. rewrite (onBook_run _ _ _ _ _ _ G).
  assert (C : checkEmail user = Throw "Invalid user email. Please sign in again.").
  { unfold checkEmail. destruct E as [F | (email & Ee & Hat)].
    - now rewrite F.
    - rewrite Ee in *. destruct (truthy (JString email)); cbn [negb]; [| reflexivity].
      now rewrite Hat. }
  unfold bookingData, bind at 1, lift at 1. rewrite C. reflexivity.
Qed.

(** X26.  When the POST of [createBooking] is answered with a status
    from 100 to 599 outside 200..299 and a reason phrase that holds none
    of the words the handler looks for, the page shows "Invalid booking
    data. Please check your information." for status 400 and "Booking
    failed. Please try again." for every other status. *)
Theorem onBook_http_failure
    (selectedDate : Date) (selectedTime : string)
    (user selectedService data : value) (v : view) (s : session)
    (r : response) (w : world) :
  (selectedTime =? "") || negb (truthy user) = false ->
  fst (bookingData dayjs toISOString invalidTime
         selectedDate selectedTime user selectedService s) = Return data ->
  serve (createRequest data) (store s) = (Resolved r, w) ->
  ok r = false ->
  (100 <= status r <= 599)%Z ->
  Forall (fun keyword => includes (statusText r) keyword = false)
    ["email"; "service"; "validation"; "400"] ->
  fst (onBook dayjs toISOString invalidTime
         (Some selectedDate) (Some selectedTime) user selectedService v s)
  = Return {| processing := false;
              errMsg := if (status r =? 400)%Z
                        then "Invalid booking data. Please check your information."
                        else "Booking failed. Please try again.";
              alerts := alerts v; location := location v |}.
Proof.
  intros G B Hs Hok Hr Ht.
  rewrite (onBook_run _ _ _ _ _ _ G), B, Hs. cbv zeta beta iota.
  rewrite Hok. cbn [fst]. unfold failed. f_equal. f_equal.
  inversion Ht as [| ? ? T1 Ht1]; subst. inversion Ht1 as [| ? ? T2 Ht2]; subst.
  inversion Ht2 as [| ? ? T3 Ht3]; subst. inversion Ht3 as [| ? ? T4 _]; subst.
  unfold errorMessage.
  rewrite !create_failed_keyword by (reflexivity || discriminate).
  rewrite T1, T2, T3, T4, !orb_false_r.
  rewrite (includes_absent "e" (numberToString (status r)) "email")
    by (reflexivity || apply occurs_number; reflexivity).
  rewrite (includes_absent "e" (numberToString (status r)) "service")
    by (reflexivity || apply occurs_number; reflexivity).
  rewrite (includes_absent "v" (numberToString (status r)) "validation")
    by (reflexivity || apply occurs_number; reflexivity).
  rewrite (proj1 (status_400_404 _ Hr)).
  reflexivity.
Qed.

(** X19.  Booking again, or rescheduling, from the MyBookings page hands
    the Schedule page a service whose reference is the service's [id],
    else its [documentId]; this is what [onBook] then puts into the
    payload, where a booking made from the catalogue carries
    [documentId], else [id]. *)
Theorem rebook_service_reference
    (booking : Booking) (p : MyBookingsPage.page) (state : value)
    (selectedDate : Date) (selectedTime : string) (user data : value)
    (s s' : session) :
  truthy (service booking) = true ->
  (MyBookingsPage.location (MyBookingsPage.handleBookAgain booking p)
     = Some ("/schedule", state)
   \/ MyBookingsPage.location (MyBookingsPage.handleRescheduleBooking booking p)
     = Some ("/schedule", state)) ->
  bookingData dayjs toISOString invalidTime selectedDate selectedTime
    user (ScheduleView.selectedServiceOf state) s = (Return data, s') ->
  ScheduleView.selectedServiceOf state = MyBookingsPage.rebookService (service booking)
  /\ get data "service"
     = or (get (service booking) "id") (get (service booking) "documentId").
Proof.
  intros T L B.
  assert (E : ScheduleView.selectedServiceOf state
              = MyBookingsPage.rebookService (service booking)).
  { unfold MyBookingsPage.handleBookAgain, MyBookingsPage.handleRescheduleBooking in L.
    rewrite T in L. cbn [negb MyBookingsPage.navigate MyBookingsPage.location] in L.
    destruct L as [L | L]; injection L as <-; reflexivity. }
  split; [exact E |].
  rewrite E in B.
  unfold bookingData, bind, lift, read, readProperty, ret in B.
  destruct (checkEmail user); [| discriminate B].
  cbn [MyBookingsPage.rebookService nullish] in B.
  destruct (trimEmail a); [| discriminate B].
  destruct (scheduleTimeOf dayjs toISOString invalidTime
              selectedDate selectedTime); [| discriminate B].
  injection B as <- _. reflexivity.
Qed.

End Booking.
End BookingPageTheorems.

(** ** The MyBookings page: cancelling, and the two tabs *)

Module MyBookingsTheorems.
Import JS JSFacts Strapi CancelSpec StrapiFacts MyBookings ClientTheorems
       MyBookingsPage ServiceSpec ServiceFacts CancelPageSpec TextFacts.

Local Open Scope string_scope.

Section Cancelling.
Context {host : Host}.

(** [handleCancelBooking] after the visitor has confirmed. *)
Lemma handleCancelBooking_run booking p s :
  handleCancelBooking true booking p s
  = match checkBookingExists (id booking) s with
    | (Throw _, s1) => (Return (kept unexpected p), s1)
    | (Return checkResult, s1) =>
        if negb (exists_ checkResult)
        then (Return (dropped (id booking) gone p), s1)
        else
          match cancelBooking (id booking) s1 with
          | (Return _, s2) => (Return (dropped (id booking) done p), s2)
          | (Throw cancelError, s2) =>
              if includes cancelError "not found" || includes cancelError "404"
              then (Return (dropped (id booking) already p), s2)
              else if includes cancelError "All cancellation methods failed"
              then (Return (kept unable p), s2)
              else (Return (kept failedNotice p), s2)
          end
    end.
Proof.
  unfold handleCancelBooking. cbn [negb].
  unfold bind at 1. unfold tryCatch at 1. unfold bind at 1.
  destruct (checkBookingExists (id booking) s) as [[checkResult | e] s1];
    [| reflexivity].
  destruct (negb (exists_ checkResult)); [reflexivity |].
  unfold tryCatch, bind.
  destruct (cancelBooking (id booking) s1) as [[x | cancelError] s2];
    [reflexivity |].
  destruct (includes cancelError "not found" || includes cancelError "404");
    [reflexivity |].
  destruct (includes cancelError "All cancellation methods failed"); reflexivity.
Qed.

Lemma fetchUserBookings_run userEmail p s :
  fetchUserBookings userEmail p s
  = match fetchBookingsForUser userEmail s with
    | (Return fetchedBookings, s1) =>
        (Return (setLoading false
                   (setBookings (fun _ => fetchedBookings)
                      (setLoading true (setError "" p)))), s1)
    | (Throw _, s1) =>
        (Return (setLoading false
                   (setError "Failed to load bookings. Please try again."
                      (setLoading true (setError "" p)))), s1)
    end.
Proof.
  unfold fetchUserBookings, bind, tryCatch, ret.
  destruct (fetchBookingsForUser userEmail s) as [[fetchedBookings | e] s1];
    reflexivity.
Qed.

(** X25.  [fetchUserBookings] never throws and sends the one query of
    [fetchBookingsForUser].  Afterwards [loading] is off; the list is
    replaced and the error text cleared when the client returned a
    list, and the list is kept and the error text set to "Failed to load
    bookings. Please try again." when the client failed; dialog, notices
    and route are untouched. *)
Theorem fetchUserBookings_outcome (userEmail : value) (p : page) (s : session) :
  let out := fetchUserBookings userEmail p s in
  exists p' f,
    fst out = Return p' /\
    sent (snd out) = (sent s ++ [(bookingsQuery userEmail, f)])%list /\
    loading p' = false /\
    selectedBooking p' = selectedBooking p /\ showModal p' = showModal p /\
    cancelling p' = cancelling p /\ alerts p' = alerts p /\
    location p' = location p /\
    match fst (fetchBookingsForUser userEmail s) with
    | Return fetchedBookings => bookings p' = fetchedBookings /\ error p' = ""
    | Throw _ =>
        bookings p' = bookings p
        /\ error p' = "Failed to load bookings. Please try again."
    end.
Proof.
  cbv zeta. rewrite fetchUserBookings_run.
  assert (T : exists f,
             sent (snd (fetchBookingsForUser userEmail s))
             = (sent s ++ [(bookingsQuery userEmail, f)])%list).
  { unfold fetchBookingsForUser. rewrite tryCatch_rethrow.
    unfold bind at 1, fetch. fold (bookingsQuery userEmail).
    destruct (serve (bookingsQuery userEmail) (store s)) as [[r | e] w];
      [| now exists (Rejected e)].
    exists (Resolved r).
    destruct (negb (ok r)); [reflexivity |].
    unfold bind, json, read, lift, ret, throw.
    destruct (JSON_parse (text r)) as [result | e]; [| reflexivity].
    destruct (readProperty result "data"); reflexivity. }
  destruct T as (f & T).
  destruct (fetchBookingsForUser userEmail s) as [[fetchedBookings | e] s1];
    cbn [fst snd] in *; eexists; exists f; (split; [reflexivity |]);
    (split; [exact T |]); now repeat split.
Qed.

Lemma strictEquals_refl v : primitive v = true -> strictEquals v v = true.
Proof.
  destruct v; cbn; intros H; try reflexivity; try discriminate H.
  - now destruct b.
  - apply Z.eqb_refl.
  - apply String.eqb_refl.
Qed.

(** X16.  [handleCancelBooking] never throws.  When the visitor declines
    the dialog nothing is sent and the page stays as it is.  Otherwise
    [cancelling] is off again at the end and exactly one notice has been
    added, never the one for an unexpected error; the list of bookings
    is either as before, with the dialog as before, or has lost the
    entries with the id of the booking, with the dialog closed; when
    that id is a string or a number, an entry with another id is never
    lost. *)
Theorem handleCancelBooking_outcome
    (confirmed : bool) (booking : Booking) (p : page) (s : session) :
  let out := handleCancelBooking confirmed booking p s in
  exists p' trace,
    fst out = Return p' /\
    sent (snd out) = (sent s ++ trace)%list /\
    (confirmed = false -> p' = p /\ trace = []) /\
    (confirmed = true ->
     cancelling p' = false /\
     (exists notice,
        In notice [gone; done; already; unable; failedNotice] /\
        alerts p' = (alerts p ++ [notice])%list) /\
     ((bookings p' = removeBooking (id booking) (bookings p)
       /\ showModal p' = false /\ selectedBooking p' = None)
      \/ (bookings p' = bookings p
          /\ showModal p' = showModal p
          /\ selectedBooking p' = selectedBooking p)) /\
     (primitive (id booking) = true ->
      forall other, In other (bookings p) ->
        strictEquals (id other) (id booking) = false -> In other (bookings p'))).
Proof.
  cbv zeta. destruct confirmed.
  2: { exists p, []. cbn. rewrite app_nil_r. repeat split; discriminate. }
  assert (D : forall notice s',
             In notice [gone; done; already; unable; failedNotice] ->
             (exists trace, sent s' = (sent s ++ trace)%list) ->
             exists p' trace,
               fst (Return (dropped (id booking) notice p), s') = Return p' /\
               sent (snd (Return (dropped (id booking) notice p), s'))
               = (sent s ++ trace)%list /\
               (true = false -> p' = p /\ trace = []) /\
               (true = true ->
                cancelling p' = false /\
                (exists notice,
                   In notice [gone; done; already; unable; failedNotice] /\
                   alerts p' = (alerts p ++ [notice])%list) /\
                ((bookings p' = removeBooking (id booking) (bookings p)
                  /\ showModal p' = false /\ selectedBooking p' = None)
                 \/ (bookings p' = bookings p
                     /\ showModal p' = showModal p
                     /\ selectedBooking p' = selectedBooking p)) /\
                (primitive (id booking) = true ->
                 forall other, In other (bookings p) ->
                   strictEquals (id other) (id booking) = false ->
                   In other (bookings p')))).
  { intros notice s' Hn (trace & Ht). exists (dropped (id booking) notice p), trace.
    split; [reflexivity |]. split; [exact Ht |]. split; [discriminate |].
    intros _. split; [reflexivity |]. split; [now exists notice |].
    split; [left; now repeat split |].
    intros _ other Ho Hne. cbn. unfold removeBooking. apply filter_In.
    split; [exact Ho | now rewrite Hne]. }
  assert (K : forall notice s',
             In notice [gone; done; already; unable; failedNotice] ->
             (exists trace, sent s' = (sent s ++ trace)%list) ->
             exists p' trace,
               fst (Return (kept notice p), s') = Return p' /\
               sent (snd (Return (kept notice p), s')) = (sent s ++ trace)%list /\
               (true = false -> p' = p /\ trace = []) /\
               (true = true ->
                cancelling p' = false /\
                (exists notice,
                   In notice [gone; done; already; unable; failedNotice] /\
                   alerts p' = (alerts p ++ [notice])%list) /\
                ((bookings p' = removeBooking (id booking) (bookings p)
                  /\ showModal p' = false /\ selectedBooking p' = None)
                 \/ (bookings p' = bookings p
                     /\ showModal p' = showModal p
                     /\ selectedBooking p' = selectedBooking p)) /\
                (primitive (id booking) = true ->
                 forall other, In other (bookings p) ->
                   strictEquals (id other) (id booking) = false ->
                   In other (bookings p')))).
  { intros notice s' Hn (trace & Ht). exists (kept notice p), trace.
    split; [reflexivity |]. split; [exact Ht |]. split; [discriminate |].
    intros _. split; [reflexivity |]. split; [now exists notice |].
    split; [right; now repeat split |].
    intros _ other Ho _. exact Ho. }
  rewrite handleCancelBooking_run.
  destruct (checkBookingExists_returns (id booking) s) as (r & Hr).
  destruct (extends_checkBookingExists (id booking) s) as (t1 & Ht1).
  unfold adds in Ht1.
  destruct (checkBookingExists (id booking) s) as [[checkResult | e] s1];
    [| discriminate Hr].
  cbn [snd] in Ht1.
  destruct (negb (exists_ checkResult)).
  { apply D; [cbn; tauto | now exists t1]. }
  destruct (extends_cancelBooking (id booking) s1) as (t2 & Ht2).
  unfold adds in Ht2.
  assert (T : exists trace,
             sent (snd (cancelBooking (id booking) s1)) = (sent s ++ trace)%list).
  { exists (t1 ++ t2)%list. now rewrite Ht2, Ht1, app_assoc. }
  destruct (cancelBooking (id booking) s1) as [[x | cancelError] s2]; cbn [snd] in T.
  { apply D; [cbn; tauto | exact T]. }
  destruct (includes cancelError "not found" || includes cancelError "404").
  { apply D; [cbn; tauto | exact T]. }
  destruct (includes cancelError "All cancellation methods failed");
    (apply K; [cbn; tauto | exact T]).
Qed.

(** X17.  With the network down (both queries of the existence check
    rejected) a confirmed cancellation sends no DELETE and no PUT, yet
    drops the booking from the list, closes the dialog and tells the
    visitor that the booking no longer exists. *)
Theorem handleCancelBooking_offline
    (booking : Booking) (p : page) (s : session)
    (e1 e2 : string) (w1 w2 : world) :
  serve (directQuery (id booking)) (store s) = (Rejected e1, w1) ->
  serve (filterQuery (id booking)) w1 = (Rejected e2, w2) ->
  handleCancelBooking true booking p s
  = (Return (dropped (id booking) gone p),
     {| store := w2;
        sent := (sent s ++ [(directQuery (id booking), Rejected e1);
                            (filterQuery (id booking), Rejected e2)])%list |})
  /\ (primitive (id booking) = true ->
      ~ In booking (bookings (dropped (id booking) gone p))).
Proof.
  intros H1 H2. split.
  - rewrite handleCancelBooking_run.
    now rewrite (checkBookingExists_offline _ _ _ _ _ _ H1 H2).
  - intros P H. cbn in H. unfold removeBooking in H. apply filter_In in H as [_ H].
    now rewrite (strictEquals_refl _ P) in H.
Qed.

(** X18.  A booking that the store finds through the filter query only
    (the direct query is answered 404) cannot be cancelled from the
    page: the existence check finds it, [cancelBooking] then stops at
    its own direct query, no DELETE and no PUT is sent, and the page
    drops the booking from the list as already cancelled or removed. *)
Theorem handleCancelBooking_filter_only
    (booking : Booking) (p : page) (s : session)
    (r1 r2 r3 : response) (w1 w2 w3 : world) (result : value) :
  serve (directQuery (id booking)) (store s) = (Resolved r1, w1) ->
  status r1 = 404%Z ->
  serve (filterQuery (id booking)) w1 = (Resolved r2, w2) ->
  ok r2 = true ->
  JSON_parse (text r2) = inl result ->
  nullish result = false ->
  truthy (get result "data") && gt0 (get (get result "data") "length") = true ->
  serve (directQuery (id booking)) w2 = (Resolved r3, w3) ->
  status r3 = 404%Z ->
  handleCancelBooking true booking p s
  = (Return (dropped (id booking) already p),
     {| store := w3;
        sent := (sent s ++ [(directQuery (id booking), Resolved r1);
                            (filterQuery (id booking), Resolved r2);
                            (directQuery (id booking), Resolved r3)])%list |}).
Proof.
  intros H1 S1 H2 Hok2 Hj Hn Hhit H3 S3.
  rewrite handleCancelBooking_run.
  rewrite (checkBookingExists_filter_only _ _ _ _ _ _ _ H1 (status_404_not_ok _ S1)
             H2 Hok2 Hj Hn Hhit).
  cbn [exists_ negb].
  rewrite (cancelBooking_404 (id booking)
             {| store := w2;
                sent := (sent s ++ [(directQuery (id booking), Resolved r1);
                                    (filterQuery (id booking), Resolved r2)])%list |}
             r3 w3 H3 S3).
  change (includes "Booking not found on server" "not found") with true.
  cbn [orb sent]. now rewrite <- app_assoc.
Qed.

(** The notice for a PUT that failed with a status other than 404. *)
Lemma put_failed_notice code :
  (100 <= code <= 599)%Z -> code <> 404%Z ->
  let e := "PUT failed: " ++ numberToString code in
  includes e "already deleted" = false /\ includes e "not found" = false
  /\ includes e "404" = false
  /\ includes e "All cancellation methods failed" = false.
Proof.
  intros H N. cbv zeta.
  destruct (put_failed_unrelated code) as [U1 U2].
  split; [exact U2 |]. split; [exact U1 |]. split.
  - change ("PUT failed: " ++ numberToString code)
      with ("PUT failed:" ++ String " " (numberToString code)).
    rewrite includes_either by (reflexivity || discriminate).
    rewrite (proj2 (status_400_404 _ H)).
    destruct (Z.eqb_spec code 404); [contradiction | reflexivity].
  - apply (includes_absent "A"); [reflexivity |].
    rewrite occurs_app, occurs_number; reflexivity.
Qed.

(** X27.  A confirmed cancellation of a booking that the existence
    check and the resolution of [cancelBooking] both find ends as
    follows.  DELETE is answered 2xx: the booking is dropped with
    "Booking cancelled successfully.".  DELETE is answered 404: it is
    dropped as already cancelled or removed.  DELETE is answered with
    another status and PUT is answered 2xx with a JSON body, or 404:
    dropped as cancelled.  Both are answered with a status other than
    2xx and 404: the list and the dialog stay as they are and the notice
    is "Failed to cancel booking. Please try again or contact
    support."; the notice "Unable to cancel this booking at the moment"
    is not shown for any status.  PUT answered 2xx with a body that is
    not JSON counts as a failure too: the booking stays listed with the
    same notice, whatever the store did (for a parser message without
    "not found", "already deleted", "404" and "All cancellation methods
    failed"). *)
Theorem handleCancelBooking_found
    (booking : Booking) (p : page) (s s1 s2 : session)
    (r : existence) (actualBooking actualId : value) :
  checkBookingExists (id booking) s = (Return r, s1) ->
  exists_ r = true ->
  locate (id booking) s1 = (Return (actualBooking, actualId), s2) ->
  let out := fst (handleCancelBooking true booking p s) in
  let fd := fst (serve (deleteRequest actualId) (store s2)) in
  let fp := fst (serve (putRequest actualId)
                   (snd (serve (deleteRequest actualId) (store s2)))) in
  (accepted fd -> out = Return (dropped (id booking) done p)) /\
  (httpFailure fd 404%Z -> out = Return (dropped (id booking) already p)) /\
  (forall c1, httpFailure fd c1 -> c1 <> 404%Z ->
     ((exists v, acceptedWith fp v) \/ httpFailure fp 404%Z ->
      out = Return (dropped (id booking) done p)) /\
     (forall c2, httpFailure fp c2 -> c2 <> 404%Z -> (100 <= c2 <= 599)%Z ->
        out = Return (kept failedNotice p)) /\
     (forall e, acceptedUnread fp e -> unrelated e ->
        includes e "404" = false ->
        includes e "All cancellation methods failed" = false ->
        out = Return (kept failedNotice p))).
Proof.
  intros H1 He H2. cbv zeta.
  rewrite handleCancelBooking_run, H1, He. cbn [negb].
  rewrite (cancelBooking_located _ _ _ _ _ H2), tryMethods_cancel.
  destruct (serve (deleteRequest actualId) (store s2)) as [fd w2]. cbn [fst snd].
  destruct (serve (putRequest actualId) w2) as [fp w3]. cbn [fst snd].
  split; [| split].
  - intros (rd & -> & Hok). destruct (deleteOutcome_ok rd Hok) as [v Hv].
    now rewrite Hv.
  - intros F. rewrite (httpFailure_delete_404 _ F). reflexivity.
  - intros c1 F1 N1. destruct (httpFailure_delete _ _ F1 N1) as (e1 & E1 & U1 & U2).
    rewrite E1, U2, U1. split; [| split].
    + intros [[v A] | F2].
      * now rewrite (acceptedWith_put _ _ A).
      * rewrite (httpFailure_put_404 _ F2). reflexivity.
    + intros c2 F2 N2 R2. rewrite (httpFailure_put _ _ F2 N2).
      destruct (put_failed_notice c2 R2 N2) as (A1 & A2 & A3 & A4).
      cbv zeta in A1, A2, A3, A4. rewrite A1, A2. cbn [orb fst].
      now rewrite A2, A3, A4.
    + intros e A [V1 V2] V3 V4. rewrite (acceptedUnread_put _ _ A), V2, V1.
      cbn [orb fst]. now rewrite V1, V3, V4.
Qed.

End Cancelling.

Section Tabs.
Variable dayjs : value -> option Z.

Lemma filter_exclusive {A} (f g : A -> bool) (l : list A) :
  (forall x, f x = true -> g x = false) ->
  (List.length (filter f l) + List.length (filter g l) <= List.length l)%nat.
Proof.
  intros X. induction l as [| x l IH]; cbn [filter List.length]; [lia |].
  destruct (f x) eqn:F.
  - rewrite (X x F). cbn [List.length]. lia.
  - destruct (g x); cbn [List.length]; lia.
Qed.

(** X20.  No booking is shown in both tabs; a booking whose scheduled
    instant is valid and is not the present instant is shown in one of
    them; and the two tabs together never show more entries than were
    fetched. *)
Theorem tabs_disjoint (now : Z) (bookings : list Booking) :
  (forall b, ~ (In b (upcomingBookings dayjs now bookings)
                /\ In b (pastBookings dayjs now bookings))) /\
  (forall b t, In b bookings -> scheduledInstant dayjs b = Some t -> t <> now ->
     In b (upcomingBookings dayjs now bookings)
     \/ In b (pastBookings dayjs now bookings)) /\
  (List.length (upcomingBookings dayjs now bookings)
   + List.length (pastBookings dayjs now bookings) <= List.length bookings)%nat.
Proof.
  assert (X : forall b,
             isAfter (scheduledInstant dayjs b) now
             && negb (strictEq (statusOf b) "cancelled") = true ->
             isBefore (scheduledInstant dayjs b) now
             || strictEq (statusOf b) "cancelled" = false).
  { intros b H. apply andb_true_iff in H as [Ha Hs].
    apply negb_true_iff in Hs. rewrite Hs, orb_false_r.
    unfold isAfter, isBefore in *.
    destruct (scheduledInstant dayjs b) as [t |]; [| reflexivity].
    apply Z.ltb_lt in Ha. apply Z.ltb_ge. lia. }
  split; [| split].
  - intros b [U P]. apply upcoming_In in U as [_ U]. apply past_In in P as [_ P].
    rewrite (X b U) in P. discriminate P.
  - intros b t Hin Ht Hne. rewrite upcoming_In, past_In, Ht.
    cbn [isAfter isBefore].
    destruct (strictEq (statusOf b) "cancelled").
    + right. split; [exact Hin | apply orb_true_r].
    + cbn [negb]. rewrite andb_true_r, orb_false_r.
      destruct (Z.ltb_spec now t) as [L | G]; [left; now split |].
      right. split; [exact Hin |]. apply Z.ltb_lt. lia.
  - unfold upcomingBookings, pastBookings. apply filter_exclusive. exact X.
Qed.

End Tabs.
End MyBookingsTheorems.

(** ** The AccountSettings page *)

Module AccountTheorems.
Import JS JSFacts AccountSettings.

Local Open Scope string_scope.

Lemma split_nonempty sep s : split sep s <> [].
Proof.
  destruct s as [| c rest]; cbn [split]; [discriminate |].
  destruct (Ascii.eqb c sep); [discriminate |].
  destruct (split sep rest); discriminate.
Qed.

Lemma join_cons sep p q rest :
  join sep (p :: q :: rest) = p ++ sep ++ join sep (q :: rest).
Proof. reflexivity. Qed.

(** Splitting at a character and joining with it gives the text back. *)
Lemma join_split (sep : ascii) s : join (String sep "") (split sep s) = s.
Proof.
  induction s as [| c rest IH]; cbn [split]; [reflexivity |].
  destruct (Ascii.eqb_spec c sep) as [-> | N].
  - pose proof (split_nonempty sep rest) as NE.
    destruct (split sep rest) as [| q parts]; [contradiction |].
    rewrite join_cons, IH. reflexivity.
  - destruct (split sep rest) as [| part parts] eqn:E.
    + now destruct (split_nonempty sep rest).
    + destruct parts as [| q parts].
      * cbn [join] in *. now rewrite IH.
      * rewrite join_cons in *. rewrite <- IH. reflexivity.
Qed.

(** The first part holds no separator. *)
Lemma split_hd sep s :
  exists p parts, split sep s = p :: parts /\ occurs sep p = false.
Proof.
  induction s as [| c rest (p & parts & E & O)]; cbn [split].
  - now exists "", [].
  - destruct (Ascii.eqb_spec c sep) as [-> | N].
    + now exists "", (split sep rest).
    + rewrite E. exists (String c p), parts. split; [reflexivity |].
      cbn [occurs]. rewrite O, orb_false_r. apply Ascii.eqb_neq. congruence.
Qed.

Lemma append_empty s : s ++ "" = s.
Proof. induction s; cbn; congruence. Qed.

Lemma append_append (a b c : string) : (a ++ b) ++ c = a ++ b ++ c.
Proof. induction a; cbn; congruence. Qed.

Lemma reverse_append a b : reverse (a ++ b) = reverse b ++ reverse a.
Proof.
  induction a as [| c a IH]; cbn [append reverse].
  - now rewrite append_empty.
  - now rewrite IH, append_append.
Qed.

Lemma trimEnd_space x : trimEnd (x ++ " ") = trimEnd x.
Proof. unfold trimEnd. now rewrite reverse_append. Qed.

Lemma isSpace2_space c : isSpace2 c " " = false.
Proof. unfold isSpace2. apply andb_false_r. Qed.

Lemma isSpace3_space c1 c2 : isSpace3 c1 c2 " " = false.
Proof.
  unfold isSpace3. cbv zeta.
  change (nat_of_ascii " ") with 32%nat. cbn [Nat.eqb Nat.leb].
  now rewrite ?andb_false_r, ?orb_false_r.
Qed.

(** A space after a text is stripped with the white space before it, or
    stays behind what is left. *)
Lemma strip_space n : forall d, (String.length d <= n)%nat ->
  strip false (d ++ " ") = if strip false d =? "" then "" else strip false d ++ " ".
Proof.
  induction n as [| n IH]; intros d L.
  - destruct d; [reflexivity | cbn in L; lia].
  - destruct d as [| c1 [| c2 [| c3 s3]]]; cbn [String.length] in L.
    + reflexivity.
    + cbn [append strip]. destruct (isSpace c1); [reflexivity |].
      now rewrite isSpace2_space.
    + cbn [append strip]. destruct (isSpace c1).
      * apply (IH (String c2 "")). cbn. lia.
      * destruct (isSpace2 c1 c2); [reflexivity |].
        now rewrite isSpace3_space.
    + cbn [append strip]. destruct (isSpace c1).
      * apply (IH (String c2 (String c3 s3))). cbn [String.length]. lia.
      * destruct (isSpace2 c1 c2).
        -- apply (IH (String c3 s3)). cbn [String.length]. lia.
        -- destruct (isSpace3 c1 c2 c3); [| reflexivity].
           apply IH. lia.
Qed.

Lemma trimStart_space d :
  trimStart (d ++ " ") = if trimStart d =? "" then "" else trimStart d ++ " ".
Proof. apply (strip_space (String.length d)). lia. Qed.

Lemma trim_space d : trim (d ++ " ") = trim d.
Proof.
  unfold trim. rewrite trimStart_space.
  destruct (String.eqb_spec (trimStart d) "") as [-> | _]; [reflexivity |].
  apply trimEnd_space.
Qed.

Lemma formOf_merge (u : user) :
  displayNameOf (formOf u) = trim (orEmpty (displayName u)).
Proof.
  unfold displayNameOf, formOf. cbn [firstName lastName].
  pose proof (join_split " " (orEmpty (displayName u))) as J.
  destruct (split_hd " " (orEmpty (displayName u))) as (p & parts & E & _).
  rewrite E in *. cbn [hd_error tl orEmpty].
  destruct parts as [| q parts].
  - cbn [join] in *. subst p. apply trim_space.
  - rewrite join_cons in J. now rewrite J.
Qed.

(** X21.  The name fields filled from a display name merge back, as
    [handleSaveInfo] merges them, into that display name with the white
    space around it removed; the first name holds no space. *)
Theorem formOf_displayName (u : user) :
  displayNameOf (formOf u) = trim (orEmpty (displayName u))
  /\ occurs " " (firstName (formOf u)) = false.
Proof.
  split; [apply formOf_merge |].
  unfold formOf. cbn [firstName].
  destruct (split_hd " " (orEmpty (displayName u))) as (p & parts & E & O).
  now rewrite E.
Qed.

Section Firebase.
Variable backend : Type.
Variable currentUser : backend -> user.
Variable perform : call -> backend -> outcome * backend.

(** X22.  Saving a form that was filled from the signed-in user and left
    untouched makes one call, the profile update with the trimmed
    display name, and no email update, given that the user has an email
    and the profile update succeeds and leaves the email alone; the page
    then leaves editing mode and reports success. *)
Theorem handleSaveInfo_untouched (st : settings backend) (e : string) (b : backend) :
  formData st = formOf (currentUser (auth st)) ->
  email (currentUser (auth st)) = Some e ->
  perform (UpdateProfile (trim (orEmpty (displayName (currentUser (auth st))))))
    (auth st) = (Fulfilled, b) ->
  email (currentUser b) = Some e ->
  let st' := handleSaveInfo currentUser perform st in
  calls st'
  = (calls st
     ++ [UpdateProfile (trim (orEmpty (displayName (currentUser (auth st)))))])%list
  /\ isEditing st' = false
  /\ isLoading st' = false
  /\ error st' = ""
  /\ message st' = "Personal information updated successfully!".
Proof.
  intros F E P E'. cbv zeta.
  unfold handleSaveInfo, await.
  cbn [formData auth setMessage setError setIsLoading].
  rewrite F. rewrite formOf_merge, P.
  unfold emailChanged. cbn [auth formData]. rewrite E'.
  unfold formOf. cbn [formEmail]. rewrite E. cbn [orEmpty].
  rewrite String.eqb_refl. cbn. repeat split.
Qed.

(** X28.  [handleSaveInfo] first updates the profile with the merged
    display name and calls the email update only after that succeeded
    and only when the email of the form differs from the user's (always,
    for a user without an email).  The form is never changed.  After
    success the page leaves editing mode with the success message; after
    a failure editing mode is as before, the message is empty and the
    error text is the one for the error's code.  [isLoading] is off at
    the end in every case. *)
Theorem handleSaveInfo_calls (st : settings backend) :
  let st' := handleSaveInfo currentUser perform st in
  let update := UpdateProfile (displayNameOf (formData st)) in
  let changed :=
    match email (currentUser (snd (perform update (auth st)))) with
    | Some e => formEmail (formData st) <> e
    | None => True
    end in
  isLoading st' = false /\
  formData st' = formData st /\
  exists trace,
    calls st' = (calls st ++ trace)%list /\
    (trace = [update]
     \/ trace = [update; UpdateEmail (formEmail (formData st))]) /\
    (trace = [update; UpdateEmail (formEmail (formData st))]
     <-> fst (perform update (auth st)) = Fulfilled /\ changed) /\
    ((isEditing st' = false /\ error st' = ""
      /\ message st' = "Personal information updated successfully!")
     \/ (isEditing st' = isEditing st /\ message st' = ""
         /\ exists code, error st' = saveError code)).
Proof.
  cbv zeta. unfold handleSaveInfo, await.
  cbn [formData auth calls setMessage setError setIsLoading].
  destruct (perform (UpdateProfile (displayNameOf (formData st))) (auth st))
    as [[| code] b1]; cbn [fst snd].
  2: { split; [reflexivity |]. split; [reflexivity |]. eexists.
       split; [reflexivity |]. split; [now left |]. split.
       - split; [discriminate | intros [H _]; discriminate H].
       - right. cbn. repeat split. now exists code. }
  unfold emailChanged. cbn [auth formData].
  destruct (email (currentUser b1)) as [e |].
  - destruct (String.eqb_spec (formEmail (formData st)) e) as [E | N]; cbn [negb].
    + split; [reflexivity |]. split; [reflexivity |]. eexists.
      split; [reflexivity |]. split; [now left |]. split.
      * split; [discriminate | intros [_ H]; contradiction].
      * left. cbn. now repeat split.
    + cbn [calls auth formData].
      destruct (perform (UpdateEmail (formEmail (formData st))) b1) as [[| code] b2].
      * split; [reflexivity |]. split; [reflexivity |]. eexists.
        split; [cbn; now rewrite <- app_assoc |]. split; [now right |]. split.
        -- split; [now split | reflexivity].
        -- left. cbn. now repeat split.
      * split; [reflexivity |]. split; [reflexivity |]. eexists.
        split; [cbn; now rewrite <- app_assoc |]. split; [now right |]. split.
        -- split; [now split | reflexivity].
        -- right. cbn. repeat split. now exists code.
  - cbn [calls auth formData].
    destruct (perform (UpdateEmail (formEmail (formData st))) b1) as [[| code] b2].
    + split; [reflexivity |]. split; [reflexivity |]. eexists.
      split; [cbn; now rewrite <- app_assoc |]. split; [now right |]. split.
      * split; [now split | reflexivity].
      * left. cbn. now repeat split.
    + split; [reflexivity |]. split; [reflexivity |]. eexists.
      split; [cbn; now rewrite <- app_assoc |]. split; [now right |]. split.
      * split; [now split | reflexivity].
      * right. cbn. repeat split. now exists code.
Qed.

(** X23.  [handleUpdatePassword] calls the auth service only for a new
    password that equals its confirmation, has at least six characters
    and differs from the current one; it then re-authenticates with the
    current password first and updates the password only after that
    succeeded.  The password form is cleared only when both calls
    succeeded, and [isLoading] is off at the end in every case. *)
Theorem handleUpdatePassword_checks (st : settings backend) :
  let st' := handleUpdatePassword currentUser perform st in
  let pw := passwordData st in
  let reauthenticate :=
    Reauthenticate (email (currentUser (auth st))) (currentPassword pw) in
  let valid := newPassword pw = confirmPassword pw
               /\ (6 <= length (newPassword pw))%nat
               /\ currentPassword pw <> newPassword pw in
  isLoading st' = false /\
  exists trace,
    calls st' = (calls st ++ trace)%list /\
    (trace = [] \/ trace = [reauthenticate]
     \/ trace = [reauthenticate; UpdatePassword (newPassword pw)]) /\
    (trace <> [] <-> valid) /\
    (trace = [reauthenticate; UpdatePassword (newPassword pw)]
     <-> valid /\ fst (perform reauthenticate (auth st)) = Fulfilled) /\
    (passwordData st' = pw
     \/ (passwordData st'
         = {| currentPassword := ""; newPassword := ""; confirmPassword := "" |}
         /\ message st' = "Password updated successfully!"
         /\ trace = [reauthenticate; UpdatePassword (newPassword pw)])).
Proof.
  cbv zeta.
  unfold handleUpdatePassword, await.
  cbn [passwordData auth calls setMessage setError setIsLoading isLoading].
  destruct (String.eqb_spec (newPassword (passwordData st))
              (confirmPassword (passwordData st))) as [Ec | Nc]; cbn [negb].
  2: { split; [reflexivity |]. exists []. cbn. rewrite app_nil_r.
       repeat split; try tauto; try discriminate; intros []; tauto || discriminate. }
  destruct (Nat.ltb_spec (length (newPassword (passwordData st))) 6) as [Lt | Ge].
  { split; [reflexivity |]. exists []. cbn. rewrite app_nil_r.
    repeat split; try tauto; try discriminate; intros []; try tauto; lia. }
  destruct (String.eqb_spec (currentPassword (passwordData st))
              (newPassword (passwordData st))) as [Es | Ns].
  { split; [reflexivity |]. exists []. cbn. rewrite app_nil_r.
    repeat split; try tauto; try discriminate; intros []; tauto. }
  destruct (perform (Reauthenticate (email (currentUser (auth st)))
                       (currentPassword (passwordData st))) (auth st))
    as [[| code] b1].
  2: { split; [reflexivity |]. eexists. cbn. split; [reflexivity |].
       repeat split; try tauto; try discriminate.
       intros [_ H]. discriminate H. }
  cbn [auth calls passwordData].
  destruct (perform (UpdatePassword (newPassword (passwordData st))) b1)
    as [[| code] b2].
  - split; [reflexivity |]. eexists. cbn. split; [now rewrite <- app_assoc |].
    cbn [app]. repeat split; try tauto; try discriminate.
  - split; [reflexivity |]. eexists. cbn. split; [now rewrite <- app_assoc |].
    cbn [app]. repeat split; try tauto; try discriminate.
Qed.

End Firebase.
End AccountTheorems.

(** ** The theorems at concrete inputs *)

Module Examples.
Import JS Strapi CancelSpec StrapiFacts NormalizerSpec MyBookings ClientTheorems Scripted.

Local Open Scope string_scope.

(** The record is found, DELETE is answered 500 and PUT 204 without a
    body: the store has accepted the update, and the operation fails
    with the error of the JSON parser. *)
Lemma cancelBooking_flow_witness :
  locate (JString "bk7") (start acceptedScript)
    = (Return (JNumber 7, JString "bk7"),
       {| store := [answer 500 ""; noContent];
          sent := [(directQuery (JString "bk7"), answer 200 (dataText "7"))] |})
  /\ ok {| status := 204; statusText := "No Content";
           contentType := None; text := "" |} = true
  /\ fst (cancelBooking (JString "bk7") (start acceptedScript))
     = Throw "Unexpected end of JSON input"
  /\ map (fun x => (method (fst x), url (fst x), body (fst x)))
       (sent (snd (cancelBooking (JString "bk7") (start acceptedScript))))
     = [ ("GET", "http://localhost:1337/api/bookings/bk7?populate=*", None);
         ("DELETE", "http://localhost:1337/api/bookings/bk7", None);
         ("PUT", "http://localhost:1337/api/bookings/bk7",
          Some ("{" ++ quote "data" ++ ":{" ++ quote "bookingStatus" ++ ":"
                ++ quote "cancelled" ++ "}}")) ].
Proof.
  assert (H : locate (JString "bk7") (start acceptedScript)
              = (Return (JNumber 7, JString "bk7"),
                 {| store := [answer 500 ""; noContent];
                    sent := [(directQuery (JString "bk7"),
                              answer 200 (dataText "7"))] |}))
    by (vm_compute; reflexivity).
  split; [exact H |]. split; [reflexivity |].
  destruct (cancelBooking_flow _ _ _ _ _ H) as (_ & _ & H3 & _).
  destruct H3 as (Hlog & _ & _ & Hfail & _).
  { left. exists 500%Z. split; [| discriminate]. eexists. repeat split. }
  split.
  - apply Hfail; [| split; reflexivity]. eexists. repeat split.
  - rewrite Hlog. reflexivity.
Defined.

(** The same exchange with PUT answered 404: the operation reports
    success. *)
Example cancelBooking_race :
  fst (cancelBooking (JString "bk7") (start raceScript)) = Return cancelled.
Proof. vm_compute. reflexivity. Qed.

(** Both queries rejected: the answer is [exists: false]. *)
Lemma checkBookingExists_network_failure_witness :
  fst (checkBookingExists (JString "bk7") (start []))
  = Return {| exists_ := false; booking := null |}.
Proof.
  apply (checkBookingExists_network_failure _ _ "Failed to fetch" "Failed to fetch");
    reflexivity.
Defined.

(** C4, as first stated, fails on a raw record that carries only a generic
    status: the claim gives [cancelled], the code [confirmed]. *)
Lemma generic_status_is_dropped :
  ~ status_with_generic_fallback (JObject [("status", JString "cancelled")]).
Proof.
  intros H. specialize (H _ eq_refl). vm_compute in H. discriminate H.
Qed.

(** C5, as first stated, fails on an absolute URL that does not start
    with "http" (a data URL gets the base URL in front) and on a
    relative path that does (it is returned as it is). *)
Lemma absolute_url_gets_base :
  ~ resolved_by_kind "data:image/png;base64,AAAA"
  /\ ~ resolved_by_kind "httpdocs/a.png".
Proof.
  split; intros H; vm_compute in H; discriminate H.
Qed.

Example getImageUrl_data_url :
  getImageUrl_default (JString "data:image/png;base64,AAAA")
  = Return (JString "http://localhost:1337data:image/png;base64,AAAA").
Proof. reflexivity. Qed.

Example getImageUrl_httpdocs :
  getImageUrl_default (JString "httpdocs/a.png") = Return (JString "httpdocs/a.png").
Proof. reflexivity. Qed.

Example getImageUrl_undefined_fallback :
  getImageUrl null undefined = Return (JString placeholder)
  /\ getImageUrl null (JString "/none.png") = Return (JString "/none.png")
  /\ getImageUrl (JObject [("url", JString "/uploads/a.png")]) undefined
     = Return (JString "http://localhost:1337/uploads/a.png").
Proof. repeat split. Qed.

Lemma normalizeBooking_status_witness :
  normalizeBooking rawBooking = Return (normalized rawBooking)
  /\ statusOf (normalized rawBooking) = JString "cancelled"
  /\ statusOf (normalized legacyBooking) = JString "confirmed".
Proof.
  assert (H1 : normalizeBooking rawBooking = Return (normalized rawBooking))
    by reflexivity.
  assert (H2 : normalizeBooking legacyBooking = Return (normalized legacyBooking))
    by reflexivity.
  split; [exact H1 |]. split.
  - destruct (normalizeBooking_status _ _ H1) as (_ & _ & E & _). rewrite E. reflexivity.
  - destruct (normalizeBooking_status _ _ H2) as (_ & _ & E & _). rewrite E. reflexivity.
Defined.

Lemma normalizeBooking_id_witness :
  normalizeBooking rawBooking = Return (normalized rawBooking)
  /\ id (normalized rawBooking) = JString "k3x9"
  /\ id (normalized legacyBooking) = JNumber 12
  /\ strapiId (normalized rawBooking) = JNumber 12.
Proof.
  assert (H1 : normalizeBooking rawBooking = Return (normalized rawBooking))
    by reflexivity.
  assert (H2 : normalizeBooking legacyBooking = Return (normalized legacyBooking))
    by reflexivity.
  split; [exact H1 |]. split; [| split].
  - destruct (normalizeBooking_id _ _ H1) as (_ & E & _). rewrite E; reflexivity.
  - destruct (normalizeBooking_id _ _ H2) as (E & _). rewrite E; reflexivity.
  - destruct (normalizeBooking_id _ _ H1) as (_ & _ & E & _). rewrite E; reflexivity.
Defined.

Lemma tabs_upcoming_and_cancelled_witness :
  In (normalized legacyBooking) [normalized rawBooking; normalized legacyBooking]
  /\ In (normalized legacyBooking)
        (upcomingBookings dayjsOfNumber 999
           [normalized rawBooking; normalized legacyBooking])
  /\ In (normalized rawBooking)
        (pastBookings dayjsOfNumber 999
           [normalized rawBooking; normalized legacyBooking]).
Proof.
  assert (H1 : In (normalized legacyBooking)
                 [normalized rawBooking; normalized legacyBooking])
    by (right; left; reflexivity).
  assert (H2 : In (normalized rawBooking)
                 [normalized rawBooking; normalized legacyBooking])
    by (left; reflexivity).
  split; [exact H1 |]. split.
  - destruct (tabs_upcoming_and_cancelled dayjsOfNumber 999 _ _ H1) as [U _].
    apply (U 1000%Z); [reflexivity | lia | reflexivity].
  - destruct (tabs_upcoming_and_cancelled dayjsOfNumber 999 _ _ H2) as [_ P].
    apply P. reflexivity.
Defined.

Lemma tabs_not_exhaustive_witness :
  scheduledInstant dayjsOfNumber (normalized legacyBooking) = Some 1000%Z
  /\ ~ In (normalized legacyBooking)
         (upcomingBookings dayjsOfNumber 1000 [normalized legacyBooking])
  /\ ~ In (normalized legacyBooking)
         (pastBookings dayjsOfNumber 1000 [normalized legacyBooking]).
Proof.
  assert (H : scheduledInstant dayjsOfNumber (normalized legacyBooking) = Some 1000%Z)
    by reflexivity.
  split; [exact H |].
  destruct (tabs_not_exhaustive dayjsOfNumber 1000 [normalized legacyBooking] _ H eq_refl)
    as (U & P & _).
  split; assumption.
Defined.

(** The 15th of November 2026 at "2:00 PM", service "Haircut": one POST
    whose payload carries 14:00 of that day. *)
Lemma dayjsLenient_reads (zone : JSDate.Zone) :
  BookingSpec.readsLocalTime dayjsLenient.
Proof. intros t y m d minutes H. unfold dayjsLenient. now rewrite H. Qed.



End Examples.

(** ** The further theorems at concrete inputs *)

Module Walkthroughs.
Import JSDate JS Strapi Schedule ScheduleView CalendarSpec ViewSpec
       CalendarTheorems ViewTheorems ServiceSpec ServiceTheorems Scripted
       Scenarios.

Local Open Scope string_scope.

#[local] Existing Instance demo.

(** November 2026 starts on a Sunday: position 10 is Wednesday the
    11th. *)
Lemma generateCalendar_columns_witness :
  regular (zone := Zones.eastern) 1794753000000
  /\ nth_error (generateCalendar (zone := Zones.eastern) 1794753000000) 10
     = Some (newDate (zone := Zones.eastern) 2026 10 11)
  /\ getDay (newDate (zone := Zones.eastern) 2026 10 11) = (Z.of_nat 10 mod 7)%Z.
Proof.
  assert (H : nth_error (generateCalendar (zone := Zones.eastern) 1794753000000) 10
              = Some (newDate (zone := Zones.eastern) 2026 10 11))
    by (vm_compute; reflexivity).
  split; [exact november_2026_regular |]. split; [exact H |].
  exact (generateCalendar_columns (zone := Zones.eastern) 1794753000000 10 _
           november_2026_regular H).
Defined.

(** The cells drawn for November 2026 carry 42 different keys. *)
Lemma calendarBody_keys_witness :
  regular (zone := Zones.eastern) 1794753000000
  /\ NoDup (map key (calendarBody (zone := Zones.eastern)
                       1794753000000 1794753000000 1794753000000 None)).
Proof.
  split; [exact november_2026_regular |].
  exact (proj1 (proj2 (calendarBody_keys (zone := Zones.eastern)
                         1794753000000 1794753000000 1794753000000 None
                         november_2026_regular))).
Defined.

Lemma month_navigation_witness :
  ~ (-1 <= getFullYear 1794753000000 <= 100)%Z
  /\ generateCalendar (zone := Zones.eastern)
       (nextMonth (zone := Zones.eastern)
          (prevMonth (zone := Zones.eastern) 1794753000000))
     = generateCalendar (zone := Zones.eastern) 1794753000000.
Proof.
  assert (H : ~ (-1 <= getFullYear 1794753000000 <= 100)%Z).
  { replace (getFullYear 1794753000000) with 2026%Z by (vm_compute; reflexivity). lia. }
  split; [exact H |].
  assert (B : forall d, (20000 <= d <= 21000)%Z -> builds (zone := Zones.eastern) d).
  { intros d Hd. apply fixedOffset_builds. unfold msPerDay, timeLimit. lia. }
  refine (proj1 (proj2 (proj2 (proj2 (proj2 (proj2 (proj2
            (month_navigation (zone := Zones.eastern) 1794753000000 H _ _ _))))))));
    apply B; vm_compute; split; discriminate.
Defined.


(** The flag of a cell is the one of the render: a page drawn one minute
    before midnight of 14 November 2026 and clicked two minutes later
    selects the 14th, the day before the click. *)
Example stale_render_selects_yesterday :
  selectedDate
    (run (zone := Zones.utc)
       {| viewMonth := 1794700740000; selectedDate := None; drawn := 1794700740000 |}
       [Click 1794700860000 13])
  = Some (newDate (zone := Zones.utc) 2026 10 14)
  /\ isDateDisabled 1794700860000 (newDate (zone := Zones.utc) 2026 10 14) = true.
Proof. vm_compute. split; reflexivity. Qed.

(** January of the year 51 is drawn as January 1951. *)
Lemma generateCalendar_years_0_99_witness :
  (0 <= getFullYear (-60556550400000) <= 99)%Z
  /\ generateCalendar (zone := Zones.eastern) (-60556550400000)
     = generateCalendar (zone := Zones.eastern)
         (newDate (zone := Zones.eastern) 1951 0 1).
Proof.
  assert (H : (0 <= getFullYear (-60556550400000) <= 99)%Z).
  { replace (getFullYear (-60556550400000)) with 51%Z by (vm_compute; reflexivity). lia. }
  split; [exact H |].
  destruct (generateCalendar_years_0_99 (zone := Zones.eastern) (-60556550400000) H)
    as (_ & _ & E & _).
  rewrite E. vm_compute. reflexivity.
Defined.

Lemma cancelBooking_direct_404_witness :
  cancelBooking (JString "bk7") (begin [answer 404 ""])
  = (Throw "Booking not found on server",
     {| store := []; sent := [(directQuery (JString "bk7"), answer 404 "")] |})
  /\ map fst (sent (snd (checkBookingExists (JString "bk7") (begin [answer 404 ""]))))
     = [directQuery (JString "bk7"); filterQuery (JString "bk7")].
Proof.
  exact (cancelBooking_direct_404 (JString "bk7") (begin [answer 404 ""]) _ []
           eq_refl eq_refl).
Defined.

Lemma fetchBookingsForUser_list_witness :
  exists bs,
    fst (fetchBookingsForUser (JString "ann@example.org")
           (begin [answer 200 oneBooking])) = Return bs
    /\ map id bs = [JString "k3x9"].
Proof.
  destruct (fetchBookingsForUser_list (JString "ann@example.org")
              (begin [answer 200 oneBooking]) _ []
              (JObject [("data", JArray [rawBooking])])
              eq_refl eq_refl eq_refl eq_refl) as (_ & _ & H).
  destruct (H [rawBooking] eq_refl) as (H1 & _).
  destruct (H1 ltac:(repeat constructor)) as (bs & E & _ & I).
  exists bs. split; [exact E | exact I].
Defined.

Lemma getImageUrl_absolute_witness :
  absolute (JString "http://localhost:1337/uploads/cut.png")
  /\ getImageUrl (JString "http://localhost:1337/uploads/cut.png") (JString placeholder)
     = Return (JString "http://localhost:1337/uploads/cut.png").
Proof.
  apply (getImageUrl_absolute (JObject [("url", JString "/uploads/cut.png")])
           (JString placeholder)).
  - reflexivity.
  - exists placeholder. split; reflexivity.
  - reflexivity.
Defined.

End Walkthroughs.

Module PageWalkthroughs.
Import JSDate JS Strapi ScheduleBooking BookingSpec BookingPageSpec
       BookingPageTheorems Scripted Scenarios.

Local Open Scope string_scope.

#[local] Existing Instance demo.

(** The store answers 201 with an empty body. *)
Lemma onBook_accepted_but_unreadable_witness :
  onBook dayjsOfText isoUTC "Invalid time value"
    (Some 1794700800000%Z) (Some "2:00 PM") signedIn haircut idle
    (begin [answer 201 ""])
  = (Return {| processing := false; errMsg := "Booking failed. Please try again.";
               alerts := []; location := None |},
     {| store := [];
        sent := [(createRequest
                    (payload (JString "svc-haircut") (JString "ann@example.org")
                       (JString "2026-11-15T14:00:00.000Z")),
                  answer 201 "")] |}).
Proof.
  exact (onBook_accepted_but_unreadable dayjsOfText isoUTC "Invalid time value"
           1794700800000%Z "2:00 PM" signedIn haircut
           (payload (JString "svc-haircut") (JString "ann@example.org")
              (JString "2026-11-15T14:00:00.000Z"))
           idle (begin [answer 201 ""]) _ [] "Unexpected end of JSON input"
           eq_refl eq_refl eq_refl eq_refl eq_refl).
Defined.

Lemma onBook_invalid_email_witness :
  onBook dayjsOfText isoUTC "Invalid time value"
    (Some 1794700800000%Z) (Some "2:00 PM") oddUser haircut idle
    (begin [answer 200 (dataText "7")])
  = (Return {| processing := false;
               errMsg := "Email validation error. Please sign out and sign in again.";
               alerts := []; location := None |},
     begin [answer 200 (dataText "7")]).
Proof.
  apply (onBook_invalid_email dayjsOfText isoUTC "Invalid time value").
  - reflexivity.
  - right. exists "ann.example.org". split; reflexivity.
Defined.

(** The store answers 400 without a reason phrase. *)
Lemma onBook_http_failure_witness :
  fst (onBook dayjsOfText isoUTC "Invalid time value"
         (Some 1794700800000%Z) (Some "2:00 PM") signedIn haircut idle
         (begin [answer 400 ""]))
  = Return {| processing := false;
              errMsg := "Invalid booking data. Please check your information.";
              alerts := []; location := None |}.
Proof.
  exact (onBook_http_failure dayjsOfText isoUTC "Invalid time value"
           1794700800000%Z "2:00 PM" signedIn haircut
           (payload (JString "svc-haircut") (JString "ann@example.org")
              (JString "2026-11-15T14:00:00.000Z"))
           idle (begin [answer 400 ""]) _ []
           eq_refl eq_refl eq_refl eq_refl
           ltac:(change (100 <= 400 <= 599)%Z; lia)
           ltac:(repeat constructor)).
Defined.

(** Booking the haircut again: the payload refers to the service by its
    number, not by its document id. *)
Lemma rebook_service_reference_witness :
  ScheduleView.selectedServiceOf
    (JObject [("service", MyBookingsPage.rebookService haircut)])
  = MyBookingsPage.rebookService haircut
  /\ get (payload (JNumber 3) (JString "ann@example.org")
            (JString "2026-11-15T14:00:00.000Z")) "service"
     = JNumber 3.
Proof.
  exact (rebook_service_reference dayjsOfText isoUTC "Invalid time value"
           haircutBooking listed
           (JObject [("service", MyBookingsPage.rebookService haircut)])
           1794700800000%Z "2:00 PM" signedIn
           (payload (JNumber 3) (JString "ann@example.org")
              (JString "2026-11-15T14:00:00.000Z"))
           (begin []) (begin [])
           eq_refl (or_introl eq_refl) eq_refl).
Defined.

End PageWalkthroughs.

Module CancelWalkthroughs.
Import JS Strapi CancelSpec MyBookingsPage CancelPageSpec MyBookingsTheorems
       Scripted Scenarios.

Local Open Scope string_scope.

#[local] Existing Instance demo.

Lemma handleCancelBooking_offline_witness :
  fst (handleCancelBooking true haircutBooking listed (begin []))
  = Return {| bookings := [otherBooking]; error := ""; loading := false;
              selectedBooking := None; showModal := false; cancelling := false;
              alerts := [gone]; location := None |}
  /\ sent (snd (handleCancelBooking true haircutBooking listed (begin [])))
     = [(directQuery (JString "bk7"), Rejected "Failed to fetch");
        (filterQuery (JString "bk7"), Rejected "Failed to fetch")].
Proof.
  destruct (handleCancelBooking_offline haircutBooking listed (begin [])
              "Failed to fetch" "Failed to fetch" [] [] eq_refl eq_refl) as [H _].
  rewrite H. split; reflexivity.
Defined.

Lemma handleCancelBooking_filter_only_witness :
  fst (handleCancelBooking true haircutBooking listed
         (begin [answer 404 ""; answer 200 oneBooking; answer 404 ""]))
  = Return {| bookings := [otherBooking]; error := ""; loading := false;
              selectedBooking := None; showModal := false; cancelling := false;
              alerts := [already]; location := None |}
  /\ map (fun x => method (fst x))
       (sent (snd (handleCancelBooking true haircutBooking listed
                     (begin [answer 404 ""; answer 200 oneBooking; answer 404 ""]))))
     = ["GET"; "GET"; "GET"].
Proof.
  rewrite (handleCancelBooking_filter_only haircutBooking listed
             (begin [answer 404 ""; answer 200 oneBooking; answer 404 ""])
             _ _ _ [answer 200 oneBooking; answer 404 ""] [answer 404 ""] []
             (JObject [("data", JArray [rawBooking])])
             eq_refl eq_refl eq_refl eq_refl eq_refl eq_refl eq_refl eq_refl eq_refl).
  split; reflexivity.
Defined.

(** The booking is found twice, DELETE is answered 500 and PUT 204
    without a body: the booking stays listed with the failure notice. *)
Lemma handleCancelBooking_found_witness :
  fst (handleCancelBooking true haircutBooking listed
         (begin [answer 200 (dataText "7"); answer 200 (dataText "7");
                 answer 500 ""; noContent]))
  = Return (kept failedNotice listed).
Proof.
  destruct (handleCancelBooking_found haircutBooking listed
              (begin [answer 200 (dataText "7"); answer 200 (dataText "7");
                      answer 500 ""; noContent])
              (running [answer 200 (dataText "7"); answer 500 ""; noContent]
                 [(directQuery (JString "bk7"), answer 200 (dataText "7"))])
              (running [answer 500 ""; noContent]
                 [(directQuery (JString "bk7"), answer 200 (dataText "7"));
                  (directQuery (JString "bk7"), answer 200 (dataText "7"))])
              {| exists_ := true; booking := JNumber 7 |}
              (JNumber 7) (JString "bk7")
              eq_refl eq_refl eq_refl) as (_ & _ & H).
  apply (proj2 (proj2 (H 500%Z ltac:(eexists; repeat split) ltac:(discriminate)))
           "Unexpected end of JSON input"
           ltac:(eexists; repeat split) ltac:(split; reflexivity)
           eq_refl eq_refl).
Defined.

(** The same with PUT answered 503: the same notice. *)
Example handleCancelBooking_both_fail :
  fst (handleCancelBooking true haircutBooking listed
         (begin [answer 200 (dataText "7"); answer 200 (dataText "7");
                 answer 500 ""; answer 503 ""]))
  = Return (kept failedNotice listed).
Proof. vm_compute. reflexivity. Qed.

End CancelWalkthroughs.

Module AccountWalkthroughs.
Import JS AccountSettings AccountTheorems Scenarios.

Local Open Scope string_scope.

(** Ann opens the form and saves it as it is. *)
Lemma handleSaveInfo_untouched_witness :
  calls (handleSaveInfo (fun u => u) toyPerform loaded) = [UpdateProfile "Ann  Lee"]
  /\ isEditing (handleSaveInfo (fun u => u) toyPerform loaded) = false.
Proof.
  destruct (handleSaveInfo_untouched user (fun u => u) toyPerform loaded
              "ann@example.org"
              {| displayName := Some "Ann  Lee"; email := Some "ann@example.org";
                 phoneNumber := None |}
              eq_refl eq_refl eq_refl eq_refl) as (H1 & H2 & _).
  split; [exact H1 | exact H2].
Defined.

(** White space outside ASCII around a display name is trimmed as
    well. *)
Example trim_unicode_space :
  trim (noBreakSpace ++ "Ann Lee" ++ ideographicSpace) = "Ann Lee"
  /\ trim (noBreakSpace ++ ideographicSpace) = ""
  /\ calls (handleSaveInfo (fun u => u) toyPerform loadedPadded)
     = [UpdateProfile "Ann Lee"].
Proof. repeat split. Qed.

(** A password is measured in characters, not in bytes: three accented
    letters are too short, six are accepted. *)
Example handleUpdatePassword_accented :
  String.length (newPassword (passwordData (typed 3))) = 6%nat
  /\ JS.length (newPassword (passwordData (typed 3))) = 3%nat
  /\ calls (handleUpdatePassword (fun u => u) toyPerform (typed 3)) = []
  /\ error (handleUpdatePassword (fun u => u) toyPerform (typed 3))
     = "Password must be at least 6 characters long"
  /\ calls (handleUpdatePassword (fun u => u) toyPerform (typed 6))
     = [Reauthenticate (Some "ann@example.org") "secret";
        UpdatePassword (newPassword (passwordData (typed 6)))].
Proof. repeat split. Qed.

End AccountWalkthroughs.
